(** * RadiaCode: the request/response framer and the device facade

    A shallow embedding of [radiacode/radiacode.py]: the pure conversion
    [spectrum_channel_to_energy], the framer ([execute], [read_request],
    [write_request], [batch_read_vsfrs]) and the facade methods of class
    [RadiaCode], with the session object threaded explicitly.

    Python values are modelled as follows.
    - [int] is [Z]; [bool] is [bool]; [bytes] is a list of [Byte.byte].
    - [float] is an IEEE 754 binary64 number, [spec_float] with precision 53
      and maximal exponent 1024 (no NaN payloads).
    - [str] is [string]. A text decoded from cp1251 is held by its cp1251
      code units: the decoder maps units one to one to characters and agrees
      with ASCII below 128, so [split] and [startswith] on ASCII patterns
      behave alike on both.
    - A raised exception is the [Raise] case of [result]; assertions are on
      (the interpreter runs without [-O]). *)

From Stdlib Require Import ZArith List Bool Lia.
From Stdlib Require Import Strings.Byte Strings.Ascii Strings.String.
From Stdlib Require Import Floats.SpecFloat.
Import ListNotations.
Local Open Scope Z_scope.

(** ** Exceptions *)

(** The [assert] statements of [radiacode.py], by site. *)
Inductive assertion : Type :=
| A_reqtype_len      (* execute: assert len(reqtype) == 2 *)
| A_header_echo      (* execute: assert req_header == resp_header *)
| A_retcode          (* assert retcode == 1 *)
| A_length           (* read_request: assert r.size() == flen *)
| A_exhausted        (* assert r.size() == 0 *)
| A_nonempty         (* batch_read_vsfrs: assert len(vsfr_ids) *)
| A_serial_len       (* hw_serial_number: assert serial_len % 4 == 0 *)
| A_coef_len         (* set_energy_calib: assert len(coef) == 3 *)
| A_lang             (* set_language: assert lang in {'ru', 'en'} *)
| A_device_off       (* set_device_on: assert not on *)
| A_seconds          (* set_display_off_time: assert seconds in {5, 10, 15, 30} *)
| A_brightness       (* set_display_brightness: assert 0 <= brightness <= 9 *)
| A_clicks.          (* set_vibro_ctrl: assert c != CTRL.CLICKS *)

Inductive exn : Type :=
| AssertionError (site : assertion)
| StructError                          (* struct.error: argument out of range *)
| OverflowError                        (* int or float too large to convert *)
| UnderflowError                       (* BytesBuffer.unpack past the end *)
| IncompatibleFirmware (vmaj vmin : Z) (* the Exception raised by __init__ *)
| IndexError
| ValueError
| UnicodeDecodeError
| AttributeError
| TransportError.                      (* whatever the transport raised *)

(** The error names of the specification, as the code raises them. *)
Definition ProtocolMismatchError : exn := AssertionError A_header_echo.
Definition DeviceRejectedError : exn := AssertionError A_retcode.
Definition LengthMismatchError : exn := AssertionError A_length.

Inductive result (A : Type) : Type :=
| Ok (a : A)
| Raise (e : exn).
Arguments Ok {A} a.
Arguments Raise {A} e.

Definition rbind {A B} (r : result A) (k : A -> result B) : result B :=
  match r with
  | Ok a => k a
  | Raise e => Raise e
  end.

Declare Scope result_scope.
Delimit Scope result_scope with result.
Notation "x <- r ;; k" := (rbind r (fun x => k))
  (at level 61, r at next level, right associativity) : result_scope.
Notation "' p <- r ;; k" := (rbind r (fun x => let p := x in k))
  (at level 61, p pattern, r at next level, right associativity) : result_scope.

Definition rmap {A B} (f : A -> result B) : list A -> result (list B) :=
  fix go l :=
    match l with
    | [] => Ok []
    | a :: l' => (b <- f a ;; bs <- go l' ;; Ok (b :: bs))%result
    end.

(** ** [bytes] and [struct] *)

Definition bytes : Type := list byte.

Definition int_of_byte (b : byte) : Z := Z.of_N (Byte.to_N b).

Definition byte_of_int (z : Z) : byte :=
  match Byte.of_N (Z.to_N z) with
  | Some b => b
  | None => x00
  end.

Definition bytes_eqb (a b : bytes) : bool :=
  if list_eq_dec Byte.byte_eq_dec a b then true else false.

(** Little-endian digits: [le_bytes n z] is [z] on [n] bytes, [le_value] reads
    them back. *)
Fixpoint le_bytes (n : nat) (z : Z) : bytes :=
  match n with
  | O => []
  | S n' => byte_of_int (z mod 256) :: le_bytes n' (z / 256)
  end.

Fixpoint le_value (bs : bytes) : Z :=
  match bs with
  | [] => 0
  | b :: bs' => int_of_byte b + 256 * le_value bs'
  end.

(** [struct.pack('<B' | '<H' | '<I', z)]: [struct.error] out of range. *)
Definition pack_uint (n : nat) (z : Z) : result bytes :=
  if (0 <=? z) && (z <? 256 ^ Z.of_nat n) then Ok (le_bytes n z) else Raise StructError.

Definition pack_B : Z -> result bytes := pack_uint 1.
Definition pack_H : Z -> result bytes := pack_uint 2.
Definition pack_I : Z -> result bytes := pack_uint 4.

Definition int_of_bool (b : bool) : Z := if b then 1 else 0.

(** [args or b''] *)
Definition or_empty (args : option bytes) : bytes :=
  match args with
  | Some a => a
  | None => []
  end.

(** ** [float]: IEEE 754 binary64 *)

Definition float : Type := spec_float.

Definition fadd : float -> float -> float := SFadd 53 1024.
Definition fmul : float -> float -> float := SFmul 53 1024.
(** [x == y] on floats *)
Definition feqb : float -> float -> bool := SFeqb.

(** The conversion of an [int] operand of a float operation: correctly
    rounded, [OverflowError] when the integer is too large. *)
Definition float_of_int (n : Z) : result float :=
  match binary_normalize 53 1024 n 0 false with
  | S754_infinity _ => Raise OverflowError
  | f => Ok f
  end.

(** [int * float] and [float * int] convert the integer first. *)
Definition fmul_int (x : float) (n : Z) : result float :=
  (y <- float_of_int n ;; Ok (fmul x y))%result.

(** [spectrum_channel_to_energy]:
    [a0 + a1 * channel_number + a2 * channel_number * channel_number],
    parsed as [(a0 + (a1 * c)) + ((a2 * c) * c)] and evaluated left to right. *)
Definition spectrum_channel_to_energy (channel_number : Z) (a0 a1 a2 : float) : result float :=
  (t1 <- fmul_int a1 channel_number ;;
   let s1 := fadd a0 t1 in
   t2 <- fmul_int a2 channel_number ;;
   t3 <- fmul_int t2 channel_number ;;
   Ok (fadd s1 t3))%result.

(** [math.isfinite(x)] *)
Definition is_finite (x : float) : bool :=
  match x with
  | S754_zero _ | S754_finite _ _ _ => true
  | S754_infinity _ | S754_nan => false
  end.

Definition is_zero (x : float) : bool :=
  match x with
  | S754_zero _ => true
  | _ => false
  end.

Definition is_nan (x : float) : bool :=
  match x with
  | S754_nan => true
  | _ => false
  end.

(** The binary32 codec of [struct]'s ['f'] format. *)
Definition float_of_bits32 (w : Z) : float :=
  let s := Z.testbit w 31 in
  let e := Z.land (Z.shiftr w 23) 255 in
  let m := Z.land w (2 ^ 23 - 1) in
  if e =? 255 then (if m =? 0 then S754_infinity s else S754_nan)
  else if e =? 0 then
    match m with
    | Zpos p => binary_round 53 1024 s p (-149)
    | _ => S754_zero s
    end
  else
    match m + 2 ^ 23 with
    | Zpos p => binary_round 53 1024 s p (e - 150)
    | _ => S754_zero s
    end.

Definition bits32 (s : bool) (e m : Z) : Z :=
  (if s then 2 ^ 31 else 0) + e * 2 ^ 23 + m.

(** [struct.pack('<f', x)]: round to binary32, [OverflowError] when a finite
    [x] rounds to an infinity. *)
Definition pack_f (x : float) : result bytes :=
  match x with
  | S754_zero s => Ok (le_bytes 4 (bits32 s 0 0))
  | S754_infinity s => Ok (le_bytes 4 (bits32 s 255 0))
  | S754_nan => Ok (le_bytes 4 (bits32 false 255 (2 ^ 22)))
  | S754_finite s m e =>
      match binary_round 24 128 s m e with
      | S754_finite s' m' e' =>
          if 2 ^ 23 <=? Zpos m'
          then Ok (le_bytes 4 (bits32 s' (e' + 150) (Zpos m' - 2 ^ 23)))
          else Ok (le_bytes 4 (bits32 s' 0 (Zpos m')))
      | S754_zero s' => Ok (le_bytes 4 (bits32 s' 0 0))
      | _ => Raise OverflowError
      end
  end.

(** ** [str] *)

Definition str_of_bytes (bs : bytes) : string := string_of_list_byte bs.

(** [bs.decode('ascii')] *)
Definition decode_ascii (bs : bytes) : result string :=
  if forallb (fun b => int_of_byte b <? 128) bs then Ok (str_of_bytes bs)
  else Raise UnicodeDecodeError.

(** [bs.decode('cp1251')]: every unit but 0x98 has a character. *)
Definition decode_cp1251 (bs : bytes) : result string :=
  if existsb (Byte.eqb x98) bs then Raise UnicodeDecodeError
  else Ok (str_of_bytes bs).

(** [s.split(sep)] for a one-character separator: never empty. *)
Fixpoint split (sep : ascii) (s : string) : list string :=
  match s with
  | EmptyString => [EmptyString]
  | String c s' =>
      if Ascii.eqb c sep then EmptyString :: split sep s'
      else
        match split sep s' with
        | [] => [String c EmptyString]
        | w :: ws => String c w :: ws
        end
  end.

(** [s.startswith(p)] *)
Definition startswith (s p : string) : bool := String.prefix p s.

Fixpoint lstrip (f : ascii -> bool) (s : string) : string :=
  match s with
  | EmptyString => EmptyString
  | String c s' => if f c then lstrip f s' else s
  end.

Fixpoint rstrip (f : ascii -> bool) (s : string) : string :=
  match s with
  | EmptyString => EmptyString
  | String c s' =>
      match rstrip f s' with
      | EmptyString => if f c then EmptyString else String c EmptyString
      | t => String c t
      end
  end.

Definition strip (f : ascii -> bool) (s : string) : string := rstrip f (lstrip f s).

Definition is_nul (c : ascii) : bool := Ascii.eqb c zero.

(** The white space [int] skips, among the characters of cp1251: the ASCII
    ones, 0x09 to 0x0d and 0x20, and the no-break space (unit 0xa0), the
    one character of the code page beyond ASCII that Unicode counts as
    white space. The separators 0x1c to 0x1f are not skipped. *)
Definition is_space (c : ascii) : bool :=
  let n := nat_of_ascii c in
  ((9 <=? n) && (n <=? 13) || (n =? 32) || (n =? 160))%nat.

Definition digit_of (c : ascii) : option Z :=
  let n := Z.of_nat (nat_of_ascii c) in
  if (48 <=? n) && (n <=? 57) then Some (n - 48) else None.

(** Decimal digits with single underscores between them; [acc] is the value
    so far, [count] the number of digits, [after_digit] whether the previous
    character was a digit. *)
Fixpoint int_digits (s : string) (acc : Z) (count : Z) (after_digit : bool) : option (Z * Z) :=
  match s with
  | EmptyString => if after_digit then Some (acc, count) else None
  | String c s' =>
      match digit_of c with
      | Some d => int_digits s' (10 * acc + d) (count + 1) true
      | None =>
          if Ascii.eqb c "_"%char && after_digit then int_digits s' acc count false
          else None
      end
  end.

(** [int(s)] in base 10: surrounding white space, an optional sign, digits.
    More than 4300 digits are refused (the interpreter's default limit). *)
Definition py_int (s : string) : result Z :=
  let t := strip is_space s in
  let '(neg, body) :=
    match t with
    | String c r =>
        if Ascii.eqb c "-" then (true, r)
        else if Ascii.eqb c "+" then (false, r)
        else (false, t)
    | EmptyString => (false, t)
    end in
  match int_digits body 0 0 false with
  | Some (v, count) =>
      if 4300 <? count then Raise ValueError
      else Ok (if neg then - v else v)
  | None => Raise ValueError
  end.

(** [l[i]] *)
Definition index {A} (l : list A) (i : nat) : result A :=
  match nth_error l i with
  | Some a => Ok a
  | None => Raise IndexError
  end.

Definition hex_digit (d : Z) : ascii :=
  ascii_of_nat (Z.to_nat (if d <? 10 then 48 + d else 55 + d)).

Fixpoint hex_digits (n : nat) (v : Z) (tail : string) : string :=
  match n with
  | O => tail
  | S n' => hex_digits n' (v / 16) (String (hex_digit (v mod 16)) tail)
  end.

(** [f'{v:08X}'] for [0 <= v < 2^32] *)
Definition hex8 (v : Z) : string := hex_digits 8 v EmptyString.

Fixpoint dec_digits (fuel : nat) (v : Z) (tail : string) : string :=
  match fuel with
  | O => tail
  | S fuel' =>
      let tail' := String (ascii_of_nat (Z.to_nat (48 + v mod 10))) tail in
      if v <? 10 then tail' else dec_digits fuel' (v / 10) tail'
  end.

(** [str(v)] for [0 <= v] *)
Definition str_of_nonneg (v : Z) : string := dec_digits (S (Z.to_nat (Z.log2 v))) v EmptyString.

Fixpoint join (sep : string) (l : list string) : string :=
  match l with
  | [] => EmptyString
  | [s] => s
  | s :: l' => (s ++ sep ++ join sep l')%string
  end.

Definition dquote : string := String (ascii_of_nat 34) EmptyString.

(** ** [datetime.datetime] *)

Record datetime : Type := {
  year : Z; month : Z; day : Z;
  hour : Z; minute : Z; second : Z; microsecond : Z
}.

(** ** [BytesBuffer] *)

(** Modelled from the spec: [radiacode/bytes_buffer.py] is not among the
    sources. Section 4.1: the buffer wraps a byte sequence with a read cursor;
    [unpack] decodes fixed-width little-endian fields, advances the cursor by
    the consumed width and fails with UnderflowError when too few bytes
    remain; [unpack_string] reads a 1-byte length and that many bytes and
    returns them as text without trailing NUL padding; [size] is the number
    of bytes left unread. [_data] is the attribute [read_request] reads and
    assigns. *)
Record BytesBuffer : Type := {
  _data : bytes;
  _pos : nat
}.

Definition BytesBuffer_new (d : bytes) : BytesBuffer := {| _data := d; _pos := 0 |}.

Definition size (r : BytesBuffer) : Z :=
  Z.of_nat (List.length (_data r)) - Z.of_nat (_pos r).

Definition data (r : BytesBuffer) : bytes := skipn (_pos r) (_data r).

(** The [sz] bytes under the cursor, which moves past them. *)
Definition unpack_bytes (sz : nat) (r : BytesBuffer) : result (bytes * BytesBuffer) :=
  if size r <? Z.of_nat sz then Raise UnderflowError
  else Ok (firstn sz (data r), {| _data := _data r; _pos := (_pos r + sz)%nat |}).

(** [r.unpack('<4s')[0]] and the like *)
Definition unpack_s (n : nat) (r : BytesBuffer) : result (bytes * BytesBuffer) :=
  unpack_bytes n r.

(** [r.unpack('<B')[0]] *)
Definition unpack_B (r : BytesBuffer) : result (Z * BytesBuffer) :=
  ('(bs, r) <- unpack_bytes 1 r ;; Ok (le_value bs, r))%result.

(** [r.unpack('<I')[0]] *)
Definition unpack_I (r : BytesBuffer) : result (Z * BytesBuffer) :=
  ('(bs, r) <- unpack_bytes 4 r ;; Ok (le_value bs, r))%result.

(** [r.unpack('<II')] *)
Definition unpack_II (r : BytesBuffer) : result ((Z * Z) * BytesBuffer) :=
  ('(bs, r) <- unpack_bytes 8 r ;;
   Ok ((le_value (firstn 4 bs), le_value (skipn 4 bs)), r))%result.

(** [r.unpack('<HH')] *)
Definition unpack_HH (r : BytesBuffer) : result ((Z * Z) * BytesBuffer) :=
  ('(bs, r) <- unpack_bytes 4 r ;;
   Ok ((le_value (firstn 2 bs), le_value (skipn 2 bs)), r))%result.

(** [r.unpack('<fff')] *)
Definition unpack_fff (r : BytesBuffer) : result (list float * BytesBuffer) :=
  ('(bs, r) <- unpack_bytes 12 r ;;
   Ok ([float_of_bits32 (le_value (firstn 4 bs));
        float_of_bits32 (le_value (firstn 4 (skipn 4 bs)));
        float_of_bits32 (le_value (skipn 8 bs))], r))%result.

Definition unpack_string (r : BytesBuffer) : result (string * BytesBuffer) :=
  ('(slen, r) <- unpack_B r ;;
   '(bs, r) <- unpack_bytes (Z.to_nat slen) r ;;
   Ok (rstrip is_nul (str_of_bytes bs), r))%result.

(** [[r.unpack('<I')[0] for _ in range(n)]] *)
Fixpoint unpack_I_times (n : nat) (r : BytesBuffer) : result (list Z * BytesBuffer) :=
  match n with
  | O => Ok ([], r)
  | S n' =>
      ('(v, r) <- unpack_I r ;;
       '(vs, r) <- unpack_I_times n' r ;;
       Ok (v :: vs, r))%result
  end.

(** ** The transport *)

(** Modelled from the spec: [radiacode/transports] is not among the sources.
    Section 6: a blocking [send_and_receive(bytes) -> bytes] that returns one
    full response buffer per request buffer. The device is any function from
    the requests received so far (the newest last) to its answer to the
    newest, or to the exception the transport raises; [sent] records the
    buffers handed to the transport. The answer comes back wrapped in a
    fresh [BytesBuffer], which is what [execute] unpacks. *)
Record Connection : Type := {
  device : list bytes -> result bytes;
  sent : list bytes
}.

Definition connection_execute (c : Connection) (request : bytes)
  : result BytesBuffer * Connection :=
  let sent' := sent c ++ [request] in
  (match device c sent' with
   | Ok response => Ok (BytesBuffer_new response)
   | Raise e => Raise e
   end,
   {| device := device c; sent := sent' |}).

(** ** The session *)

(** The attributes of a [RadiaCode] object; [None] is an attribute that
    [__init__] has not assigned yet. *)
Record RadiaCode : Type := {
  _connection : Connection;
  _seq : Z;
  _base_time : option datetime;
  _spectrum_format_version : option Z
}.

Definition set_connection (c : Connection) (self : RadiaCode) : RadiaCode :=
  {| _connection := c; _seq := _seq self; _base_time := _base_time self;
     _spectrum_format_version := _spectrum_format_version self |}.

Definition set_seq (n : Z) (self : RadiaCode) : RadiaCode :=
  {| _connection := _connection self; _seq := n; _base_time := _base_time self;
     _spectrum_format_version := _spectrum_format_version self |}.

Definition set_base_time (t : datetime) (self : RadiaCode) : RadiaCode :=
  {| _connection := _connection self; _seq := _seq self; _base_time := Some t;
     _spectrum_format_version := _spectrum_format_version self |}.

Definition set_spectrum_format_version (v : Z) (self : RadiaCode) : RadiaCode :=
  {| _connection := _connection self; _seq := _seq self; _base_time := _base_time self;
     _spectrum_format_version := Some v |}.

(** A method of the session: it returns or raises, and leaves a session. *)
Definition M (A : Type) : Type := RadiaCode -> result A * RadiaCode.

Definition ret {A} (a : A) : M A := fun self => (Ok a, self).

Definition bind {A B} (m : M A) (k : A -> M B) : M B :=
  fun self =>
    match m self with
    | (Ok a, self') => k a self'
    | (Raise e, self') => (Raise e, self')
    end.

(** A computation that does not touch the session. *)
Definition lift {A} (r : result A) : M A := fun self => (r, self).

Definition get {A} (f : RadiaCode -> A) : M A := fun self => (Ok (f self), self).

Definition modify (f : RadiaCode -> RadiaCode) : M unit := fun self => (Ok tt, f self).

(** [assert c] *)
Definition assert (c : bool) (site : assertion) : M unit :=
  lift (if c then Ok tt else Raise (AssertionError site)).

(** An attribute read: [AttributeError] before its first assignment. *)
Definition attribute {A} (f : RadiaCode -> option A) : M A :=
  fun self =>
    (match f self with
     | Some a => Ok a
     | None => Raise AttributeError
     end, self).

Declare Scope session_scope.
Delimit Scope session_scope with session.
Notation "x <- m ;; k" := (bind m (fun x => k))
  (at level 61, m at next level, right associativity) : session_scope.
Notation "' p <- m ;; k" := (bind m (fun x => let p := x in k))
  (at level 61, p pattern, m at next level, right associativity) : session_scope.
Notation "m ;; k" := (bind m (fun _ => k))
  (at level 61, right associativity) : session_scope.
Local Open Scope session_scope.

(** ** The framer *)

(** [RadiaCode.execute] *)
Definition execute (reqtype : bytes) (args : option bytes) : M BytesBuffer :=
  assert (Nat.eqb (List.length reqtype) 2) A_reqtype_len ;;
  seq <- get _seq ;;
  let req_seq_no := 128 + seq in
  modify (set_seq ((seq + 1) mod 32)) ;;
  b <- lift (pack_B req_seq_no) ;;
  let req_header := reqtype ++ [x00] ++ b in
  let request := req_header ++ or_empty args in
  n <- lift (pack_I (Z.of_nat (List.length request))) ;;
  let full_request := n ++ request in
  response <- (fun self =>
                 let '(r, c) := connection_execute (_connection self) full_request in
                 (r, set_connection c self)) ;;
  '(resp_header, response) <- lift (unpack_s 4 response) ;;
  assert (bytes_eqb req_header resp_header) A_header_echo ;;
  ret response.

(** [RadiaCode.read_request], [command_id] being [int(command_id)] *)
Definition read_request (command_id : Z) : M BytesBuffer :=
  a <- lift (pack_I command_id) ;;
  r <- execute [x26; x08] (Some a) ;;
  '((retcode, flen), r) <- lift (unpack_II r) ;;
  assert (retcode =? 1) A_retcode ;;
  let r :=
    if (size r =? flen + 1) && (int_of_byte (last (_data r) x00) =? 0)
    then {| _data := removelast (_data r); _pos := _pos r |}
    else r in
  assert (size r =? flen) A_length ;;
  ret r.

(** [RadiaCode.write_request] *)
Definition write_request (command_id : Z) (data : option bytes) : M unit :=
  a <- lift (pack_I command_id) ;;
  r <- execute [x25; x08] (Some (a ++ or_empty data)) ;;
  '(retcode, r) <- lift (unpack_I r) ;;
  assert (retcode =? 1) A_retcode ;;
  assert (size r =? 0) A_exhausted.

(** [RadiaCode.batch_read_vsfrs] *)
Definition batch_read_vsfrs (vsfr_ids : list Z) : M (list Z) :=
  assert (negb (Nat.eqb (List.length vsfr_ids) 0)) A_nonempty ;;
  a <- lift (rmap pack_I vsfr_ids) ;;
  r <- execute [x2a; x08] (Some (List.concat a)) ;;
  '(ret_, r) <- lift (unpack_I_times (List.length vsfr_ids) r) ;;
  assert (size r =? 0) A_exhausted ;;
  ret ret_.

(** ** The facade *)

(** What [radiacode.py] imports from modules that are not among the sources:
    the integer codes of the members of [VS], [VSFR] and [CTRL] it names
    ([radiacode/types.py]) and the two decoders ([radiacode/decoders]), with
    the types of what they return. A [VS], [VSFR], [CTRL] or
    [DisplayDirection] argument is held by its integer code. *)
Class Imports : Type := {
  VS_CONFIGURATION : Z;
  VS_TEXT_MESSAGE : Z;
  VS_DATA_BUF : Z;
  VS_SPECTRUM : Z;
  VS_SPEC_ACCUM : Z;
  VS_ENERGY_CALIB : Z;
  VSFR_DEVICE_TIME : Z;
  VSFR_DOSE_RESET : Z;
  VSFR_DEVICE_LANG : Z;
  VSFR_DEVICE_ON : Z;
  VSFR_SOUND_ON : Z;
  VSFR_SOUND_CTRL : Z;
  VSFR_DISP_OFF_TIME : Z;
  VSFR_DISP_BRT : Z;
  VSFR_DISP_DIR : Z;
  VSFR_VIBRO_CTRL : Z;
  CTRL_CLICKS : Z;
  DataBufItem : Type;
  Spectrum : Type;
  decode_VS_DATA_BUF : BytesBuffer -> datetime -> result (list DataBufItem);
  decode_RC_VS_SPECTRUM : BytesBuffer -> Z -> result Spectrum
}.

Section Facade.
Context {imports : Imports}.

(** [RadiaCode.status] *)
Definition status : M string :=
  r <- execute [x05; x00] None ;;
  '(flags, r) <- lift (unpack_I r) ;;
  assert (size r =? 0) A_exhausted ;;
  ret ("status flags: (" ++ str_of_nonneg flags ++ ",)")%string.

(** [RadiaCode.set_local_time] *)
Definition set_local_time (dt : datetime) : M unit :=
  d <- lift (rmap pack_B [day dt; month dt; year dt - 2000; 0;
                          second dt; minute dt; hour dt; 0]) ;;
  execute [x04; x0a] (Some (List.concat d)) ;;
  ret tt.

(** [RadiaCode.fw_signature] *)
Definition fw_signature : M string :=
  r <- execute [x01; x01] None ;;
  '(signature, r) <- lift (unpack_I r) ;;
  '(filename, r) <- lift (unpack_string r) ;;
  '(idstring, r) <- lift (unpack_string r) ;;
  ret ("Signature: " ++ hex8 signature ++ ", FileName=" ++ dquote ++ filename ++ dquote
       ++ ", IdString=" ++ dquote ++ idstring ++ dquote)%string.

(** [RadiaCode.fw_version]: ((boot major, minor, date), (target major, minor, date)) *)
Definition fw_version : M ((Z * Z * string) * (Z * Z * string)) :=
  r <- execute [x0a; x00] None ;;
  '((boot_minor, boot_major), r) <- lift (unpack_HH r) ;;
  '(boot_date, r) <- lift (unpack_string r) ;;
  '((target_minor, target_major), r) <- lift (unpack_HH r) ;;
  '(target_date, r) <- lift (unpack_string r) ;;
  assert (size r =? 0) A_exhausted ;;
  ret ((boot_major, boot_minor, boot_date),
       (target_major, target_minor, strip is_nul target_date)).

(** [RadiaCode.hw_serial_number] *)
Definition hw_serial_number : M string :=
  r <- execute [x0b; x00] None ;;
  '(serial_len, r) <- lift (unpack_I r) ;;
  assert (serial_len mod 4 =? 0) A_serial_len ;;
  '(serial_groups, r) <- lift (unpack_I_times (Z.to_nat (serial_len / 4)) r) ;;
  assert (size r =? 0) A_exhausted ;;
  ret (join "-" (map hex8 serial_groups)).

(** [RadiaCode.configuration] *)
Definition configuration : M string :=
  r <- read_request VS_CONFIGURATION ;;
  lift (decode_cp1251 (data r)).

(** [RadiaCode.text_message] *)
Definition text_message : M string :=
  r <- read_request VS_TEXT_MESSAGE ;;
  lift (decode_ascii (data r)).

(** [RadiaCode.serial_number] *)
Definition serial_number : M string :=
  r <- read_request 8 ;;
  lift (decode_ascii (data r)).

(** [RadiaCode.commands] *)
Definition commands : M string :=
  br <- read_request 257 ;;
  lift (decode_ascii (data br)).

(** [RadiaCode.device_time] *)
Definition device_time (v : Z) : M unit :=
  d <- lift (pack_I v) ;;
  write_request VSFR_DEVICE_TIME (Some d).

(** [RadiaCode.data_buf] *)
Definition data_buf : M (list DataBufItem) :=
  r <- read_request VS_DATA_BUF ;;
  t <- attribute _base_time ;;
  lift (decode_VS_DATA_BUF r t).

(** [RadiaCode.spectrum] *)
Definition spectrum : M Spectrum :=
  r <- read_request VS_SPECTRUM ;;
  v <- attribute _spectrum_format_version ;;
  lift (decode_RC_VS_SPECTRUM r v).

(** [RadiaCode.spectrum_accum] *)
Definition spectrum_accum : M Spectrum :=
  r <- read_request VS_SPEC_ACCUM ;;
  v <- attribute _spectrum_format_version ;;
  lift (decode_RC_VS_SPECTRUM r v).

(** [RadiaCode.dose_reset] *)
Definition dose_reset : M unit :=
  write_request VSFR_DOSE_RESET None.

(** [RadiaCode.spectrum_reset] *)
Definition spectrum_reset : M unit :=
  a <- lift (rmap pack_I [VS_SPECTRUM; 0]) ;;
  r <- execute [x27; x08] (Some (List.concat a)) ;;
  '(retcode, r) <- lift (unpack_I r) ;;
  assert (retcode =? 1) A_retcode ;;
  assert (size r =? 0) A_exhausted.

(** [RadiaCode.energy_calib] *)
Definition energy_calib : M (list float) :=
  r <- read_request VS_ENERGY_CALIB ;;
  '(coef, _) <- lift (unpack_fff r) ;;
  ret coef.

(** [RadiaCode.set_energy_calib] *)
Definition set_energy_calib (coef : list float) : M unit :=
  assert (Nat.eqb (List.length coef) 3) A_coef_len ;;
  pc <- lift (rmap pack_f coef) ;;
  let pc := List.concat pc in
  a <- lift (rmap pack_I [VS_ENERGY_CALIB; Z.of_nat (List.length pc)]) ;;
  r <- execute [x27; x08] (Some (List.concat a ++ pc)) ;;
  '(retcode, r) <- lift (unpack_I r) ;;
  assert (retcode =? 1) A_retcode.

(** [RadiaCode.set_language] *)
Definition set_language (lang : string) : M unit :=
  assert (String.eqb lang "ru" || String.eqb lang "en") A_lang ;;
  d <- lift (pack_I (int_of_bool (String.eqb lang "en"))) ;;
  write_request VSFR_DEVICE_LANG (Some d).

(** [RadiaCode.set_device_on] *)
Definition set_device_on (on : bool) : M unit :=
  assert (negb on) A_device_off ;;
  d <- lift (pack_I (int_of_bool on)) ;;
  write_request VSFR_DEVICE_ON (Some d).

(** [RadiaCode.set_sound_on] *)
Definition set_sound_on (on : bool) : M unit :=
  d <- lift (pack_I (int_of_bool on)) ;;
  write_request VSFR_SOUND_ON (Some d).

(** [RadiaCode.set_vibro_on] *)
Definition set_vibro_on (on : bool) : M unit :=
  d <- lift (pack_I (int_of_bool on)) ;;
  write_request VSFR_SOUND_ON (Some d).

(** [RadiaCode.set_sound_ctrl] *)
Definition set_sound_ctrl (ctrls : list Z) : M unit :=
  let flags := fold_left Z.lor ctrls 0 in
  d <- lift (pack_I flags) ;;
  write_request VSFR_SOUND_CTRL (Some d).

(** [RadiaCode.set_display_off_time] *)
Definition set_display_off_time (seconds : Z) : M unit :=
  assert (existsb (Z.eqb seconds) [5; 10; 15; 30]) A_seconds ;;
  let v := if seconds =? 30 then 3 else seconds / 5 - 1 in
  d <- lift (pack_I v) ;;
  write_request VSFR_DISP_OFF_TIME (Some d).

(** [RadiaCode.set_display_brightness] *)
Definition set_display_brightness (brightness : Z) : M unit :=
  assert ((0 <=? brightness) && (brightness <=? 9)) A_brightness ;;
  d <- lift (pack_I brightness) ;;
  write_request VSFR_DISP_BRT (Some d).

(** [RadiaCode.set_display_direction]; the [isinstance] assertion holds of
    every [DisplayDirection] *)
Definition set_display_direction (direction : Z) : M unit :=
  d <- lift (pack_I direction) ;;
  write_request VSFR_DISP_DIR (Some d).

(** The loop of [set_vibro_ctrl]: [flags] so far, then each control in turn. *)
Fixpoint vibro_flags (ctrls : list Z) (flags : Z) : result Z :=
  match ctrls with
  | [] => Ok flags
  | c :: ctrls' =>
      if c =? CTRL_CLICKS then Raise (AssertionError A_clicks)
      else vibro_flags ctrls' (Z.lor flags c)
  end.

(** [RadiaCode.set_vibro_ctrl] *)
Definition set_vibro_ctrl (ctrls : list Z) : M unit :=
  flags <- lift (vibro_flags ctrls 0) ;;
  d <- lift (pack_I flags) ;;
  write_request VSFR_VIBRO_CTRL (Some d).

(** [RadiaCode.base_time] *)
Definition base_time : M datetime := attribute _base_time.

(** ** Initialization *)

(** The condition of the [if] in [__init__]: [and] binds tighter than [or]. *)
Definition firmware_rejected (ignore_firmware_compatibility_check : bool) (vmaj vmin : Z) : bool :=
  (negb ignore_firmware_compatibility_check && (vmaj <? 4)) || ((vmaj =? 4) && (vmin <? 8)).

(** The [for] loop over the lines of the configuration, left at the first
    line that starts with the key. *)
Fixpoint scan_configuration (lines : list string) : M unit :=
  match lines with
  | [] => ret tt
  | line :: lines' =>
      if startswith line "SpecFormatVersion"
      then
        v <- lift (field <- index (split "=" line) 1 ;; py_int field)%result ;;
        modify (set_spectrum_format_version v)
      else scan_configuration lines'
  end.

(** Lines 81 to 86 of [__init__]. *)
Definition read_spectrum_format_version : M unit :=
  modify (set_spectrum_format_version 0) ;;
  text <- configuration ;;
  scan_configuration (split "010" text).

(** The body of [__init__] from its first exchange on; [now] is what
    [datetime.datetime.now()] returns. *)
Definition initialize (now : datetime) (ignore_firmware_compatibility_check : bool) : M unit :=
  execute [x07; x00] (Some [x01; xff; x12; xff]) ;;
  modify (set_base_time now) ;;
  set_local_time now ;;
  device_time 0 ;;
  '(_, (vmaj, vmin, _)) <- fw_version ;;
  (if firmware_rejected ignore_firmware_compatibility_check vmaj vmin
   then lift (Raise (IncompatibleFirmware vmaj vmin))
   else ret tt) ;;
  read_spectrum_format_version.

(** The host of the driver: the two transport constructors and the clock. *)
Record Host : Type := {
  Bluetooth : string -> result Connection;
  Usb : option string -> result Connection;
  clock : datetime
}.

(** [RadiaCode.__init__]: the session it leaves, or the exception. *)
Definition __init__ (host : Host) (bluetooth_mac serial_number : option string)
    (ignore_firmware_compatibility_check : bool) : result RadiaCode :=
  (c <- match bluetooth_mac with
        | Some mac => Bluetooth host mac
        | None => Usb host serial_number
        end ;;
   let self := {| _connection := c; _seq := 0; _base_time := None;
                  _spectrum_format_version := None |} in
   match initialize (clock host) ignore_firmware_compatibility_check self with
   | (Ok _, self') => Ok self'
   | (Raise e, _) => Raise e
   end)%result.

End Facade.

(** ** The operations of a session *)

Section Operations.
Context {imports : Imports}.

(** A call of a public method of [RadiaCode] with its arguments. *)
Inductive operation : Type :=
| Call_base_time
| Call_execute (reqtype : bytes) (args : option bytes)
| Call_read_request (command_id : Z)
| Call_write_request (command_id : Z) (data : option bytes)
| Call_batch_read_vsfrs (vsfr_ids : list Z)
| Call_status
| Call_set_local_time (dt : datetime)
| Call_fw_signature
| Call_fw_version
| Call_hw_serial_number
| Call_configuration
| Call_text_message
| Call_serial_number
| Call_commands
| Call_device_time (v : Z)
| Call_data_buf
| Call_spectrum
| Call_spectrum_accum
| Call_dose_reset
| Call_spectrum_reset
| Call_energy_calib
| Call_set_energy_calib (coef : list float)
| Call_set_language (lang : string)
| Call_set_device_on (on : bool)
| Call_set_sound_on (on : bool)
| Call_set_vibro_on (on : bool)
| Call_set_sound_ctrl (ctrls : list Z)
| Call_set_display_off_time (seconds : Z)
| Call_set_display_brightness (brightness : Z)
| Call_set_display_direction (direction : Z)
| Call_set_vibro_ctrl (ctrls : list Z).

(** The method run for its effect on the session; its value is dropped. *)
Definition void {A} (m : M A) : M unit := _ <- m ;; ret tt.

Definition call (op : operation) : M unit :=
  match op with
  | Call_base_time => void base_time
  | Call_execute reqtype args => void (execute reqtype args)
  | Call_read_request command_id => void (read_request command_id)
  | Call_write_request command_id data => write_request command_id data
  | Call_batch_read_vsfrs vsfr_ids => void (batch_read_vsfrs vsfr_ids)
  | Call_status => void status
  | Call_set_local_time dt => set_local_time dt
  | Call_fw_signature => void fw_signature
  | Call_fw_version => void fw_version
  | Call_hw_serial_number => void hw_serial_number
  | Call_configuration => void configuration
  | Call_text_message => void text_message
  | Call_serial_number => void serial_number
  | Call_commands => void commands
  | Call_device_time v => device_time v
  | Call_data_buf => void data_buf
  | Call_spectrum => void spectrum
  | Call_spectrum_accum => void spectrum_accum
  | Call_dose_reset => dose_reset
  | Call_spectrum_reset => spectrum_reset
  | Call_energy_calib => void energy_calib
  | Call_set_energy_calib coef => set_energy_calib coef
  | Call_set_language lang => set_language lang
  | Call_set_device_on on => set_device_on on
  | Call_set_sound_on on => set_sound_on on
  | Call_set_vibro_on on => set_vibro_on on
  | Call_set_sound_ctrl ctrls => set_sound_ctrl ctrls
  | Call_set_display_off_time seconds => set_display_off_time seconds
  | Call_set_display_brightness brightness => set_display_brightness brightness
  | Call_set_display_direction direction => set_display_direction direction
  | Call_set_vibro_ctrl ctrls => set_vibro_ctrl ctrls
  end.

End Operations.

(** The counter is in range. *)
Definition seq_ok (self : RadiaCode) : Prop := 0 <= _seq self < 32.

(** The frames a run handed to the transport: what [sent] gained. *)
Definition frames_of (before after : RadiaCode) (frames : list bytes) : Prop :=
  sent (_connection after) = sent (_connection before) ++ frames.

(** The header [execute] builds for the counter value [seq]. *)
Definition header_of (reqtype : bytes) (seq : Z) : bytes :=
  reqtype ++ [x00; byte_of_int (Z.lor 128 seq)].

(** The wire image of a request: length prefix, header, payload. *)
Definition frame_of (reqtype : bytes) (seq : Z) (payload : bytes) : bytes :=
  let request := header_of reqtype seq ++ payload in
  le_bytes 4 (Z.of_nat (List.length request)) ++ request.

(** The session after one more request: the counter has moved on. *)
Definition advance (self : RadiaCode) : RadiaCode :=
  set_seq ((_seq self + 1) mod 32) self.

(** The session after [request] went to the transport. *)
Definition hand_over (request : bytes) (self : RadiaCode) : RadiaCode :=
  set_connection {| device := device (_connection self);
                    sent := sent (_connection self) ++ [request] |} self.

(** The answer of the device to [request], sent next. *)
Definition answer (self : RadiaCode) (request : bytes) : result bytes :=
  device (_connection self) (sent (_connection self) ++ [request]).

(** The opcode of a frame and, for a register write, the register named
    in it: the 4 bytes after length prefix and header. *)
Definition opcode_of (frame : bytes) : bytes := firstn 2 (skipn 4 frame).

Definition register_of (frame : bytes) : Z := le_value (firstn 4 (skipn 8 frame)).

(** The range of the ['I'] format. *)
Definition u32 (z : Z) : Prop := 0 <= z < 2 ^ 32.

(** [b''.join(struct.pack('<I', v) for v in values)] *)
Definition words (values : list Z) : bytes := List.concat (map (le_bytes 4) values).

(** A method whose only effect on the counter is that of the requests it
    makes: run from a session with the counter in range, it hands some
    frames to the transport and leaves the counter advanced by their number
    modulo 32, or by one more when it stopped on a request too long to be
    framed ([struct.error] on the length prefix, after the counter moved). *)
Definition counted {A} (m : M A) : Prop :=
  forall self, seq_ok self ->
    exists frames,
      frames_of self (snd (m self)) frames
      /\ (_seq (snd (m self)) = (_seq self + Z.of_nat (List.length frames)) mod 32
          \/ (fst (m self) = Raise StructError
              /\ _seq (snd (m self)) = (_seq self + Z.of_nat (List.length frames) + 1) mod 32)).

(** Whether the character [c] occurs in [s]. *)
Fixpoint occurs (c : ascii) (s : string) : bool :=
  match s with
  | EmptyString => false
  | String c' s' => Ascii.eqb c' c || occurs c s'
  end.

(** Decimal numerals, to say what [int] reads: the character of a digit,
    the text of a list of digits and its value, an optional sign. *)
Definition digit_char (d : Z) : ascii := ascii_of_nat (Z.to_nat (48 + d)).

Fixpoint decimal_text (digits : list Z) : string :=
  match digits with
  | [] => EmptyString
  | d :: digits' => String (digit_char d) (decimal_text digits')
  end.

Definition decimal_value (digits : list Z) : Z :=
  fold_left (fun acc d => 10 * acc + d) digits 0.

(** Digits in groups joined by single underscores, as in [1_000]. *)
Fixpoint grouped_text (groups : list (list Z)) : string :=
  match groups with
  | [] => EmptyString
  | [g] => decimal_text g
  | g :: groups' => (decimal_text g ++ String "_" (grouped_text groups'))%string
  end.

Inductive sign : Type := NoSign | Plus | Minus.

Definition sign_text (sg : sign) : string :=
  match sg with
  | NoSign => EmptyString
  | Plus => String "+" EmptyString
  | Minus => String "-" EmptyString
  end.

Definition signed (sg : sign) (v : Z) : Z :=
  match sg with
  | Minus => - v
  | _ => v
  end.

Definition is_digit (d : Z) : Prop := 0 <= d <= 9.

Definition is_group (g : list Z) : Prop := g <> [] /\ Forall is_digit g.

(** Every character of [s] is white space for [int]. *)
Fixpoint all_space (s : string) : bool :=
  match s with
  | EmptyString => true
  | String c s' => is_space c && all_space s'
  end.

(** A character that no decimal literal of [int] holds: no digit, no
    underscore, no sign, no white space. *)
Definition foreign (c : ascii) : bool :=
  negb (is_space c)
  && match digit_of c with Some _ => false | None => true end
  && negb (Ascii.eqb c "_") && negb (Ascii.eqb c "+") && negb (Ascii.eqb c "-").

(** The line carries the key that [__init__] looks for. *)
Definition has_key (line : string) : bool := startswith line "SpecFormatVersion".

(** A method that leaves the version attribute as it was. *)
Definition keeps_version {A} (m : M A) : Prop :=
  forall self, _spectrum_format_version (snd (m self)) = _spectrum_format_version self.

(** ** Sample collaborators, to run the model on *)

(** A table of codes and two stand-in decoders; the theorems hold of every
    table and every pair of decoders. *)
Definition sample_imports : Imports := {|
  VS_CONFIGURATION := 2;
  VS_TEXT_MESSAGE := 15;
  VS_DATA_BUF := 256;
  VS_SPECTRUM := 512;
  VS_SPEC_ACCUM := 517;
  VS_ENERGY_CALIB := 514;
  VSFR_DEVICE_TIME := 1284;
  VSFR_DOSE_RESET := 32775;
  VSFR_DEVICE_LANG := 1282;
  VSFR_DEVICE_ON := 1283;
  VSFR_SOUND_ON := 1314;
  VSFR_SOUND_CTRL := 1312;
  VSFR_DISP_OFF_TIME := 1299;
  VSFR_DISP_BRT := 1297;
  VSFR_DISP_DIR := 1298;
  VSFR_VIBRO_CTRL := 1328;
  CTRL_CLICKS := 2;
  DataBufItem := bytes;
  Spectrum := bytes * Z;
  decode_VS_DATA_BUF := fun r _ => Ok [data r];
  decode_RC_VS_SPECTRUM := fun r v => Ok (data r, v)
|}.

(** A device that echoes the header of each request and then plays the
    next payload of a script; with the script at its end the transport
    raises. *)
Definition scripted_device (payloads : list bytes) : list bytes -> result bytes :=
  fun received =>
    match nth_error payloads (List.length received - 1) with
    | Some p => Ok (firstn 4 (skipn 4 (last received [])) ++ p)
    | None => Raise TransportError
    end.

(** A device that answers every request with the same buffer. *)
Definition constant_device (response : bytes) : list bytes -> result bytes :=
  fun _ => Ok response.

Definition connect (d : list bytes -> result bytes) : Connection :=
  {| device := d; sent := [] |}.

Definition sample_host (d : list bytes -> result bytes) : Host := {|
  Bluetooth := fun _ => Ok (connect d);
  Usb := fun _ => Ok (connect d);
  clock := {| year := 2024; month := 3; day := 9;
              hour := 14; minute := 30; second := 5; microsecond := 0 |}
|}.

(** The payloads of a device that accepts the first three requests of
    [__init__] and then reports boot version 4.1 and target version 4.7,
    both with an empty date. *)
Definition firmware_4_7_script : list bytes :=
  [ []; []; le_bytes 4 1;
    le_bytes 2 1 ++ le_bytes 2 4 ++ [x00] ++ le_bytes 2 7 ++ le_bytes 2 4 ++ [x00] ].

(** A configuration text of three lines, and the payload of the register
    read that returns it: return code 1, its length, its bytes. *)
Definition sample_configuration : string :=
  ("Model=RC-102" ++ String "010" ("SpecFormatVersion=1" ++ String "010" "Units=1"))%string.

Definition sample_configuration_payload : bytes :=
  le_bytes 4 1
  ++ le_bytes 4 (Z.of_nat (List.length (list_byte_of_string sample_configuration)))
  ++ list_byte_of_string sample_configuration.

(** A session as [__init__] leaves it, at counter value [n]. *)
Definition ready (d : list bytes -> result bytes) (n : Z) : RadiaCode := {|
  _connection := connect d;
  _seq := n;
  _base_time := Some (clock (sample_host d));
  _spectrum_format_version := Some 0
|}.

(** A configuration whose version is written between two separator
    characters, 0x1c and 0x1f, and the payload of the read that returns it. *)
Definition separator_configuration : string :=
  ("SpecFormatVersion=" ++ String "028" (String "7" (String "031" EmptyString)))%string.

Definition separator_configuration_payload : bytes :=
  le_bytes 4 1
  ++ le_bytes 4 (Z.of_nat (List.length (list_byte_of_string separator_configuration)))
  ++ list_byte_of_string separator_configuration.

(** The payloads of a device that lets [__init__] through: it accepts the
    first three requests, reports boot version 4.1 and target version 4.8
    and returns the sample configuration. *)
Definition sample_init_script : list bytes :=
  [ []; []; le_bytes 4 1;
    le_bytes 2 1 ++ le_bytes 2 4 ++ [x00] ++ le_bytes 2 8 ++ le_bytes 2 4 ++ [x00];
    sample_configuration_payload ].

(** ** Vocabulary of the further properties *)

(** The frame of a register write of the 4-byte value [v] to register [id],
    sent at counter value [seq]. *)
Definition write_frame (id v seq : Z) : bytes :=
  frame_of [x25; x08] seq (le_bytes 4 id ++ le_bytes 4 v).

(** The ranges [datetime.datetime] keeps its fields in. *)
Definition valid_datetime (dt : datetime) : Prop :=
  1 <= year dt <= 9999 /\ 1 <= month dt <= 12 /\ 1 <= day dt <= 31
  /\ 0 <= hour dt <= 23 /\ 0 <= minute dt <= 59 /\ 0 <= second dt <= 59
  /\ 0 <= microsecond dt <= 999999.

(** The 8 bytes [set_local_time] sends for [dt]. *)
Definition time_payload (dt : datetime) : bytes :=
  map byte_of_int [day dt; month dt; year dt - 2000; 0; second dt; minute dt; hour dt; 0].

(** [flags] after the loop [for c in ctrls: flags |= int(c)]. *)
Definition or_flags (ctrls : list Z) : Z := fold_left Z.lor ctrls 0.

Section Scripts.
Context {imports : Imports}.

(** Method calls one after the other, as a script makes them: the first
    exception ends the run. *)
Fixpoint calls (ops : list operation) : M unit :=
  match ops with
  | [] => ret tt
  | op :: ops' => call op ;; calls ops'
  end.

End Scripts.

(** * Properties *)

(** ** Bytes and little-endian integers *)

Lemma int_of_byte_range (b : byte) : 0 <= int_of_byte b < 256.
Proof.
  unfold int_of_byte. pose proof (Byte.to_N_bounded b). lia.
Qed.

Lemma byte_of_int_of_byte (b : byte) : byte_of_int (int_of_byte b) = b.
Proof.
  unfold byte_of_int, int_of_byte. now rewrite N2Z.id, Byte.of_to_N.
Qed.

Lemma int_of_byte_of_int (z : Z) : 0 <= z < 256 -> int_of_byte (byte_of_int z) = z.
Proof.
  intros Hz. unfold byte_of_int, int_of_byte.
  destruct (Byte.of_N (Z.to_N z)) as [b|] eqn:E.
  - apply Byte.to_of_N in E. rewrite E. lia.
  - apply Byte.of_N_None_iff in E. lia.
Qed.

Lemma byte_of_int_inj (x y : Z) :
  0 <= x < 256 -> 0 <= y < 256 -> byte_of_int x = byte_of_int y -> x = y.
Proof.
  intros Hx Hy E. apply (f_equal int_of_byte) in E.
  now rewrite !int_of_byte_of_int in E.
Qed.

Lemma bytes_eqb_eq (a b : bytes) : bytes_eqb a b = true <-> a = b.
Proof.
  unfold bytes_eqb. destruct (list_eq_dec Byte.byte_eq_dec a b); split; congruence.
Qed.

Lemma bytes_eqb_refl (a : bytes) : bytes_eqb a a = true.
Proof. now apply bytes_eqb_eq. Qed.

Lemma bytes_eqb_neq (a b : bytes) : a <> b -> bytes_eqb a b = false.
Proof.
  intros H. destruct (bytes_eqb a b) eqn:E; [|reflexivity].
  now apply bytes_eqb_eq in E.
Qed.

Lemma length_le_bytes (n : nat) : forall z, List.length (le_bytes n z) = n.
Proof.
  induction n as [|n IH]; intros z; simpl; [reflexivity|]. now rewrite IH.
Qed.

Lemma le_value_range (bs : bytes) : 0 <= le_value bs < 256 ^ Z.of_nat (List.length bs).
Proof.
  induction bs as [|b bs IH].
  - simpl. lia.
  - cbn [le_value List.length]. rewrite Nat2Z.inj_succ, Z.pow_succ_r by lia.
    pose proof (int_of_byte_range b). lia.
Qed.

Lemma le_value_le_bytes (n : nat) :
  forall z, 0 <= z < 256 ^ Z.of_nat n -> le_value (le_bytes n z) = z.
Proof.
  induction n as [|n IH]; intros z Hz.
  - simpl in *. lia.
  - rewrite Nat2Z.inj_succ, Z.pow_succ_r in Hz by lia.
    cbn [le_bytes le_value].
    rewrite int_of_byte_of_int by (apply Z.mod_pos_bound; lia).
    rewrite IH.
    + pose proof (Z.div_mod z 256). lia.
    + split; [apply Z.div_pos; lia | apply Z.div_lt_upper_bound; lia].
Qed.

Lemma le_bytes_le_value (bs : bytes) : le_bytes (List.length bs) (le_value bs) = bs.
Proof.
  induction bs as [|b bs IH]; [reflexivity|].
  cbn [le_bytes le_value List.length].
  pose proof (int_of_byte_range b) as Hb.
  replace ((int_of_byte b + 256 * le_value bs) mod 256) with (int_of_byte b).
  - replace ((int_of_byte b + 256 * le_value bs) / 256) with (le_value bs).
    + now rewrite byte_of_int_of_byte, IH.
    + rewrite Z.mul_comm, Z.div_add by lia. rewrite Z.div_small; lia.
  - rewrite Z.mul_comm, Z.mod_add by lia. rewrite Z.mod_small; lia.
Qed.

Lemma le_bytes_inj (n : nat) (x y : Z) :
  0 <= x < 256 ^ Z.of_nat n -> 0 <= y < 256 ^ Z.of_nat n ->
  le_bytes n x = le_bytes n y -> x = y.
Proof.
  intros Hx Hy E. apply (f_equal le_value) in E.
  now rewrite !le_value_le_bytes in E.
Qed.

Lemma pack_uint_ok (n : nat) (z : Z) :
  0 <= z < 256 ^ Z.of_nat n -> pack_uint n z = Ok (le_bytes n z).
Proof.
  intros Hz. unfold pack_uint.
  replace (0 <=? z) with true by (symmetry; apply Z.leb_le; lia).
  replace (z <? 256 ^ Z.of_nat n) with true by (symmetry; apply Z.ltb_lt; lia).
  reflexivity.
Qed.

Lemma pack_uint_error (n : nat) (z : Z) :
  ~ 0 <= z < 256 ^ Z.of_nat n -> pack_uint n z = Raise StructError.
Proof.
  intros Hz. unfold pack_uint.
  destruct (0 <=? z) eqn:E1; [|reflexivity].
  destruct (z <? 256 ^ Z.of_nat n) eqn:E2; [|reflexivity].
  apply Z.leb_le in E1. apply Z.ltb_lt in E2. lia.
Qed.

Lemma pack_I_ok (z : Z) : 0 <= z < 2 ^ 32 -> pack_I z = Ok (le_bytes 4 z).
Proof. intros Hz. apply pack_uint_ok. exact Hz. Qed.

Lemma pack_I_error (z : Z) : ~ 0 <= z < 2 ^ 32 -> pack_I z = Raise StructError.
Proof. intros Hz. apply pack_uint_error. exact Hz. Qed.

Lemma pack_B_ok (z : Z) : 0 <= z < 256 -> pack_B z = Ok [byte_of_int z].
Proof.
  intros Hz. unfold pack_B. rewrite pack_uint_ok by exact Hz.
  cbn [le_bytes]. now rewrite Z.mod_small.
Qed.

(** On a counter in range the tag [0x80 + seq] of the code is [0x80 | seq]. *)
Lemma lor_128 (seq : Z) : 0 <= seq < 32 -> Z.lor 128 seq = 128 + seq.
Proof.
  intros H.
  assert (E : seq = Z.of_nat (Z.to_nat seq)) by lia.
  assert (L : (Z.to_nat seq < 32)%nat) by lia.
  rewrite E. generalize dependent (Z.to_nat seq). clear.
  intros n _ L.
  do 32 (destruct n as [|n]; [reflexivity|]). lia.
Qed.

(** ** The buffer *)

Lemma unpack_bytes_new (n : nat) (h rest : bytes) :
  List.length h = n ->
  unpack_bytes n (BytesBuffer_new (h ++ rest)) = Ok (h, {| _data := h ++ rest; _pos := n |}).
Proof.
  intros Hn. unfold unpack_bytes, size, data, BytesBuffer_new. cbn [_data _pos].
  rewrite length_app, Hn.
  replace (Z.of_nat (n + List.length rest) - Z.of_nat 0 <? Z.of_nat n) with false
    by (symmetry; apply Z.ltb_ge; lia).
  cbn [skipn]. rewrite <- Hn at 1. rewrite firstn_app, Nat.sub_diag, firstn_all.
  cbn [firstn]. now rewrite app_nil_r.
Qed.

Lemma unpack_bytes_short (n : nat) (r : BytesBuffer) :
  size r < Z.of_nat n -> unpack_bytes n r = Raise UnderflowError.
Proof.
  intros H. unfold unpack_bytes.
  now replace (size r <? Z.of_nat n) with true by (symmetry; apply Z.ltb_lt; lia).
Qed.

Lemma unpack_bytes_enough (n : nat) (r : BytesBuffer) :
  Z.of_nat n <= size r ->
  unpack_bytes n r = Ok (firstn n (data r), {| _data := _data r; _pos := (_pos r + n)%nat |}).
Proof.
  intros H. unfold unpack_bytes.
  now replace (size r <? Z.of_nat n) with false by (symmetry; apply Z.ltb_ge; lia).
Qed.

(** ** [execute], step by step *)

Lemma execute_reqtype_length (reqtype : bytes) (args : option bytes) (self : RadiaCode) :
  List.length reqtype <> 2%nat ->
  execute reqtype args self = (Raise (AssertionError A_reqtype_len), self).
Proof.
  intros H. unfold execute, bind, assert, lift.
  apply Nat.eqb_neq in H. now rewrite H.
Qed.

Lemma execute_too_long (reqtype : bytes) (args : option bytes) (self : RadiaCode) :
  List.length reqtype = 2%nat -> seq_ok self ->
  2 ^ 32 <= Z.of_nat (List.length (header_of reqtype (_seq self) ++ or_empty args)) ->
  execute reqtype args self = (Raise StructError, advance self).
Proof.
  intros Hlen Hseq Hbig.
  unfold execute, bind, assert, lift, get, modify, ret.
  rewrite Hlen. cbn [Nat.eqb].
  rewrite pack_B_ok by (unfold seq_ok in Hseq; lia).
  unfold header_of in Hbig. rewrite lor_128 in Hbig by exact Hseq.
  cbn [app] in *.
  rewrite pack_I_error by lia. reflexivity.
Qed.

Lemma execute_run (reqtype : bytes) (args : option bytes) (self : RadiaCode) :
  List.length reqtype = 2%nat -> seq_ok self ->
  Z.of_nat (List.length (header_of reqtype (_seq self) ++ or_empty args)) < 2 ^ 32 ->
  let req_header := header_of reqtype (_seq self) in
  let full_request := frame_of reqtype (_seq self) (or_empty args) in
  execute reqtype args self =
  ((response <- answer self full_request ;;
    '(resp_header, r) <- unpack_s 4 (BytesBuffer_new response) ;;
    if bytes_eqb req_header resp_header then Ok r else Raise ProtocolMismatchError)%result,
   hand_over full_request (advance self)).
Proof.
  intros Hlen Hseq Hfit. cbv zeta.
  unfold execute, bind, assert, lift, get, modify, ret.
  rewrite Hlen. cbn [Nat.eqb].
  rewrite pack_B_ok by (unfold seq_ok in Hseq; lia).
  unfold frame_of, header_of in *. rewrite lor_128 in * by exact Hseq.
  cbn [app] in *.
  rewrite pack_I_ok by lia.
  unfold connection_execute, answer, hand_over, advance.
  cbn [_connection set_seq set_connection device sent _seq].
  destruct (device (_connection self) _) as [response|e]; cbn [rbind]; [|reflexivity].
  destruct (unpack_s 4 (BytesBuffer_new response)) as [[resp_header r]|e];
    cbn [rbind]; [|reflexivity].
  destruct (bytes_eqb _ resp_header); reflexivity.
Qed.

(** ** The claims on [execute] *)

(** C4. A call of [execute] with a 2-byte opcode hands the transport exactly
    one buffer: the length of header and payload on 4 bytes, little end
    first and not counting itself, then the opcode, a zero byte, the byte
    [0x80 | counter] and the payload. The length has to fit its 4 bytes; when
    it does not, [struct.error] is raised and nothing is handed over. *)
Theorem execute_wire_format (reqtype : bytes) (args : option bytes) (self : RadiaCode) :
  List.length reqtype = 2%nat ->
  seq_ok self ->
  let payload := or_empty args in
  let n := Z.of_nat (List.length reqtype + 2 + List.length payload) in
  let outcome := execute reqtype args self in
  (n < 2 ^ 32 ->
   frames_of self (snd outcome)
     [le_bytes 4 n ++ reqtype ++ [x00] ++ [byte_of_int (Z.lor 128 (_seq self))] ++ payload])
  /\ (2 ^ 32 <= n ->
      frames_of self (snd outcome) [] /\ fst outcome = Raise StructError).
Proof.
  intros Hlen Hseq payload n outcome.
  assert (En : Z.of_nat (List.length (header_of reqtype (_seq self) ++ or_empty args)) = n).
  { unfold header_of, n, payload. rewrite !length_app. cbn [List.length]. lia. }
  split; intros Hn.
  - unfold outcome. rewrite execute_run by (try assumption; lia).
    unfold frames_of, hand_over, frame_of. cbn [snd _connection set_connection sent advance set_seq].
    rewrite En. unfold header_of. now rewrite <- !app_assoc.
  - unfold outcome. rewrite execute_too_long by (try assumption; lia).
    unfold frames_of, advance. cbn [snd fst _connection set_seq].
    now rewrite app_nil_r.
Qed.

(** C2. When the transport returns at least 4 bytes, [h] then [rest]:
    if [h] is not the header sent (opcode, zero byte, sequence byte),
    [execute] raises the header assertion (ProtocolMismatchError); if it
    is, [execute] returns the buffer whose unread part is [rest]. *)
Theorem execute_checks_echo (reqtype : bytes) (args : option bytes) (self : RadiaCode)
    (h rest : bytes) :
  List.length reqtype = 2%nat ->
  seq_ok self ->
  Z.of_nat (List.length reqtype + 2 + List.length (or_empty args)) < 2 ^ 32 ->
  answer self (frame_of reqtype (_seq self) (or_empty args)) = Ok (h ++ rest) ->
  List.length h = 4%nat ->
  let req_header := reqtype ++ [x00] ++ [byte_of_int (Z.lor 128 (_seq self))] in
  (h <> req_header -> fst (execute reqtype args self) = Raise ProtocolMismatchError)
  /\ (h = req_header ->
      exists r, fst (execute reqtype args self) = Ok r
                /\ data r = rest /\ size r = Z.of_nat (List.length rest)).
Proof.
  intros Hlen Hseq Hfit Hans Hh req_header.
  assert (Hfit' : Z.of_nat (List.length (header_of reqtype (_seq self) ++ or_empty args)) < 2 ^ 32).
  { unfold header_of. rewrite !length_app. cbn [List.length]. lia. }
  rewrite execute_run by assumption.
  rewrite Hans. cbn [fst rbind]. unfold unpack_s.
  rewrite unpack_bytes_new by exact Hh. cbn [rbind].
  subst req_header.
  change (reqtype ++ [x00] ++ [byte_of_int (Z.lor 128 (_seq self))])
    with (header_of reqtype (_seq self)).
  split; intros E.
  - rewrite bytes_eqb_neq by (intros X; apply E; symmetry; exact X). reflexivity.
  - subst h. rewrite bytes_eqb_refl.
    eexists; split; [reflexivity|].
    unfold data, size. cbn [_data _pos]. rewrite <- Hh at 1.
    rewrite skipn_app, Nat.sub_diag, skipn_all. cbn [skipn app].
    split; [reflexivity|]. rewrite length_app. lia.
Qed.

(** ** Reading fields off a buffer *)

Lemma firstn_exact {A} (n : nat) (a b : list A) :
  List.length a = n -> firstn n (a ++ b) = a.
Proof.
  intros H. subst n. rewrite firstn_app, Nat.sub_diag, firstn_all.
  cbn [firstn]. apply app_nil_r.
Qed.

Lemma skipn_exact {A} (n : nat) (a b : list A) :
  List.length a = n -> skipn n (a ++ b) = b.
Proof.
  intros H. subst n. rewrite skipn_app, Nat.sub_diag, skipn_all. reflexivity.
Qed.

Lemma last_app_nonempty {A} (a b : list A) (d : A) :
  b <> [] -> last (a ++ b) d = last b d.
Proof.
  intros Hb. induction a as [|x a IH]; [reflexivity|].
  cbn [app]. change (last (x :: a ++ b) d)
    with (match a ++ b with [] => x | _ :: _ => last (a ++ b) d end).
  destruct (a ++ b) eqn:E; [|exact IH].
  apply app_eq_nil in E. tauto.
Qed.

Lemma int_of_byte_zero (b : byte) : int_of_byte b = 0 <-> b = x00.
Proof.
  split; intros H.
  - rewrite <- (byte_of_int_of_byte b), H. reflexivity.
  - subst b. reflexivity.
Qed.

(** A field [x] that lies under the cursor. *)
Lemma unpack_bytes_at (n k : nat) (pre x post : bytes) :
  List.length pre = k -> List.length x = n ->
  unpack_bytes n {| _data := pre ++ x ++ post; _pos := k |}
  = Ok (x, {| _data := pre ++ x ++ post; _pos := (k + n)%nat |}).
Proof.
  intros Hk Hn. rewrite unpack_bytes_enough.
  - unfold data. cbn [_data _pos].
    now rewrite (skipn_exact k) by exact Hk; rewrite (firstn_exact n) by exact Hn.
  - unfold size. cbn [_data _pos]. rewrite !length_app. lia.
Qed.

Lemma size_at (k : nat) (pre post : bytes) :
  List.length pre = k ->
  size {| _data := pre ++ post; _pos := k |} = Z.of_nat (List.length post).
Proof.
  intros Hk. unfold size. cbn [_data _pos]. rewrite length_app. lia.
Qed.

Lemma data_at (k : nat) (pre post : bytes) :
  List.length pre = k -> data {| _data := pre ++ post; _pos := k |} = post.
Proof.
  intros Hk. unfold data. cbn [_data _pos]. now apply skipn_exact.
Qed.

(** ** [read_request] *)

(** What [read_request] makes of an answer that echoes the header, carries
    return code 1 and declares [flen] bytes, followed by [body]. *)
Lemma read_request_run (command_id flen : Z) (body : bytes) (self : RadiaCode) :
  0 <= command_id < 2 ^ 32 ->
  seq_ok self ->
  0 <= flen < 2 ^ 32 ->
  let prefix := header_of [x26; x08] (_seq self) ++ le_bytes 4 1 ++ le_bytes 4 flen in
  answer self (frame_of [x26; x08] (_seq self) (le_bytes 4 command_id)) = Ok (prefix ++ body) ->
  fst (read_request command_id self) =
  if Z.of_nat (List.length body) =? flen
  then Ok {| _data := prefix ++ body; _pos := 12 |}
  else if (Z.of_nat (List.length body) =? flen + 1) && (int_of_byte (last body x00) =? 0)
       then Ok {| _data := prefix ++ removelast body; _pos := 12 |}
       else Raise LengthMismatchError.
Proof.
  intros Hid Hseq Hflen prefix Hans.
  assert (Hprefix : List.length prefix = 12%nat).
  { unfold prefix, header_of. rewrite !length_app, !length_le_bytes. reflexivity. }
  unfold read_request, bind, lift.
  rewrite pack_I_ok by exact Hid.
  rewrite execute_run;
    [| reflexivity | exact Hseq
     | unfold header_of, or_empty; rewrite !length_app, length_le_bytes; cbn [List.length]; lia ].
  cbn [or_empty]. rewrite Hans. cbn [rbind]. unfold unpack_s.
  unfold prefix. rewrite <- !app_assoc.
  rewrite unpack_bytes_new by reflexivity. cbn [rbind].
  rewrite bytes_eqb_refl.
  unfold unpack_II.
  rewrite (app_assoc (le_bytes 4 1)).
  rewrite (unpack_bytes_at 8 4) by (rewrite ?length_app, ?length_le_bytes; reflexivity).
  cbn [rbind].
  rewrite firstn_exact, skipn_exact by apply length_le_bytes.
  rewrite !le_value_le_bytes by (cbn; lia).
  unfold assert, lift, ret. cbn [Z.eqb Pos.eqb Nat.add].
  set (buf := {| _data := _; _pos := 12 |}).
  assert (Ebuf : buf = {| _data := prefix ++ body; _pos := 12 |}).
  { unfold buf, prefix. now rewrite <- !app_assoc. }
  clearbody buf. subst buf.
  rewrite (size_at 12 prefix body Hprefix).
  destruct (Z.of_nat (List.length body) =? flen) eqn:Eexact.
  - apply Z.eqb_eq in Eexact.
    replace (Z.of_nat (List.length body) =? flen + 1) with false
      by (symmetry; apply Z.eqb_neq; lia).
    cbn [andb]. rewrite (size_at 12 prefix body Hprefix).
    replace (Z.of_nat (List.length body) =? flen) with true
      by (symmetry; apply Z.eqb_eq; lia).
    reflexivity.
  - destruct (Z.of_nat (List.length body) =? flen + 1) eqn:Eplus; cbn [andb].
    + apply Z.eqb_eq in Eplus.
      assert (Hne : body <> []) by (intros ->; cbn in Eplus; lia).
      cbn [_data]. rewrite (last_app_nonempty prefix body x00 Hne).
      destruct (int_of_byte (last body x00) =? 0) eqn:Ezero.
      * cbn [_data _pos]. rewrite (removelast_app prefix Hne).
        rewrite (size_at 12 prefix (removelast body) Hprefix).
        assert (Hlen : Z.of_nat (List.length (removelast body)) = flen).
        { rewrite (app_removelast_last x00 Hne) in Eplus at 1.
          rewrite length_app in Eplus. cbn [List.length] in Eplus. lia. }
        rewrite Hlen, Z.eqb_refl. reflexivity.
      * rewrite (size_at 12 prefix body Hprefix), Eexact. reflexivity.
    + rewrite (size_at 12 prefix body Hprefix), Eexact. reflexivity.
Qed.

(** C3. A register read answered with return code 1 and declared length
    [flen]: with [flen + 1] bytes left and the last of them zero, the read
    succeeds and its buffer holds the [flen] bytes without the last; with
    [flen + 1] bytes left and the last not zero, or with any other count
    than [flen], the length assertion (LengthMismatchError) is raised; with
    [flen] bytes left the read succeeds with them. *)
Theorem read_request_length_tolerance (command_id flen : Z) (body : bytes) (self : RadiaCode) :
  0 <= command_id < 2 ^ 32 ->
  seq_ok self ->
  0 <= flen < 2 ^ 32 ->
  answer self (frame_of [x26; x08] (_seq self) (le_bytes 4 command_id))
  = Ok (header_of [x26; x08] (_seq self) ++ le_bytes 4 1 ++ le_bytes 4 flen ++ body) ->
  let actual := Z.of_nat (List.length body) in
  let outcome := fst (read_request command_id self) in
  (actual = flen + 1 -> last body x00 = x00 ->
   exists r, outcome = Ok r /\ data r = removelast body /\ size r = flen)
  /\ (actual = flen + 1 -> last body x00 <> x00 -> outcome = Raise LengthMismatchError)
  /\ (actual <> flen + 1 -> actual <> flen -> outcome = Raise LengthMismatchError)
  /\ (actual = flen -> exists r, outcome = Ok r /\ data r = body /\ size r = flen).
Proof.
  intros Hid Hseq Hflen Hans actual outcome.
  set (prefix := header_of [x26; x08] (_seq self) ++ le_bytes 4 1 ++ le_bytes 4 flen).
  assert (Hprefix : List.length prefix = 12%nat).
  { unfold prefix, header_of. rewrite !length_app, !length_le_bytes. reflexivity. }
  assert (Hans' : answer self (frame_of [x26; x08] (_seq self) (le_bytes 4 command_id))
                  = Ok (prefix ++ body)).
  { rewrite Hans. unfold prefix. now rewrite <- !app_assoc. }
  pose proof (read_request_run command_id flen body self Hid Hseq Hflen Hans') as Hrun.
  fold prefix in Hrun. fold outcome in Hrun. fold actual in Hrun.
  repeat split.
  - intros Hplus Hzero. rewrite Hrun.
    replace (actual =? flen) with false by (symmetry; apply Z.eqb_neq; lia).
    replace (actual =? flen + 1) with true by (symmetry; apply Z.eqb_eq; lia).
    rewrite Hzero. cbn [andb int_of_byte Byte.to_N Z.of_N Z.eqb].
    eexists; split; [reflexivity|]. split.
    + now apply data_at.
    + rewrite size_at by exact Hprefix.
      assert (Hne : body <> []) by (intros ->; unfold actual in Hplus; cbn in Hplus; lia).
      unfold actual in Hplus. rewrite (app_removelast_last x00 Hne) in Hplus at 1.
      rewrite length_app in Hplus. cbn [List.length] in Hplus. lia.
  - intros Hplus Hnz. rewrite Hrun.
    replace (actual =? flen) with false by (symmetry; apply Z.eqb_neq; lia).
    replace (int_of_byte (last body x00) =? 0) with false
      by (symmetry; apply Z.eqb_neq; now rewrite int_of_byte_zero).
    now rewrite andb_false_r.
  - intros Hnp Hne. rewrite Hrun.
    replace (actual =? flen) with false by (symmetry; apply Z.eqb_neq; lia).
    replace (actual =? flen + 1) with false by (symmetry; apply Z.eqb_neq; lia).
    reflexivity.
  - intros Heq. rewrite Hrun.
    replace (actual =? flen) with true by (symmetry; apply Z.eqb_eq; lia).
    eexists; split; [reflexivity|]. split.
    + now apply data_at.
    + rewrite size_at by exact Hprefix. exact Heq.
Qed.

(** ** [write_request] and the switches *)

Ltac split_cases :=
  repeat (cbn beta iota delta [fst snd rbind];
          match goal with
          | |- context [match ?x with _ => _ end] => destruct x
          end);
  cbn beta iota delta [fst snd rbind].

(** A register write hands over one frame, whatever the device answers. *)
Lemma write_request_frame (command_id : Z) (value : bytes) (self : RadiaCode) :
  0 <= command_id < 2 ^ 32 ->
  seq_ok self ->
  Z.of_nat (8 + List.length value) < 2 ^ 32 ->
  snd (write_request command_id (Some value) self)
  = hand_over (frame_of [x25; x08] (_seq self) (le_bytes 4 command_id ++ value)) (advance self).
Proof.
  intros Hid Hseq Hfit.
  unfold write_request, bind, assert, lift.
  rewrite pack_I_ok by exact Hid.
  rewrite execute_run;
    [| reflexivity | exact Hseq
     | unfold header_of, or_empty; rewrite !length_app, length_le_bytes; cbn [List.length]; lia ].
  cbn [or_empty]. split_cases; reflexivity.
Qed.

Section Switches.
Context {imports : Imports}.

(** C8. [set_vibro_on] is [set_sound_on]: for either value of [on] it is the
    register write of [int(on)] to SOUND_ON. The one frame it hands to the
    transport is a write (opcode 25 08) whose register field is SOUND_ON and
    whose value is [int(on)] on 4 bytes; no other register is written. *)
Theorem set_vibro_on_writes_sound_on (on : bool) (self : RadiaCode) :
  seq_ok self ->
  0 <= VSFR_SOUND_ON < 2 ^ 32 ->
  set_vibro_on on self = set_sound_on on self
  /\ set_vibro_on on self
     = write_request VSFR_SOUND_ON (Some (le_bytes 4 (int_of_bool on))) self
  /\ exists frame,
       frames_of self (snd (set_vibro_on on self)) [frame]
       /\ frame = frame_of [x25; x08] (_seq self)
                    (le_bytes 4 VSFR_SOUND_ON ++ le_bytes 4 (int_of_bool on))
       /\ opcode_of frame = [x25; x08]
       /\ register_of frame = VSFR_SOUND_ON.
Proof.
  intros Hseq Hreg.
  assert (Hon : 0 <= int_of_bool on < 2 ^ 32) by (destruct on; cbn; lia).
  assert (E : set_vibro_on on self
              = write_request VSFR_SOUND_ON (Some (le_bytes 4 (int_of_bool on))) self).
  { unfold set_vibro_on, bind, lift. now rewrite pack_I_ok by exact Hon. }
  split; [reflexivity|]. split; [exact E|].
  eexists. split; [|split; [reflexivity|]].
  - rewrite E, write_request_frame;
      [reflexivity | exact Hreg | exact Hseq | rewrite length_le_bytes; cbn; lia].
  - unfold frame_of, header_of, opcode_of, register_of.
    split; [reflexivity|].
    cbn [app List.length]. rewrite length_app, !length_le_bytes.
    cbn [le_bytes app skipn firstn].
    exact (le_value_le_bytes 4 VSFR_SOUND_ON Hreg).
Qed.

End Switches.

(** ** [batch_read_vsfrs] *)

(** C10. On an empty list of ids [batch_read_vsfrs] raises its first
    assertion: nothing was handed to the transport, the session is as
    before, and no list is returned. *)
Theorem batch_read_vsfrs_empty (self : RadiaCode) :
  fst (batch_read_vsfrs [] self) = Raise (AssertionError A_nonempty)
  /\ snd (batch_read_vsfrs [] self) = self
  /\ frames_of self (snd (batch_read_vsfrs [] self)) []
  /\ forall values, fst (batch_read_vsfrs [] self) <> Ok values.
Proof.
  assert (E : batch_read_vsfrs [] self = (Raise (AssertionError A_nonempty), self))
    by reflexivity.
  rewrite E. cbn [fst snd]. unfold frames_of.
  repeat split.
  - now rewrite app_nil_r.
  - intros values H. discriminate H.
Qed.

Lemma length_words (values : list Z) :
  List.length (words values) = (4 * List.length values)%nat.
Proof.
  unfold words. induction values as [|v values IH]; [reflexivity|].
  cbn [map List.concat List.length]. rewrite length_app, length_le_bytes, IH. lia.
Qed.

Lemma rmap_pack_I (ids : list Z) :
  Forall u32 ids -> rmap pack_I ids = Ok (map (le_bytes 4) ids).
Proof.
  induction 1 as [|i ids Hi _ IH]; [reflexivity|].
  cbn [rmap map] in *. rewrite pack_I_ok by exact Hi. cbn [rbind].
  rewrite IH. reflexivity.
Qed.

Lemma firstn_plus {A} (a b : nat) (l : list A) :
  firstn (a + b) l = firstn a l ++ firstn b (skipn a l).
Proof.
  revert l. induction a as [|a IH]; intros l; [reflexivity|].
  destruct l as [|x l]; cbn [Nat.add firstn skipn app].
  - now rewrite firstn_nil.
  - now rewrite IH.
Qed.

(** [k] words under the cursor are read back in their order. *)
Lemma unpack_I_times_words (values : list Z) :
  forall (k : nat) (pre post : bytes),
    List.length pre = k -> Forall u32 values ->
    unpack_I_times (List.length values) {| _data := pre ++ words values ++ post; _pos := k |}
    = Ok (values, {| _data := pre ++ words values ++ post;
                     _pos := (k + 4 * List.length values)%nat |}).
Proof.
  induction values as [|v values IH]; intros k pre post Hk Hall.
  - cbn [unpack_I_times List.length]. do 2 f_equal. f_equal. lia.
  - inversion Hall as [|? ? Hv Hrest]; subst.
    cbn [unpack_I_times List.length]. unfold unpack_I.
    unfold words. cbn [map List.concat]. fold (words values).
    rewrite <- (app_assoc (le_bytes 4 v)).
    rewrite (unpack_bytes_at 4 (List.length pre)) by (reflexivity || apply length_le_bytes).
    cbn [rbind]. rewrite (le_value_le_bytes 4 v Hv).
    rewrite (app_assoc pre).
    rewrite (IH (List.length pre + 4)%nat (pre ++ le_bytes 4 v) post);
      [| rewrite length_app, length_le_bytes; reflexivity | exact Hrest].
    cbn [rbind]. do 2 f_equal. f_equal. lia.
Qed.

(** Whatever [unpack_I_times] returns was read off the buffer, in order. *)
Lemma unpack_I_times_inv (n : nat) :
  forall (d : bytes) (k : nat) (values : list Z) (r : BytesBuffer),
    unpack_I_times n {| _data := d; _pos := k |} = Ok (values, r) ->
    List.length values = n
    /\ Forall u32 values
    /\ firstn (4 * n) (skipn k d) = words values
    /\ r = {| _data := d; _pos := (k + 4 * n)%nat |}.
Proof.
  induction n as [|n IH]; intros d k values r H.
  - cbn [unpack_I_times] in H. injection H as <- <-.
    repeat split; try reflexivity.
    + constructor.
    + f_equal. lia.
  - cbn [unpack_I_times] in H. unfold unpack_I, unpack_bytes in H.
    destruct (size {| _data := d; _pos := k |} <? Z.of_nat 4) eqn:Esz;
      cbn [rbind] in H; [discriminate H|].
    cbn [_data _pos] in H.
    destruct (unpack_I_times n {| _data := d; _pos := (k + 4)%nat |})
      as [[values' r']|e] eqn:Erec; cbn [rbind] in H; [|discriminate H].
    injection H as <- <-.
    apply IH in Erec. destruct Erec as (Hlen & Hall & Hwords & ->).
    apply Z.ltb_ge in Esz. unfold size in Esz. cbn [_data _pos] in Esz.
    unfold data. cbn [_data _pos].
    assert (H4 : List.length (firstn 4 (skipn k d)) = 4%nat)
      by (rewrite length_firstn, length_skipn; lia).
    repeat split.
    + cbn [List.length]. now rewrite Hlen.
    + constructor; [|exact Hall].
      pose proof (le_value_range (firstn 4 (skipn k d))) as Hr.
      rewrite H4 in Hr. exact Hr.
    + replace (4 * S n)%nat with (4 + 4 * n)%nat by lia.
      rewrite firstn_plus, skipn_skipn.
      replace (4 + k)%nat with (k + 4)%nat by lia. rewrite Hwords.
      unfold words. cbn [map List.concat]. f_equal.
      pose proof (le_bytes_le_value (firstn 4 (skipn k d))) as E.
      rewrite H4 in E. symmetry. exact E.
    + f_equal. lia.
Qed.

Lemma unpack_I_times_short (n : nat) :
  forall (r : BytesBuffer),
    0 <= size r < Z.of_nat (4 * n) -> unpack_I_times n r = Raise UnderflowError.
Proof.
  induction n as [|n IH]; intros r Hsz.
  - lia.
  - cbn [unpack_I_times]. unfold unpack_I, unpack_bytes.
    destruct (size r <? Z.of_nat 4) eqn:E; cbn [rbind]; [reflexivity|].
    apply Z.ltb_ge in E. rewrite IH; [reflexivity|].
    unfold size in *. cbn [_data _pos]. lia.
Qed.

(** Every buffer of [4 * n] bytes is [n] words. *)
Lemma bytes_are_words (n : nat) :
  forall bs : bytes, List.length bs = (4 * n)%nat ->
    exists values, List.length values = n /\ Forall u32 values /\ words values = bs.
Proof.
  induction n as [|n IH]; intros bs Hlen.
  - exists []. destruct bs; [repeat split; constructor | discriminate Hlen].
  - destruct (IH (skipn 4 bs)) as (values & Hn & Hall & Hw).
    { rewrite length_skipn. lia. }
    assert (H4 : List.length (firstn 4 bs) = 4%nat) by (rewrite length_firstn; lia).
    exists (le_value (firstn 4 bs) :: values). repeat split.
    + cbn [List.length]. now rewrite Hn.
    + constructor; [|exact Hall].
      pose proof (le_value_range (firstn 4 bs)) as Hr. rewrite H4 in Hr. exact Hr.
    + unfold words in *. cbn [map List.concat]. rewrite Hw.
      pose proof (le_bytes_le_value (firstn 4 bs)) as E. rewrite H4 in E.
      rewrite E. apply firstn_skipn.
Qed.

Lemma words_inj (a b : list Z) :
  Forall u32 a -> Forall u32 b -> words a = words b -> a = b.
Proof.
  intros Ha. revert b. induction Ha as [|x a Hx _ IH]; intros b Hb E.
  - destruct b as [|y b]; [reflexivity|].
    apply (f_equal (@List.length byte)) in E. rewrite !length_words in E.
    cbn [List.length] in E. lia.
  - destruct b as [|y b].
    + apply (f_equal (@List.length byte)) in E. rewrite !length_words in E.
      cbn [List.length] in E. lia.
    + inversion Hb as [|? ? Hy Hb']; subst.
      unfold words in E. cbn [map List.concat] in E.
      assert (E1 : le_bytes 4 x = le_bytes 4 y).
      { apply (f_equal (firstn 4)) in E.
        now rewrite !firstn_exact in E by apply length_le_bytes. }
      assert (E2 : words a = words b).
      { apply (f_equal (skipn 4)) in E.
        now rewrite !skipn_exact in E by apply length_le_bytes. }
      f_equal; [exact (le_bytes_inj 4 x y Hx Hy E1) | exact (IH b Hb' E2)].
Qed.

(** What [batch_read_vsfrs] makes of an answer that echoes the header. *)
Lemma batch_read_vsfrs_run (vsfr_ids : list Z) (payload : bytes) (self : RadiaCode) :
  vsfr_ids <> [] ->
  Forall u32 vsfr_ids ->
  seq_ok self ->
  Z.of_nat (4 + 4 * List.length vsfr_ids) < 2 ^ 32 ->
  let frame := frame_of [x2a; x08] (_seq self) (words vsfr_ids) in
  let response := header_of [x2a; x08] (_seq self) ++ payload in
  answer self frame = Ok response ->
  batch_read_vsfrs vsfr_ids self =
  (('(values, r) <- unpack_I_times (List.length vsfr_ids) {| _data := response; _pos := 4 |} ;;
    if size r =? 0 then Ok values else Raise (AssertionError A_exhausted))%result,
   hand_over frame (advance self)).
Proof.
  intros Hne Hall Hseq Hfit frame response Hans.
  unfold batch_read_vsfrs, bind, assert, lift, ret.
  assert (Hk : Nat.eqb (List.length vsfr_ids) 0 = false)
    by (destruct vsfr_ids; [congruence | reflexivity]).
  rewrite Hk. cbn [negb]. rewrite rmap_pack_I by exact Hall. fold (words vsfr_ids).
  rewrite execute_run;
    [| reflexivity | exact Hseq
     | unfold header_of, or_empty; rewrite !length_app, length_words; cbn [List.length]; lia ].
  cbn [or_empty]. subst frame. rewrite Hans. cbn [rbind]. unfold unpack_s, response.
  rewrite unpack_bytes_new by reflexivity. cbn [rbind].
  rewrite bytes_eqb_refl.
  destruct (unpack_I_times _ _) as [[values r]|e]; cbn [rbind]; [|reflexivity].
  destruct (size r =? 0); reflexivity.
Qed.

(** C6. A batch read of [k >= 1] register ids hands the transport one
    frame, whose payload is the ids on 4 bytes each, little end first, in
    their order. When the device echoes the header, the call returns a list
    exactly when the payload of the answer is [k] words and nothing more,
    and the list is these words in their order; a shorter payload raises
    UnderflowError and a longer one the exhaustion assertion, so that no
    partial list is ever returned. *)
Theorem batch_read_vsfrs_in_order (vsfr_ids : list Z) (payload : bytes) (self : RadiaCode) :
  vsfr_ids <> [] ->
  Forall u32 vsfr_ids ->
  seq_ok self ->
  Z.of_nat (4 + 4 * List.length vsfr_ids) < 2 ^ 32 ->
  let k := List.length vsfr_ids in
  let frame := frame_of [x2a; x08] (_seq self) (List.concat (map (le_bytes 4) vsfr_ids)) in
  answer self frame = Ok (header_of [x2a; x08] (_seq self) ++ payload) ->
  let outcome := batch_read_vsfrs vsfr_ids self in
  frames_of self (snd outcome) [frame]
  /\ (forall values,
        fst outcome = Ok values
        <-> List.length values = k /\ Forall u32 values
            /\ payload = List.concat (map (le_bytes 4) values))
  /\ ((List.length payload < 4 * k)%nat -> fst outcome = Raise UnderflowError)
  /\ ((List.length payload > 4 * k)%nat -> fst outcome = Raise (AssertionError A_exhausted)).
Proof.
  intros Hne Hall Hseq Hfit k frame Hans outcome.
  set (hdr := header_of [x2a; x08] (_seq self)) in *.
  assert (Hhdr : List.length hdr = 4%nat) by reflexivity.
  unfold outcome.
  rewrite (batch_read_vsfrs_run vsfr_ids payload self Hne Hall Hseq Hfit Hans).
  cbn [fst snd]. fold hdr. fold k.
  split; [reflexivity|]. split; [|split].
  - intros values. split.
    + intros H.
      destruct (unpack_I_times k _) as [[values' r]|e] eqn:Erun; cbn [rbind] in H;
        [|discriminate H].
      destruct (size r =? 0) eqn:Esz; [|discriminate H].
      injection H as ->.
      apply unpack_I_times_inv in Erun. destruct Erun as (Hlen & Hu & Hw & ->).
      apply Z.eqb_eq in Esz. unfold size in Esz. cbn [_data _pos] in Esz.
      rewrite length_app, Hhdr in Esz.
      rewrite (skipn_exact 4 hdr payload Hhdr) in Hw.
      rewrite firstn_all2 in Hw by lia.
      repeat split; assumption.
    + intros (Hlen & Hu & ->). fold (words values).
      rewrite <- Hlen.
      pose proof (unpack_I_times_words values 4 hdr [] Hhdr Hu) as Erun.
      rewrite app_nil_r in Erun. rewrite Erun. cbn [rbind].
      unfold size. cbn [_data _pos]. rewrite length_app, length_words, Hhdr.
      replace (Z.of_nat (4 + 4 * List.length values)
               - Z.of_nat (4 + 4 * List.length values)) with 0 by lia.
      reflexivity.
  - intros Hshort. rewrite unpack_I_times_short; [reflexivity|].
    unfold size. cbn [_data _pos]. rewrite length_app, Hhdr. lia.
  - intros Hlong.
    destruct (bytes_are_words k (firstn (4 * k) payload)) as (values & Hlen & Hu & Hw).
    { rewrite length_firstn. lia. }
    rewrite <- (firstn_skipn (4 * k) payload), <- Hw, <- Hlen.
    rewrite (unpack_I_times_words values 4 hdr _ Hhdr Hu). cbn [rbind].
    unfold size. cbn [_data _pos].
    rewrite !length_app, length_words, Hhdr, length_skipn, Hlen.
    replace (_ =? 0) with false; [reflexivity|].
    symmetry. apply Z.eqb_neq. lia.
Qed.

(** ** The sequence counter *)

Lemma counted_seq_ok {A} (m : M A) (self : RadiaCode) :
  counted m -> seq_ok self -> seq_ok (snd (m self)).
Proof.
  intros Hm Hseq. destruct (Hm self Hseq) as (frames & _ & [E | [_ E]]);
    unfold seq_ok; rewrite E; apply Z.mod_pos_bound; lia.
Qed.

(** A step that leaves counter and connection alone. *)
Lemma counted_still {A} (m : M A) :
  (forall self, _seq (snd (m self)) = _seq self
                /\ _connection (snd (m self)) = _connection self) ->
  counted m.
Proof.
  intros H self Hseq. destruct (H self) as [Es Ec].
  exists []. unfold frames_of. rewrite Es, Ec, app_nil_r. split; [reflexivity|].
  left. cbn [List.length Z.of_nat]. rewrite Z.add_0_r, Z.mod_small; [reflexivity | exact Hseq].
Qed.

Lemma counted_ret {A} (a : A) : counted (ret a).
Proof. apply counted_still. intros self. split; reflexivity. Qed.

Lemma counted_lift {A} (r : result A) : counted (lift r).
Proof. apply counted_still. intros self. split; reflexivity. Qed.

Lemma counted_assert (c : bool) (site : assertion) : counted (assert c site).
Proof. apply counted_lift. Qed.

Lemma counted_attribute {A} (f : RadiaCode -> option A) : counted (attribute f).
Proof. apply counted_still. intros self. split; reflexivity. Qed.

Lemma counted_set_base_time (t : datetime) : counted (modify (set_base_time t)).
Proof. apply counted_still. intros self. split; reflexivity. Qed.

Lemma counted_set_spectrum_format_version (v : Z) :
  counted (modify (set_spectrum_format_version v)).
Proof. apply counted_still. intros self. split; reflexivity. Qed.

Lemma bind_ok {A B} (m : M A) (k : A -> M B) (self self' : RadiaCode) (b : B) :
  bind m k self = (Ok b, self') ->
  exists a s, m self = (Ok a, s) /\ k a s = (Ok b, self').
Proof.
  unfold bind. destruct (m self) as [[a|e] s]; intros H; [|discriminate H].
  exists a, s. split; [reflexivity | exact H].
Qed.

Lemma counted_bind {A B} (m : M A) (k : A -> M B) :
  counted m -> (forall a, counted (k a)) -> counted (bind m k).
Proof.
  intros Hm Hk self Hseq.
  pose proof (counted_seq_ok m self Hm Hseq) as Hseq'.
  destruct (Hm self Hseq) as (frames & Hf & Hc).
  unfold bind. destruct (m self) as [[a|e] self'] eqn:E; cbn [fst snd] in *.
  - destruct Hc as [Hc | [Hc _]]; [|discriminate Hc].
    destruct (Hk a self' Hseq') as (frames' & Hf' & Hc').
    exists (frames ++ frames'). unfold frames_of in *.
    rewrite Hf', Hf, app_assoc. split; [reflexivity|].
    rewrite length_app, Nat2Z.inj_add.
    destruct Hc' as [Hc' | [Hr Hc']]; [left | right; split; [exact Hr|]];
      rewrite Hc', <- ?Z.add_assoc, Hc, Z.add_mod_idemp_l by lia; f_equal; lia.
  - exists frames. split; [exact Hf|].
    destruct Hc as [Hc | [Hr Hc]]; [left; exact Hc | right].
    split; [congruence | exact Hc].
Qed.

Lemma counted_execute (reqtype : bytes) (args : option bytes) : counted (execute reqtype args).
Proof.
  intros self Hseq.
  destruct (Nat.eq_dec (List.length reqtype) 2) as [Hlen | Hlen].
  - destruct (Z_lt_le_dec
                (Z.of_nat (List.length (header_of reqtype (_seq self) ++ or_empty args)))
                (2 ^ 32)) as [Hfit | Hbig].
    + rewrite execute_run by assumption. cbn [snd].
      exists [frame_of reqtype (_seq self) (or_empty args)]. split; [reflexivity|].
      left. reflexivity.
    + rewrite execute_too_long by assumption. cbn [fst snd].
      exists []. unfold frames_of, advance. cbn [_connection set_seq _seq].
      rewrite app_nil_r. split; [reflexivity|].
      right. split; [reflexivity|].
      cbn [List.length Z.of_nat]. now rewrite Z.add_0_r.
  - rewrite execute_reqtype_length by exact Hlen. cbn [snd].
    exists []. unfold frames_of. rewrite app_nil_r. split; [reflexivity|].
    left. cbn [List.length Z.of_nat]. rewrite Z.add_0_r, Z.mod_small; [reflexivity | exact Hseq].
Qed.

Create HintDb counted.
#[local] Hint Resolve counted_ret counted_lift counted_assert counted_attribute
  counted_set_base_time counted_set_spectrum_format_version counted_execute : counted.

Ltac counted_step :=
  first
    [ solve [auto with counted]
    | apply counted_bind; [|intros]
    | match goal with
      | |- counted (let '(_, _) := ?x in _) => destruct x
      | |- counted (if ?c then _ else _) => destruct c
      end ].

Ltac counted_steps := repeat counted_step.

Lemma counted_read_request (command_id : Z) : counted (read_request command_id).
Proof. unfold read_request. counted_steps. Qed.

Lemma counted_write_request (command_id : Z) (value : option bytes) :
  counted (write_request command_id value).
Proof. unfold write_request. counted_steps. Qed.

Lemma counted_batch_read_vsfrs (vsfr_ids : list Z) : counted (batch_read_vsfrs vsfr_ids).
Proof. unfold batch_read_vsfrs. counted_steps. Qed.

#[local] Hint Resolve counted_read_request counted_write_request
  counted_batch_read_vsfrs : counted.

Section Counter.
Context {imports : Imports}.

Lemma counted_void {A} (m : M A) : counted m -> counted (void m).
Proof. intros H. unfold void. counted_steps. Qed.

Lemma counted_fw_version : counted fw_version.
Proof. unfold fw_version. counted_steps. Qed.

Lemma counted_configuration : counted configuration.
Proof. unfold configuration. counted_steps. Qed.

Lemma counted_set_local_time (dt : datetime) : counted (set_local_time dt).
Proof. unfold set_local_time. counted_steps. Qed.

Lemma counted_device_time (v : Z) : counted (device_time v).
Proof. unfold device_time. counted_steps. Qed.

Lemma counted_scan_configuration (lines : list string) : counted (scan_configuration lines).
Proof.
  induction lines as [|line lines IH]; cbn [scan_configuration]; [counted_steps|].
  destruct (startswith line "SpecFormatVersion"); [counted_steps | exact IH].
Qed.

#[local] Hint Resolve counted_void counted_fw_version counted_configuration
  counted_set_local_time counted_device_time counted_scan_configuration : counted.

Lemma counted_initialize (now : datetime) (ignore : bool) : counted (initialize now ignore).
Proof.
  unfold initialize, read_spectrum_format_version. counted_steps.
Qed.

(** Every method moves the counter by its requests only. *)
Lemma counted_call (op : operation) : counted (call op).
Proof.
  destruct op; cbn [call];
    try apply counted_void;
    unfold base_time, status, fw_signature, hw_serial_number, text_message,
      serial_number, commands, data_buf, spectrum, spectrum_accum, dose_reset,
      spectrum_reset, energy_calib, set_energy_calib, set_language, set_device_on,
      set_sound_on, set_vibro_on, set_sound_ctrl, set_display_off_time,
      set_display_brightness, set_display_direction, set_vibro_ctrl;
    counted_steps.
Qed.

(** A session that [__init__] returns has its counter at the number of
    frames handed over since the connection was opened, modulo 32. *)
Lemma init_counter (host : Host) (bluetooth_mac serial_number : option string)
    (ignore : bool) (self : RadiaCode) :
  __init__ host bluetooth_mac serial_number ignore = Ok self ->
  exists c frames,
    match bluetooth_mac with
    | Some mac => Bluetooth host mac
    | None => Usb host serial_number
    end = Ok c
    /\ sent (_connection self) = sent c ++ frames
    /\ _seq self = Z.of_nat (List.length frames) mod 32.
Proof.
  unfold __init__. intros H.
  destruct (match bluetooth_mac with Some mac => _ | None => _ end) as [c|e];
    cbn [rbind] in H; [|discriminate H].
  set (self0 := {| _connection := c; _seq := 0; _base_time := None;
                   _spectrum_format_version := None |}) in H.
  assert (Hseq0 : seq_ok self0) by (unfold seq_ok; cbn; lia).
  destruct (counted_initialize (clock host) ignore self0 Hseq0) as (frames & Hf & Hc).
  destruct (initialize (clock host) ignore self0) as [[u|e] self'];
    cbn [fst snd] in *; [|discriminate H].
  injection H as <-.
  exists c, frames. split; [reflexivity|]. split; [exact Hf|].
  destruct Hc as [Hc | [Hc _]]; [exact Hc | discriminate Hc].
Qed.

(** C5. The counter starts at 0: a session returned by [__init__] has it at
    the number of frames sent so far modulo 32. A call of [execute] with a
    2-byte opcode advances it by exactly one modulo 32, whatever happens
    afterwards, and any frame it sends carries the byte [0x80 | counter] of
    before the call. Every method keeps the counter within 0..31 and moves
    it only by the requests it makes: by the number of frames handed to the
    transport modulo 32 (and once more when a request was too long to be
    framed). *)
Theorem sequence_counter_invariant :
  (forall host bluetooth_mac serial_number ignore self,
      __init__ host bluetooth_mac serial_number ignore = Ok self ->
      seq_ok self
      /\ exists c frames,
           match bluetooth_mac with
           | Some mac => Bluetooth host mac
           | None => Usb host serial_number
           end = Ok c
           /\ sent (_connection self) = sent c ++ frames
           /\ _seq self = Z.of_nat (List.length frames) mod 32)
  /\ (forall reqtype args self,
        List.length reqtype = 2%nat -> seq_ok self ->
        _seq (snd (execute reqtype args self)) = (_seq self + 1) mod 32
        /\ exists frames,
             frames_of self (snd (execute reqtype args self)) frames
             /\ (List.length frames <= 1)%nat
             /\ forall frame, In frame frames ->
                  nth_error frame 7 = Some (byte_of_int (Z.lor 128 (_seq self))))
  /\ (forall op self,
        seq_ok self ->
        seq_ok (snd (call op self))
        /\ exists frames,
             frames_of self (snd (call op self)) frames
             /\ (_seq (snd (call op self))
                 = (_seq self + Z.of_nat (List.length frames)) mod 32
                 \/ (fst (call op self) = Raise StructError
                     /\ _seq (snd (call op self))
                        = (_seq self + Z.of_nat (List.length frames) + 1) mod 32))).
Proof.
  split; [|split].
  - intros host bluetooth_mac serial_number ignore self H.
    destruct (init_counter _ _ _ _ _ H) as (c & frames & Hc & Hs & Hq).
    split.
    + unfold seq_ok. rewrite Hq. apply Z.mod_pos_bound. lia.
    + exists c, frames. repeat split; assumption.
  - intros reqtype args self Hlen Hseq.
    destruct (Z_lt_le_dec
                (Z.of_nat (List.length (header_of reqtype (_seq self) ++ or_empty args)))
                (2 ^ 32)) as [Hfit | Hbig].
    + rewrite execute_run by assumption. cbn [snd]. split; [reflexivity|].
      exists [frame_of reqtype (_seq self) (or_empty args)].
      split; [reflexivity|]. split; [cbn; lia|].
      intros frame [<- | []].
      unfold frame_of, header_of.
      destruct reqtype as [|a [|b [|? ?]]]; try discriminate Hlen.
      reflexivity.
    + rewrite execute_too_long by assumption. cbn [snd]. split; [reflexivity|].
      exists []. unfold frames_of, advance. cbn [_connection set_seq].
      rewrite app_nil_r. split; [reflexivity|]. split; [cbn; lia|].
      intros frame [].
  - intros op self Hseq. split.
    + apply counted_seq_ok; [apply counted_call | exact Hseq].
    + exact (counted_call op self Hseq).
Qed.

End Counter.

(** ** Initialization: the firmware check *)

Lemma firmware_rejected_enforced (vmaj vmin : Z) :
  firmware_rejected false vmaj vmin = true <-> vmaj < 4 \/ (vmaj = 4 /\ vmin < 8).
Proof.
  unfold firmware_rejected. cbn [negb andb].
  rewrite orb_true_iff, andb_true_iff, Z.ltb_lt, Z.eqb_eq, Z.ltb_lt. reflexivity.
Qed.

Lemma firmware_rejected_ignored (vmaj vmin : Z) :
  firmware_rejected true vmaj vmin = true <-> vmaj = 4 /\ vmin < 8.
Proof.
  unfold firmware_rejected. cbn [negb andb orb].
  rewrite andb_true_iff, Z.eqb_eq, Z.ltb_lt. reflexivity.
Qed.

Section Initialization.
Context {imports : Imports}.

(** The check as [__init__] runs it, after a version report. *)
Lemma initialize_rejects (now : datetime) (ignore : bool) (self : RadiaCode) :
  forall s1 s2 s3 s4 r u boot vmaj vmin date,
    execute [x07; x00] (Some [x01; xff; x12; xff]) self = (Ok r, s1) ->
    set_local_time now (set_base_time now s1) = (Ok u, s2) ->
    device_time 0 s2 = (Ok u, s3) ->
    fw_version s3 = (Ok (boot, (vmaj, vmin, date)), s4) ->
    firmware_rejected ignore vmaj vmin = true ->
    initialize now ignore self = (Raise (IncompatibleFirmware vmaj vmin), s4).
Proof.
  intros s1 s2 s3 s4 r u boot vmaj vmin date H1 H2 H3 H4 Hrej.
  unfold initialize, bind at 1. rewrite H1.
  unfold bind at 1. unfold modify at 1.
  unfold bind at 1. rewrite H2.
  unfold bind at 1. rewrite H3.
  unfold bind at 1. rewrite H4.
  unfold bind at 1. rewrite Hrej. reflexivity.
Qed.

End Initialization.

(** C1. With [ignore_firmware_compatibility_check=True] and a device that
    reports target firmware 4.7, [__init__] raises the incompatible-firmware
    exception all the same: the condition reads
    [(ignore is False and vmaj < 4) or (vmaj == 4 and vmin < 8)], so the
    flag covers major versions below 4 only. With the check enforced the
    exception is raised exactly below 4.8. *)
Theorem init_ignore_flag_misses_4_x :
  __init__ (imports := sample_imports) (sample_host (scripted_device firmware_4_7_script))
    None None true
  = Raise (IncompatibleFirmware 4 7)
  /\ (forall vmaj vmin,
        firmware_rejected true vmaj vmin = true <-> vmaj = 4 /\ vmin < 8)
  /\ (forall vmaj vmin,
        firmware_rejected false vmaj vmin = true <-> vmaj < 4 \/ (vmaj = 4 /\ vmin < 8)).
Proof.
  split; [|split].
  - vm_compute. reflexivity.
  - exact firmware_rejected_ignored.
  - exact firmware_rejected_enforced.
Qed.

(** ** Initialization: the spectrum format version *)

Lemma split_without (sep : ascii) (s : string) :
  occurs sep s = false -> split sep s = [s].
Proof.
  induction s as [|c s IH]; intros H; [reflexivity|].
  cbn [occurs] in H. apply orb_false_iff in H. destruct H as [Hc Hs].
  cbn [split]. rewrite Hc, (IH Hs). reflexivity.
Qed.

Lemma split_at_first (sep : ascii) (pre rest : string) :
  occurs sep pre = false ->
  split sep (pre ++ String sep rest) = pre :: split sep rest.
Proof.
  induction pre as [|c pre IH]; intros H.
  - cbn [String.append split]. now rewrite Ascii.eqb_refl.
  - cbn [occurs] in H. apply orb_false_iff in H. destruct H as [Hc Hs].
    cbn [String.append split]. rewrite Hc, (IH Hs). reflexivity.
Qed.

(** The second piece of a line cut at its [=] signs is what stands between
    the first of them and the next, or the end of the line. *)
Lemma second_field (name field rest : string) :
  occurs "=" name = false ->
  occurs "=" field = false ->
  rest = EmptyString \/ (exists rest', rest = String "=" rest') ->
  index (split "=" (name ++ String "=" (field ++ rest))) 1 = Ok field.
Proof.
  intros Hname Hfield Hrest.
  rewrite split_at_first by exact Hname.
  destruct Hrest as [-> | [rest' ->]].
  - replace (field ++ EmptyString)%string with field.
    + now rewrite split_without.
    + clear. induction field as [|c f IH]; [reflexivity|]. cbn. now rewrite <- IH.
  - now rewrite split_at_first.
Qed.

Lemma no_second_field (line : string) :
  occurs "=" line = false -> index (split "=" line) 1 = Raise IndexError.
Proof.
  intros H. now rewrite split_without.
Qed.

Section SpectrumFormat.
Context {imports : Imports}.

Lemma scan_configuration_no_key (lines : list string) :
  Forall (fun line => has_key line = false) lines ->
  scan_configuration lines = ret tt.
Proof.
  induction 1 as [|line lines Hline _ IH]; [reflexivity|].
  cbn [scan_configuration]. unfold has_key in Hline. now rewrite Hline.
Qed.

Lemma scan_configuration_first_key (before after : list string) (line : string) :
  Forall (fun line => has_key line = false) before ->
  has_key line = true ->
  scan_configuration (before ++ line :: after)
  = (v <- lift (field <- index (split "=" line) 1 ;; py_int field)%result ;;
     modify (set_spectrum_format_version v)).
Proof.
  intros Hbefore Hline.
  induction Hbefore as [|l before Hl _ IH]; cbn [app scan_configuration].
  - unfold has_key in Hline. now rewrite Hline.
  - unfold has_key in Hl. now rewrite Hl.
Qed.

Lemma keeps_version_bind {A B} (m : M A) (k : A -> M B) :
  keeps_version m -> (forall a, keeps_version (k a)) -> keeps_version (bind m k).
Proof.
  intros Hm Hk self. unfold bind. specialize (Hm self).
  destruct (m self) as [[a|e] self']; cbn [snd] in *; [|exact Hm].
  now rewrite Hk.
Qed.

Ltac keeps_steps :=
  repeat first
    [ apply keeps_version_bind; [|intros]
    | match goal with
      | |- keeps_version (let '(_, _) := ?x in _) => destruct x
      end
    | solve [intros ?; reflexivity] ].

Lemma keeps_version_execute (reqtype : bytes) (args : option bytes) :
  keeps_version (execute reqtype args).
Proof. unfold execute, assert. keeps_steps. Qed.

(** Reading the configuration leaves the version attribute alone. *)
Lemma configuration_keeps_version (self : RadiaCode) :
  _spectrum_format_version (snd (configuration self)) = _spectrum_format_version self.
Proof.
  revert self. change (keeps_version configuration).
  unfold configuration, read_request, assert.
  apply keeps_version_bind; [|intros; keeps_steps].
  apply keeps_version_bind; [keeps_steps|intros].
  apply keeps_version_bind; [apply keeps_version_execute|intros].
  keeps_steps.
Qed.

(** The session that [__init__] returns is the one left by its last step. *)
Lemma init_ends_with_format (host : Host) (bluetooth_mac serial_number : option string)
    (ignore : bool) (self : RadiaCode) :
  __init__ host bluetooth_mac serial_number ignore = Ok self ->
  exists before, read_spectrum_format_version before = (Ok tt, self).
Proof.
  unfold __init__. intros H.
  destruct (match bluetooth_mac with Some mac => _ | None => _ end) as [c|e];
    cbn [rbind] in H; [|discriminate H].
  destruct (initialize _ _ _) as [[[]|e] self'] eqn:E; [|discriminate H].
  injection H as ->.
  unfold initialize in E.
  do 4 (apply bind_ok in E; destruct E as (? & ? & _ & E)).
  apply bind_ok in E. destruct E as ([boot [[vmaj vmin] date]] & ? & _ & E).
  apply bind_ok in E. destruct E as (? & before & _ & E).
  exists before. exact E.
Qed.

End SpectrumFormat.

(** ** What [int] reads *)

Lemma nat_of_digit_char (d : Z) :
  is_digit d -> nat_of_ascii (digit_char d) = Z.to_nat (48 + d).
Proof.
  intros Hd. unfold digit_char. apply nat_ascii_embedding. unfold is_digit in Hd. lia.
Qed.

Lemma digit_of_digit_char (d : Z) : is_digit d -> digit_of (digit_char d) = Some d.
Proof.
  intros Hd. unfold digit_of. rewrite (nat_of_digit_char d Hd).
  unfold is_digit in Hd. rewrite Z2Nat.id by lia.
  replace (48 <=? 48 + d) with true by (symmetry; apply Z.leb_le; lia).
  replace (48 + d <=? 57) with true by (symmetry; apply Z.leb_le; lia).
  cbn [andb]. f_equal. lia.
Qed.

Lemma is_space_digit_char (d : Z) : is_digit d -> is_space (digit_char d) = false.
Proof.
  intros Hd. unfold is_space. rewrite (nat_of_digit_char d Hd).
  unfold is_digit in Hd.
  assert (H : (48 <= Z.to_nat (48 + d) <= 57)%nat) by lia.
  destruct H as [H1 H2].
  replace (Z.to_nat (48 + d) <=? 13)%nat with false by (symmetry; apply Nat.leb_gt; lia).
  replace (Z.to_nat (48 + d) =? 32)%nat with false by (symmetry; apply Nat.eqb_neq; lia).
  replace (Z.to_nat (48 + d) =? 160)%nat with false by (symmetry; apply Nat.eqb_neq; lia).
  now rewrite andb_false_r.
Qed.

Lemma digit_char_neq (d : Z) (c : ascii) :
  is_digit d -> (nat_of_ascii c < 48 \/ 57 < nat_of_ascii c)%nat ->
  Ascii.eqb (digit_char d) c = false.
Proof.
  intros Hd Hc. apply Ascii.eqb_neq. intros E.
  apply (f_equal nat_of_ascii) in E. rewrite (nat_of_digit_char d Hd) in E.
  unfold is_digit in Hd. lia.
Qed.

Lemma lstrip_spaces (pad s : string) :
  all_space pad = true -> lstrip is_space (pad ++ s) = lstrip is_space s.
Proof.
  induction pad as [|c pad IH]; intros H; [reflexivity|].
  cbn [all_space] in H. apply andb_true_iff in H. destruct H as [Hc Hp].
  cbn [String.append lstrip]. rewrite Hc. exact (IH Hp).
Qed.

Lemma rstrip_all_space (pad : string) :
  all_space pad = true -> rstrip is_space pad = EmptyString.
Proof.
  induction pad as [|c pad IH]; intros H; [reflexivity|].
  cbn [all_space] in H. apply andb_true_iff in H. destruct H as [Hc Hp].
  cbn [rstrip]. now rewrite (IH Hp), Hc.
Qed.

Lemma rstrip_spaces (s pad : string) :
  all_space pad = true -> rstrip is_space (s ++ pad) = rstrip is_space s.
Proof.
  intros Hp. induction s as [|c s IH].
  - cbn [String.append]. now apply rstrip_all_space.
  - cbn [String.append rstrip]. now rewrite IH.
Qed.

Lemma rstrip_decimal (digits : list Z) :
  Forall is_digit digits -> rstrip is_space (decimal_text digits) = decimal_text digits.
Proof.
  induction 1 as [|d digits Hd _ IH]; [reflexivity|].
  cbn [decimal_text rstrip]. rewrite IH.
  destruct (decimal_text digits); [|reflexivity].
  now rewrite (is_space_digit_char d Hd).
Qed.

Lemma occurs_app (c : ascii) (a b : string) :
  occurs c (a ++ b) = occurs c a || occurs c b.
Proof.
  induction a as [|x a IH]; [reflexivity|].
  cbn [String.append occurs]. now rewrite IH, orb_assoc.
Qed.

Lemma occurs_lstrip (c : ascii) (s : string) :
  is_space c = false -> occurs c s = true -> occurs c (lstrip is_space s) = true.
Proof.
  intros Hc. induction s as [|a s IH]; intros H; [discriminate H|].
  cbn [lstrip]. destruct (is_space a) eqn:Ea; [|exact H].
  cbn [occurs] in H. apply orb_true_iff in H. destruct H as [H | H]; [|exact (IH H)].
  apply Ascii.eqb_eq in H. subst a. congruence.
Qed.

Lemma occurs_rstrip (c : ascii) (s : string) :
  is_space c = false -> occurs c s = true -> occurs c (rstrip is_space s) = true.
Proof.
  intros Hc. induction s as [|a s IH]; intros H; [discriminate H|].
  cbn [occurs] in H. cbn [rstrip].
  destruct (Ascii.eqb a c) eqn:Eac.
  - apply Ascii.eqb_eq in Eac. subst a.
    destruct (rstrip is_space s); [rewrite Hc|]; cbn [occurs];
      now rewrite Ascii.eqb_refl.
  - cbn [orb] in H. specialize (IH H).
    destruct (rstrip is_space s) as [|x t]; [discriminate IH|].
    cbn [occurs] in *. now rewrite Eac.
Qed.

Lemma int_digits_foreign (c : ascii) (s : string) :
  digit_of c = None -> Ascii.eqb c "_" = false -> occurs c s = true ->
  forall acc count after, int_digits s acc count after = None.
Proof.
  intros Hd Hu. induction s as [|a s IH]; intros H acc count after; [discriminate H|].
  cbn [occurs] in H. cbn [int_digits].
  destruct (Ascii.eqb a c) eqn:Eac.
  - apply Ascii.eqb_eq in Eac. subst a. now rewrite Hd, Hu.
  - cbn [orb] in H. destruct (digit_of a); [now apply IH|].
    destruct (Ascii.eqb a "_" && after); [now apply IH | reflexivity].
Qed.

(** A text that holds a character foreign to decimal literals, or no
    character at all, is no integer. *)
Lemma py_int_foreign (c : ascii) (s : string) :
  foreign c = true -> occurs c s = true -> py_int s = Raise ValueError.
Proof.
  unfold foreign. intros Hf Hocc.
  repeat (apply andb_true_iff in Hf; destruct Hf as [Hf ?]).
  apply negb_true_iff in Hf.
  repeat match goal with H : negb _ = true |- _ => apply negb_true_iff in H end.
  assert (Hd : digit_of c = None) by (destruct (digit_of c); [discriminate | reflexivity]).
  assert (Ht : occurs c (strip is_space s) = true)
    by (unfold strip; now apply occurs_rstrip, occurs_lstrip).
  unfold py_int. destruct (strip is_space s) as [|a r]; [discriminate Ht|].
  assert (Hr : Ascii.eqb a "-" = true \/ Ascii.eqb a "+" = true -> occurs c r = true).
  { intros Ha. cbn [occurs] in Ht. apply orb_true_iff in Ht.
    destruct Ht as [Ht | Ht]; [|exact Ht].
    apply Ascii.eqb_eq in Ht. subst a. destruct Ha; congruence. }
  destruct (Ascii.eqb a "-") eqn:Em.
  - now rewrite (int_digits_foreign c r Hd) by (assumption || (apply Hr; now left)).
  - destruct (Ascii.eqb a "+") eqn:Ep.
    + now rewrite (int_digits_foreign c r Hd) by (assumption || (apply Hr; now right)).
    + now rewrite (int_digits_foreign c (String a r) Hd) by assumption.
Qed.

Lemma py_int_empty : py_int EmptyString = Raise ValueError.
Proof. reflexivity. Qed.

Lemma occurs_all_space (c : ascii) (pad : string) :
  is_space c = false -> all_space pad = true -> occurs c pad = false.
Proof.
  intros Hc. induction pad as [|a pad IH]; intros H; [reflexivity|].
  cbn [all_space] in H. apply andb_true_iff in H. destruct H as [Ha Hp].
  cbn [occurs]. rewrite (IH Hp), orb_false_r.
  apply Ascii.eqb_neq. intros ->. congruence.
Qed.

Lemma occurs_decimal (c : ascii) (digits : list Z) :
  Forall is_digit digits -> (nat_of_ascii c < 48 \/ 57 < nat_of_ascii c)%nat ->
  occurs c (decimal_text digits) = false.
Proof.
  intros Hall Hc. induction Hall as [|d digits Hd _ IH]; [reflexivity|].
  cbn [decimal_text occurs]. now rewrite IH, (digit_char_neq d c Hd Hc).
Qed.

Lemma append_empty (s : string) : (s ++ EmptyString)%string = s.
Proof. induction s as [|c s IH]; [reflexivity|]. cbn. now rewrite IH. Qed.

Lemma int_digits_group (g : list Z) :
  Forall is_digit g ->
  forall rest acc count after,
    int_digits (decimal_text g ++ rest) acc count after
    = int_digits rest (fold_left (fun a d => 10 * a + d) g acc)
        (count + Z.of_nat (List.length g))
        (match g with [] => after | _ :: _ => true end).
Proof.
  induction 1 as [|d g Hd Hg IH]; intros rest acc count after.
  - cbn. now rewrite Z.add_0_r.
  - cbn [decimal_text String.append int_digits fold_left List.length].
    rewrite (digit_of_digit_char d Hd), IH.
    replace (count + 1 + Z.of_nat (List.length g))
      with (count + Z.of_nat (S (List.length g))) by lia.
    now destruct g.
Qed.

Lemma int_digits_grouped (groups : list (list Z)) :
  Forall is_group groups -> groups <> [] ->
  forall acc count after,
    int_digits (grouped_text groups) acc count after
    = Some (fold_left (fun a d => 10 * a + d) (List.concat groups) acc,
            count + Z.of_nat (List.length (List.concat groups))).
Proof.
  induction 1 as [|g groups [Hne Hg] Hrest IH]; intros Hgroups acc count after;
    [congruence|].
  destruct groups as [|g2 groups].
  - cbn [grouped_text List.concat]. rewrite app_nil_r.
    rewrite <- (append_empty (decimal_text g)) at 1.
    rewrite (int_digits_group g Hg).
    destruct g; [congruence | reflexivity].
  - change (grouped_text (g :: g2 :: groups))
      with (decimal_text g ++ String "_" (grouped_text (g2 :: groups)))%string.
    rewrite (int_digits_group g Hg).
    destruct g as [|d g]; [congruence|].
    cbn [int_digits]. change (digit_of "_") with (@None Z).
    cbn [Ascii.eqb Bool.eqb andb].
    rewrite IH by discriminate.
    cbn [List.concat]. rewrite !fold_left_app, !length_app, !Nat2Z.inj_add.
    f_equal. f_equal. lia.
Qed.

Lemma rstrip_keep (s t : string) :
  rstrip is_space t = t -> t <> EmptyString -> rstrip is_space (s ++ t) = (s ++ t)%string.
Proof.
  intros Ht Hne. induction s as [|c s IH]; [exact Ht|].
  cbn [String.append rstrip]. rewrite IH.
  destruct (s ++ t)%string eqn:E; [|reflexivity].
  destruct s; [cbn in E; congruence | discriminate E].
Qed.

Lemma decimal_text_nonempty (g : list Z) : g <> [] -> decimal_text g <> EmptyString.
Proof. destruct g; [congruence | discriminate]. Qed.

Lemma grouped_text_nonempty (groups : list (list Z)) :
  Forall is_group groups -> groups <> [] -> grouped_text groups <> EmptyString.
Proof.
  intros Hall Hne. destruct groups as [|g groups]; [congruence|].
  inversion Hall as [|? ? [Hg _] _]; subst.
  destruct g as [|d g]; [congruence|].
  destruct groups; discriminate.
Qed.

Lemma rstrip_grouped (groups : list (list Z)) :
  Forall is_group groups -> rstrip is_space (grouped_text groups) = grouped_text groups.
Proof.
  induction 1 as [|g groups [Hne Hg] Hrest IH]; [reflexivity|].
  destruct groups as [|g2 groups]; [now apply rstrip_decimal|].
  change (grouped_text (g :: g2 :: groups))
    with (decimal_text g ++ String "_" (grouped_text (g2 :: groups)))%string.
  apply rstrip_keep; [|discriminate].
  change (String "_" (grouped_text (g2 :: groups)))
    with (String "_" EmptyString ++ grouped_text (g2 :: groups))%string.
  apply rstrip_keep; [exact IH|].
  apply grouped_text_nonempty; [exact Hrest | discriminate].
Qed.

Lemma grouped_text_head (groups : list (list Z)) :
  Forall is_group groups -> groups <> [] ->
  exists d tail, is_digit d /\ grouped_text groups = String (digit_char d) tail.
Proof.
  intros Hall Hne. destruct groups as [|g groups]; [congruence|].
  inversion Hall as [|? ? [Hg Hd] _]; subst.
  destruct g as [|d g]; [congruence|].
  inversion Hd as [|? ? Hd0 _]; subst.
  destruct groups; eexists d, _; (split; [exact Hd0 | reflexivity]).
Qed.

Lemma occurs_grouped (c : ascii) (groups : list (list Z)) :
  Forall is_group groups ->
  (nat_of_ascii c < 48 \/ 57 < nat_of_ascii c)%nat -> Ascii.eqb "_" c = false ->
  occurs c (grouped_text groups) = false.
Proof.
  intros Hall Hc Hu. induction Hall as [|g groups [_ Hg] Hrest IH]; [reflexivity|].
  destruct groups as [|g2 groups]; [now apply occurs_decimal|].
  change (grouped_text (g :: g2 :: groups))
    with (decimal_text g ++ String "_" (grouped_text (g2 :: groups)))%string.
  rewrite occurs_app, (occurs_decimal c g Hg Hc). cbn [occurs orb].
  now rewrite Hu, IH.
Qed.

(** A signed decimal numeral between white space, its digits in groups
    joined by single underscores, reads as its value. *)
Lemma py_int_numeral (pad_l pad_r : string) (sg : sign) (groups : list (list Z)) :
  all_space pad_l = true -> all_space pad_r = true ->
  groups <> [] -> Forall is_group groups ->
  (List.length (List.concat groups) <= 4300)%nat ->
  py_int (pad_l ++ (sign_text sg ++ grouped_text groups) ++ pad_r)
  = Ok (signed sg (decimal_value (List.concat groups))).
Proof.
  intros Hl Hr Hne Hall Hlen.
  destruct (grouped_text_head groups Hall Hne) as (d & tail & Hd & Hhead).
  assert (Hstrip : strip is_space (pad_l ++ (sign_text sg ++ grouped_text groups) ++ pad_r)
                   = (sign_text sg ++ grouped_text groups)%string).
  { unfold strip. rewrite lstrip_spaces by exact Hl.
    assert (Hfirst : forall t, lstrip is_space ((sign_text sg ++ grouped_text groups) ++ t)
                               = ((sign_text sg ++ grouped_text groups) ++ t)%string).
    { intros t. rewrite Hhead.
      destruct sg; cbn [sign_text String.append lstrip];
        [now rewrite (is_space_digit_char d Hd) | reflexivity | reflexivity]. }
    rewrite Hfirst, rstrip_spaces by exact Hr.
    apply rstrip_keep; [now apply rstrip_grouped | now apply grouped_text_nonempty]. }
  unfold py_int. rewrite Hstrip.
  assert (Hdigits : int_digits (grouped_text groups) 0 0 false
                    = Some (decimal_value (List.concat groups),
                            Z.of_nat (List.length (List.concat groups))))
    by now rewrite int_digits_grouped.
  assert (Hlimit : (4300 <? Z.of_nat (List.length (List.concat groups))) = false)
    by (apply Z.ltb_ge; lia).
  destruct sg; cbn [sign_text String.append signed].
  - rewrite Hhead.
    rewrite (digit_char_neq d "-" Hd) by (cbn; lia).
    rewrite (digit_char_neq d "+" Hd) by (cbn; lia).
    rewrite <- Hhead. now rewrite Hdigits, Hlimit.
  - cbn [Ascii.eqb Bool.eqb]. now rewrite Hdigits, Hlimit.
  - cbn [Ascii.eqb Bool.eqb]. now rewrite Hdigits, Hlimit.
Qed.

(** [int] raises nothing but [ValueError]. *)
Lemma py_int_raises (s : string) (e : exn) : py_int s = Raise e -> e = ValueError.
Proof.
  unfold py_int.
  destruct (match strip is_space s with
            | EmptyString => _ | String c r => _ end) as [neg body].
  destruct (int_digits body 0 0 false) as [[v count]|]; [|congruence].
  destruct (4300 <? count); congruence.
Qed.

Lemma no_equals_in_grouped (pad_l pad_r : string) (sg : sign) (groups : list (list Z)) :
  all_space pad_l = true -> all_space pad_r = true -> Forall is_group groups ->
  occurs "=" (pad_l ++ (sign_text sg ++ grouped_text groups) ++ pad_r) = false.
Proof.
  intros Hl Hr Hall. rewrite !occurs_app.
  rewrite (occurs_all_space "=" pad_l), (occurs_all_space "=" pad_r) by (assumption || reflexivity).
  rewrite (occurs_grouped "=" groups Hall) by ((cbn; lia) || reflexivity).
  now destruct sg.
Qed.

Section Negotiation.
Context {imports : Imports}.

Lemma read_spectrum_format_version_run (self after : RadiaCode) (text : string) :
  configuration (set_spectrum_format_version 0 self) = (Ok text, after) ->
  read_spectrum_format_version self = scan_configuration (split "010" text) after
  /\ _spectrum_format_version after = Some 0.
Proof.
  intros H. split.
  - unfold read_spectrum_format_version. unfold bind at 1. unfold modify at 1.
    unfold bind at 1. now rewrite H.
  - pose proof (configuration_keeps_version (set_spectrum_format_version 0 self)) as K.
    rewrite H in K. exact K.
Qed.

(** C9. The session that [__init__] returns is the one its last step leaves,
    and that step sets the spectrum format version from the configuration
    text it reads: to 0 when no line starts with [SpecFormatVersion];
    otherwise to [int] of what stands, in the first such line, between its
    first [=] and the next [=] or the end of the line. When that text is a
    decimal numeral, with or without a sign, white space around it and
    single underscores between its digits, the version is the number it
    denotes. When it is empty or holds a character
    that is no digit, underscore, sign or white space, the step raises
    [ValueError], and when the line has no [=] it raises [IndexError]. *)
Theorem spectrum_format_version_negotiated :
  (forall host bluetooth_mac serial_number ignore session,
      __init__ host bluetooth_mac serial_number ignore = Ok session ->
      exists before, read_spectrum_format_version before = (Ok tt, session))
  /\ (forall self text after,
        configuration (set_spectrum_format_version 0 self) = (Ok text, after) ->
        let lines := split "010" text in
        let outcome := read_spectrum_format_version self in
        (Forall (fun line => has_key line = false) lines ->
         fst outcome = Ok tt /\ _spectrum_format_version (snd outcome) = Some 0)
        /\ (forall before line others name field rest,
              lines = before ++ line :: others ->
              Forall (fun l => has_key l = false) before ->
              has_key line = true ->
              line = (name ++ String "=" (field ++ rest))%string ->
              occurs "=" name = false ->
              occurs "=" field = false ->
              rest = EmptyString \/ (exists rest', rest = String "=" rest') ->
              match py_int field with
              | Ok v => fst outcome = Ok tt
                        /\ _spectrum_format_version (snd outcome) = Some v
              | Raise e => fst outcome = Raise e
              end)
        /\ (forall before line others name pad_l sg groups pad_r rest,
              lines = before ++ line :: others ->
              Forall (fun l => has_key l = false) before ->
              has_key line = true ->
              line = (name ++ String "="
                        ((pad_l ++ (sign_text sg ++ grouped_text groups) ++ pad_r) ++ rest))%string ->
              occurs "=" name = false ->
              all_space pad_l = true -> all_space pad_r = true ->
              groups <> [] -> Forall is_group groups ->
              (List.length (List.concat groups) <= 4300)%nat ->
              rest = EmptyString \/ (exists rest', rest = String "=" rest') ->
              fst outcome = Ok tt
              /\ _spectrum_format_version (snd outcome)
                 = Some (signed sg (decimal_value (List.concat groups))))
        /\ (forall before line others name field rest,
              lines = before ++ line :: others ->
              Forall (fun l => has_key l = false) before ->
              has_key line = true ->
              line = (name ++ String "=" (field ++ rest))%string ->
              occurs "=" name = false ->
              occurs "=" field = false ->
              rest = EmptyString \/ (exists rest', rest = String "=" rest') ->
              field = EmptyString \/ (exists c, foreign c = true /\ occurs c field = true) ->
              fst outcome = Raise ValueError)
        /\ (forall before line others,
              lines = before ++ line :: others ->
              Forall (fun l => has_key l = false) before ->
              has_key line = true ->
              occurs "=" line = false ->
              fst outcome = Raise IndexError)).
Proof.
  split; [exact init_ends_with_format|].
  intros self text after Hcfg lines outcome.
  destruct (read_spectrum_format_version_run self after text Hcfg) as [Hrun Hzero].
  unfold outcome. rewrite Hrun. fold lines.
  assert (Hgen : forall before line others name field rest,
            lines = before ++ line :: others ->
            Forall (fun l => has_key l = false) before ->
            has_key line = true ->
            line = (name ++ String "=" (field ++ rest))%string ->
            occurs "=" name = false ->
            occurs "=" field = false ->
            rest = EmptyString \/ (exists rest', rest = String "=" rest') ->
            match py_int field with
            | Ok v => fst (scan_configuration lines after) = Ok tt
                      /\ _spectrum_format_version (snd (scan_configuration lines after))
                         = Some v
            | Raise e => fst (scan_configuration lines after) = Raise e
            end).
  { intros before line others name field rest Hlines Hbefore Hkey Hline Hname Hfield Hrest.
    rewrite Hlines, scan_configuration_first_key by assumption.
    rewrite Hline, second_field by assumption.
    unfold bind, lift, modify. cbn [rbind].
    destruct (py_int field) as [v|e]; cbn [fst snd].
    + split; reflexivity.
    + reflexivity. }
  split; [|split; [|split; [|split]]].
  - intros Hnone. rewrite scan_configuration_no_key by exact Hnone.
    split; [reflexivity | exact Hzero].
  - exact Hgen.
  - intros before line others name pad_l sg groups pad_r rest
      Hlines Hbefore Hkey Hline Hname Hl Hr Hne Hall Hlen Hrest.
    pose proof (Hgen before line others name
                  (pad_l ++ (sign_text sg ++ grouped_text groups) ++ pad_r)%string rest
                  Hlines Hbefore Hkey Hline Hname
                  (no_equals_in_grouped pad_l pad_r sg groups Hl Hr Hall) Hrest) as H.
    now rewrite py_int_numeral in H by assumption.
  - intros before line others name field rest
      Hlines Hbefore Hkey Hline Hname Hfield Hrest Hbad.
    pose proof (Hgen before line others name field rest
                  Hlines Hbefore Hkey Hline Hname Hfield Hrest) as H.
    destruct Hbad as [-> | (c & Hc & Hocc)].
    + now rewrite py_int_empty in H.
    + now rewrite (py_int_foreign c field Hc Hocc) in H.
  - intros before line others Hlines Hbefore Hkey Hno.
    rewrite Hlines, scan_configuration_first_key by assumption.
    rewrite no_second_field by exact Hno. reflexivity.
Qed.

End Negotiation.

(** ** [spectrum_channel_to_energy] *)

Lemma feqb_refl (x : float) : is_nan x = false -> feqb x x = true.
Proof.
  destruct x as [s|s| |s m e]; intros H; try discriminate H.
  - reflexivity.
  - now destruct s.
  - unfold feqb, SFeqb, SFcompare.
    destruct s; rewrite Z.compare_refl, Pos.compare_cont_refl; reflexivity.
Qed.

Lemma float_of_int_0 : float_of_int 0 = Ok (S754_zero false).
Proof. reflexivity. Qed.

Lemma fmul_finite_zero (x : float) (s : bool) :
  is_finite x = true -> is_zero (fmul x (S754_zero s)) = true.
Proof.
  destruct x as [sx|sx| |sx m e]; intros H; try discriminate H; reflexivity.
Qed.

Lemma fadd_zero (x z : float) :
  is_zero z = true -> is_nan x = false ->
  feqb (fadd x z) x = true /\ (is_zero x = false -> fadd x z = x)
  /\ is_nan (fadd x z) = false.
Proof.
  destruct z as [sz|sz| |sz mz ez]; intros Hz Hx; try discriminate Hz.
  destruct x as [sx|sx| |sx mx ex]; try discriminate Hx.
  - destruct sx, sz; (split; [reflexivity|]); (split; [|reflexivity]);
      intros H; discriminate H.
  - split; [now destruct sx|]. split; [|reflexivity]. reflexivity.
  - change (fadd (S754_finite sx mx ex) (S754_zero sz)) with (S754_finite sx mx ex).
    split; [now apply feqb_refl|]. split; reflexivity.
Qed.

Lemma feqb_trans_zero (x y z : float) :
  feqb x y = true -> (is_zero y = false -> x = y) ->
  feqb y z = true -> (is_zero z = false -> y = z) ->
  feqb x z = true /\ (is_zero z = false -> x = z).
Proof.
  intros Hxy Exy Hyz Eyz.
  destruct (is_zero z) eqn:Hz.
  - split; [|intros H; discriminate H].
    destruct z as [sz|sz| |sz mz ez]; try discriminate Hz.
    destruct y as [sy|sy| |sy my ey]; try discriminate Hyz;
      try (destruct sy; discriminate Hyz).
    destruct x as [sx|sx| |sx mx ex]; try discriminate Hxy;
      try (destruct sx; discriminate Hxy).
    reflexivity.
  - rewrite <- (Eyz eq_refl) in *. split; [exact Hxy|].
    intros _. apply Exy. exact Hz.
Qed.

(** The claim of the specification, [spectrum_channel_to_energy(0, a0, a1, a2)
    == a0] for all triples, fails on an infinite slope: [inf * 0] is NaN. *)
Lemma energy_at_channel_zero_not_for_all :
  spectrum_channel_to_energy 0 (S754_finite false 4503599627370496 (-52))
    (S754_infinity false) (S754_zero false) = Ok S754_nan
  /\ feqb S754_nan (S754_finite false 4503599627370496 (-52)) = false
  /\ ~ (forall a0 a1 a2 : float,
          exists e, spectrum_channel_to_energy 0 a0 a1 a2 = Ok e /\ feqb e a0 = true).
Proof.
  split; [reflexivity|]. split; [reflexivity|].
  intros H.
  destruct (H (S754_finite false 4503599627370496 (-52)) (S754_infinity false)
              (S754_zero false)) as (e & He & Heq).
  cbv in He. injection He as <-. discriminate Heq.
Qed.

(** C7, amended. For a triple with [a0] not NaN and [a1], [a2] finite, the
    energy of channel 0 compares equal to [a0], and is [a0] itself unless
    [a0] is a zero (whose sign may change). For a channel number that
    converts to the float [c], the function is the float evaluation
    [(a0 + a1 * c) + (a2 * c) * c], each operation rounded once; it reads
    and writes nothing else. *)
Theorem energy_at_channel_zero :
  (forall a0 a1 a2 : float,
      is_nan a0 = false -> is_finite a1 = true -> is_finite a2 = true ->
      exists e, spectrum_channel_to_energy 0 a0 a1 a2 = Ok e
                /\ feqb e a0 = true
                /\ (is_zero a0 = false -> e = a0))
  /\ (forall (channel_number : Z) (c a0 a1 a2 : float),
        float_of_int channel_number = Ok c ->
        spectrum_channel_to_energy channel_number a0 a1 a2
        = Ok (fadd (fadd a0 (fmul a1 c)) (fmul (fmul a2 c) c))).
Proof.
  split.
  - intros a0 a1 a2 H0 H1 H2.
    unfold spectrum_channel_to_energy, fmul_int. rewrite float_of_int_0. cbn [rbind].
    eexists. split; [reflexivity|].
    pose proof (fmul_finite_zero a1 false H1) as Z1.
    pose proof (fmul_finite_zero a2 false H2) as Z2.
    assert (Z3 : is_zero (fmul (fmul a2 (S754_zero false)) (S754_zero false)) = true).
    { destruct (fmul a2 (S754_zero false)); try discriminate Z2. reflexivity. }
    destruct (fadd_zero a0 _ Z1 H0) as (E1 & I1 & N1).
    destruct (fadd_zero _ _ Z3 N1) as (E2 & I2 & _).
    exact (feqb_trans_zero _ _ _ E2 I2 E1 I1).
  - intros channel_number c a0 a1 a2 Hc.
    unfold spectrum_channel_to_energy, fmul_int. rewrite Hc. reflexivity.
Qed.

(** * The theorems at work on sample sessions *)

Lemma ready_seq_ok (d : list bytes -> result bytes) (n : Z) :
  0 <= n < 32 -> seq_ok (ready d n).
Proof. intros H. exact H. Qed.

(** The initialization command sent at counter 5. *)
Lemma execute_wire_format_witness :
  frames_of (ready (scripted_device [[]]) 5)
    (snd (execute [x07; x00] (Some [x01; xff; x12; xff]) (ready (scripted_device [[]]) 5)))
    [[x08; x00; x00; x00; x07; x00; x00; x85; x01; xff; x12; xff]].
Proof.
  assert (Hseq : seq_ok (ready (scripted_device [[]]) 5)) by (apply ready_seq_ok; lia).
  pose proof (execute_wire_format [x07; x00] (Some [x01; xff; x12; xff])
                (ready (scripted_device [[]]) 5) eq_refl Hseq) as H.
  cbv zeta in H. destruct H as [H _].
  apply H. cbn. lia.
Defined.

(** An echoed header is accepted, a header with another sequence byte is not. *)
Lemma execute_checks_echo_witness :
  (exists r, fst (execute [x05; x00] None (ready (scripted_device [[x2a]]) 7)) = Ok r
             /\ data r = [x2a] /\ size r = 1)
  /\ fst (execute [x05; x00] None (ready (constant_device [x05; x00; x00; x86; x2a]) 7))
     = Raise ProtocolMismatchError.
Proof.
  split.
  - assert (Hseq : seq_ok (ready (scripted_device [[x2a]]) 7)) by (apply ready_seq_ok; lia).
    pose proof (execute_checks_echo [x05; x00] None (ready (scripted_device [[x2a]]) 7)
                  [x05; x00; x00; x87] [x2a] eq_refl Hseq) as H.
    cbv zeta in H.
    destruct H as [_ H]; [cbn; lia | reflexivity | reflexivity |].
    apply H. reflexivity.
  - assert (Hseq : seq_ok (ready (constant_device [x05; x00; x00; x86; x2a]) 7))
      by (apply ready_seq_ok; lia).
    pose proof (execute_checks_echo [x05; x00] None
                  (ready (constant_device [x05; x00; x00; x86; x2a]) 7)
                  [x05; x00; x00; x86] [x2a] eq_refl Hseq) as H.
    cbv zeta in H.
    destruct H as [H _]; [cbn; lia | reflexivity | reflexivity |].
    apply H. discriminate.
Defined.

(** Register 8 declared with 3 bytes and answered with 4: a trailing zero
    is dropped, a trailing 1 is a length error. *)
Lemma read_request_length_tolerance_witness :
  (exists r,
      fst (read_request 8
             (ready (scripted_device [le_bytes 4 1 ++ le_bytes 4 3 ++ [x41; x42; x43; x00]]) 0))
      = Ok r /\ data r = [x41; x42; x43] /\ size r = 3)
  /\ fst (read_request 8
            (ready (scripted_device [le_bytes 4 1 ++ le_bytes 4 3 ++ [x41; x42; x43; x01]]) 0))
     = Raise LengthMismatchError.
Proof.
  split.
  - pose proof (read_request_length_tolerance 8 3 [x41; x42; x43; x00]
                  (ready (scripted_device
                            [le_bytes 4 1 ++ le_bytes 4 3 ++ [x41; x42; x43; x00]]) 0)) as H.
    cbv zeta in H.
    destruct H as [H _]; [lia | apply ready_seq_ok; lia | lia | reflexivity |].
    apply H; reflexivity.
  - pose proof (read_request_length_tolerance 8 3 [x41; x42; x43; x01]
                  (ready (scripted_device
                            [le_bytes 4 1 ++ le_bytes 4 3 ++ [x41; x42; x43; x01]]) 0)) as H.
    cbv zeta in H.
    destruct H as (_ & H & _); [lia | apply ready_seq_ok; lia | lia | reflexivity |].
    apply H; [reflexivity | discriminate].
Defined.

(** The counter wraps from 31 to 0, and the status call keeps it in range. *)
Lemma sequence_counter_invariant_witness :
  _seq (snd (execute [x05; x00] None (ready (scripted_device [[]]) 31))) = 0
  /\ seq_ok (snd (call (imports := sample_imports) Call_status
                    (ready (scripted_device [[]]) 31))).
Proof.
  destruct (sequence_counter_invariant (imports := sample_imports)) as (_ & Hexec & Hcall).
  split.
  - destruct (Hexec [x05; x00] None (ready (scripted_device [[]]) 31) eq_refl) as [H _].
    + apply ready_seq_ok. lia.
    + exact H.
  - destruct (Hcall Call_status (ready (scripted_device [[]]) 31)) as [H _].
    + apply ready_seq_ok. lia.
    + exact H.
Defined.

(** Five registers read in one request come back in their order. *)
Lemma batch_read_vsfrs_in_order_witness :
  fst (batch_read_vsfrs [1284; 1314; 1312; 1299; 1297]
         (ready (scripted_device [words [10; 20; 30; 40; 50]]) 2))
  = Ok [10; 20; 30; 40; 50].
Proof.
  pose proof (batch_read_vsfrs_in_order [1284; 1314; 1312; 1299; 1297]
                (words [10; 20; 30; 40; 50])
                (ready (scripted_device [words [10; 20; 30; 40; 50]]) 2)) as H.
  cbv zeta in H.
  destruct H as (_ & H & _).
  - discriminate.
  - repeat constructor; unfold u32; lia.
  - apply ready_seq_ok. lia.
  - cbn. lia.
  - reflexivity.
  - apply H. split; [reflexivity|]. split; [|reflexivity].
    repeat constructor; unfold u32; lia.
Defined.

(** Channel 0 of the calibration (1.0, 2.0, 0.0) has energy 1.0. *)
Lemma energy_at_channel_zero_witness :
  exists e,
    spectrum_channel_to_energy 0 (S754_finite false 4503599627370496 (-52))
      (S754_finite false 4503599627370496 (-51)) (S754_zero false) = Ok e
    /\ feqb e (S754_finite false 4503599627370496 (-52)) = true
    /\ (is_zero (S754_finite false 4503599627370496 (-52)) = false ->
        e = S754_finite false 4503599627370496 (-52)).
Proof.
  apply (proj1 energy_at_channel_zero); reflexivity.
Defined.

(** Switching vibration on writes 1 to SOUND_ON (code 1314 in the sample
    table), as switching sound on does. *)
Lemma set_vibro_on_writes_sound_on_witness :
  set_vibro_on (imports := sample_imports) true (ready (scripted_device [le_bytes 4 1]) 3)
  = set_sound_on (imports := sample_imports) true (ready (scripted_device [le_bytes 4 1]) 3)
  /\ frames_of (ready (scripted_device [le_bytes 4 1]) 3)
       (snd (set_vibro_on (imports := sample_imports) true
               (ready (scripted_device [le_bytes 4 1]) 3)))
       [[x0c; x00; x00; x00; x25; x08; x00; x83; x22; x05; x00; x00; x01; x00; x00; x00]].
Proof.
  destruct (set_vibro_on_writes_sound_on (imports := sample_imports) true
              (ready (scripted_device [le_bytes 4 1]) 3)) as (Hsame & _ & frame & Hf & -> & _).
  - apply ready_seq_ok. lia.
  - cbn. lia.
  - split; [exact Hsame | exact Hf].
Defined.

(** The sample configuration negotiates version 1; a version written
    between the separators 0x1c and 0x1f is no integer. *)
Lemma spectrum_format_version_negotiated_witness :
  (fst (read_spectrum_format_version (imports := sample_imports)
          (ready (scripted_device [sample_configuration_payload]) 4)) = Ok tt
   /\ _spectrum_format_version
        (snd (read_spectrum_format_version (imports := sample_imports)
                (ready (scripted_device [sample_configuration_payload]) 4))) = Some 1)
  /\ fst (read_spectrum_format_version (imports := sample_imports)
            (ready (scripted_device [separator_configuration_payload]) 4))
     = Raise ValueError.
Proof.
  destruct (spectrum_format_version_negotiated (imports := sample_imports)) as [_ H].
  split.
  - specialize (H (ready (scripted_device [sample_configuration_payload]) 4)
                  sample_configuration
                  (snd (configuration (imports := sample_imports)
                          (set_spectrum_format_version 0
                             (ready (scripted_device [sample_configuration_payload]) 4))))).
    cbv zeta in H. destruct H as (_ & _ & H & _).
    + vm_compute. reflexivity.
    + apply (H ["Model=RC-102"%string] "SpecFormatVersion=1"%string ["Units=1"%string]
               "SpecFormatVersion"%string EmptyString NoSign [[1]] EmptyString EmptyString);
        try reflexivity.
      * repeat constructor.
      * discriminate.
      * constructor; [|constructor].
        split; [discriminate|]. constructor; [unfold is_digit; lia | constructor].
      * cbn. lia.
      * left. reflexivity.
  - specialize (H (ready (scripted_device [separator_configuration_payload]) 4)
                  separator_configuration
                  (snd (configuration (imports := sample_imports)
                          (set_spectrum_format_version 0
                             (ready (scripted_device [separator_configuration_payload]) 4))))).
    cbv zeta in H. destruct H as (_ & _ & _ & H & _).
    + vm_compute. reflexivity.
    + apply (H [] separator_configuration []
               "SpecFormatVersion"%string
               (String "028" (String "7" (String "031" EmptyString))) EmptyString);
        try reflexivity.
      * constructor.
      * left. reflexivity.
      * right. exists "028"%char. split; reflexivity.
Defined.

(** * Further properties of the framer and the facade *)

(** ** Inversion of successful steps *)

Lemma lift_ok {A} (r : result A) (self self' : RadiaCode) (a : A) :
  lift r self = (Ok a, self') -> r = Ok a /\ self' = self.
Proof. unfold lift. intros H. injection H as -> ->. split; reflexivity. Qed.

Lemma assert_ok (c : bool) (site : assertion) (self self' : RadiaCode) (u : unit) :
  assert c site self = (Ok u, self') -> c = true /\ self' = self.
Proof.
  unfold assert, lift. destruct c; intros H; [|discriminate H].
  injection H as _ ->. split; reflexivity.
Qed.

(** A successful [execute] sent its frame and advanced the counter. *)
Lemma execute_ok (reqtype : bytes) (args : option bytes) (self self' : RadiaCode)
    (r : BytesBuffer) :
  List.length reqtype = 2%nat -> seq_ok self ->
  execute reqtype args self = (Ok r, self') ->
  self' = hand_over (frame_of reqtype (_seq self) (or_empty args)) (advance self).
Proof.
  intros Hlen Hseq H.
  destruct (Z_lt_le_dec
              (Z.of_nat (List.length (header_of reqtype (_seq self) ++ or_empty args)))
              (2 ^ 32)) as [Hfit | Hbig].
  - rewrite execute_run in H by assumption. now injection H as _ <-.
  - rewrite execute_too_long in H by assumption. discriminate H.
Qed.

Lemma seq_ok_step (request : bytes) (self : RadiaCode) :
  seq_ok (hand_over request (advance self)).
Proof.
  unfold seq_ok, hand_over, advance. cbn [_seq set_connection set_seq].
  apply Z.mod_pos_bound. lia.
Qed.

(** ** [execute]: no retry and no rollback *)

(** X1. [execute] neither retries nor rolls back. With a 2-byte opcode and
    a request that fits its length prefix, the frame is handed over once and
    the counter has advanced, whatever comes back: an exception of the
    transport is passed on, and an answer of fewer than 4 bytes raises the
    buffer's underflow error. *)
Theorem execute_failure_modes (reqtype : bytes) (args : option bytes) (self : RadiaCode) :
  List.length reqtype = 2%nat ->
  seq_ok self ->
  Z.of_nat (List.length reqtype + 2 + List.length (or_empty args)) < 2 ^ 32 ->
  let frame := frame_of reqtype (_seq self) (or_empty args) in
  let outcome := execute reqtype args self in
  snd outcome = hand_over frame (advance self)
  /\ (forall e, answer self frame = Raise e -> fst outcome = Raise e)
  /\ (forall response,
        answer self frame = Ok response -> (List.length response < 4)%nat ->
        fst outcome = Raise UnderflowError).
Proof.
  intros Hlen Hseq Hfit frame outcome.
  assert (Hfit' : Z.of_nat (List.length (header_of reqtype (_seq self) ++ or_empty args)) < 2 ^ 32).
  { unfold header_of. rewrite !length_app. cbn [List.length]. lia. }
  unfold outcome. rewrite execute_run by assumption. cbn [fst snd]. fold frame.
  split; [reflexivity|]. split.
  - intros e He. now rewrite He.
  - intros response Hr Hshort. rewrite Hr. cbn [rbind]. unfold unpack_s.
    rewrite unpack_bytes_short; [reflexivity|].
    unfold size, BytesBuffer_new. cbn [_data _pos]. lia.
Qed.

(** ** [write_request] *)

(** What [write_request] makes of an answer that echoes the header. *)
Lemma write_request_run (command_id : Z) (value payload : bytes) (self : RadiaCode) :
  u32 command_id ->
  seq_ok self ->
  Z.of_nat (8 + List.length value) < 2 ^ 32 ->
  let frame := frame_of [x25; x08] (_seq self) (le_bytes 4 command_id ++ value) in
  answer self frame = Ok (header_of [x25; x08] (_seq self) ++ payload) ->
  write_request command_id (Some value) self =
  (('(retcode, r) <- unpack_I {| _data := header_of [x25; x08] (_seq self) ++ payload;
                                 _pos := 4 |} ;;
    if retcode =? 1
    then if size r =? 0 then Ok tt else Raise (AssertionError A_exhausted)
    else Raise DeviceRejectedError)%result,
   hand_over frame (advance self)).
Proof.
  intros Hid Hseq Hfit frame Hans.
  unfold write_request, bind, assert, lift.
  rewrite pack_I_ok by exact Hid.
  rewrite execute_run;
    [| reflexivity | exact Hseq
     | unfold header_of, or_empty; rewrite !length_app, length_le_bytes; cbn [List.length]; lia ].
  cbn [or_empty]. fold frame. rewrite Hans. cbn [rbind]. unfold unpack_s.
  rewrite unpack_bytes_new by reflexivity. cbn [rbind].
  rewrite bytes_eqb_refl.
  destruct (unpack_I _) as [[retcode r]|e]; cbn [rbind]; [|reflexivity].
  destruct (retcode =? 1); [|reflexivity].
  destruct (size r =? 0); reflexivity.
Qed.

(** X2. A register write whose answer echoes the header succeeds exactly
    when the rest of the answer is the return code 1 on 4 bytes and nothing
    more. Fewer than 4 bytes raise the underflow error, another return code
    the retcode assertion, and bytes after a return code 1 the exhaustion
    assertion. The frame was sent in every case. *)
Theorem write_request_outcomes (command_id : Z) (value payload : bytes) (self : RadiaCode) :
  u32 command_id ->
  seq_ok self ->
  Z.of_nat (8 + List.length value) < 2 ^ 32 ->
  let frame := frame_of [x25; x08] (_seq self) (le_bytes 4 command_id ++ value) in
  answer self frame = Ok (header_of [x25; x08] (_seq self) ++ payload) ->
  let outcome := write_request command_id (Some value) self in
  frames_of self (snd outcome) [frame]
  /\ (fst outcome = Ok tt <-> payload = le_bytes 4 1)
  /\ ((List.length payload < 4)%nat -> fst outcome = Raise UnderflowError)
  /\ ((4 <= List.length payload)%nat -> le_value (firstn 4 payload) <> 1 ->
      fst outcome = Raise DeviceRejectedError)
  /\ ((4 < List.length payload)%nat -> le_value (firstn 4 payload) = 1 ->
      fst outcome = Raise (AssertionError A_exhausted)).
Proof.
  intros Hid Hseq Hfit frame Hans outcome.
  set (hdr := header_of [x25; x08] (_seq self)) in *.
  assert (Hhdr : List.length hdr = 4%nat) by reflexivity.
  unfold outcome. rewrite (write_request_run command_id value payload self Hid Hseq Hfit Hans).
  cbn [fst snd]. fold hdr. split; [reflexivity|].
  assert (Hshort : (List.length payload < 4)%nat ->
                   unpack_I {| _data := hdr ++ payload; _pos := 4 |} = Raise UnderflowError).
  { intros H. unfold unpack_I. rewrite unpack_bytes_short; [reflexivity|].
    rewrite (size_at 4 hdr payload Hhdr). lia. }
  assert (Hlong : (4 <= List.length payload)%nat ->
                  unpack_I {| _data := hdr ++ payload; _pos := 4 |}
                  = Ok (le_value (firstn 4 payload),
                        {| _data := hdr ++ payload; _pos := 8 |})).
  { intros H. unfold unpack_I. rewrite unpack_bytes_enough.
    - now rewrite (data_at 4 hdr payload Hhdr).
    - rewrite (size_at 4 hdr payload Hhdr). lia. }
  assert (Hsize : size {| _data := hdr ++ payload; _pos := 8 |}
                  = Z.of_nat (List.length payload) - 4).
  { unfold size. cbn [_data _pos]. rewrite length_app, Hhdr. lia. }
  split; [|split; [|split]].
  - split.
    + intros H. destruct (Nat.lt_ge_cases (List.length payload) 4) as [Hs | Hl].
      * rewrite (Hshort Hs) in H. discriminate H.
      * rewrite (Hlong Hl) in H. cbn [rbind] in H.
        destruct (le_value (firstn 4 payload) =? 1) eqn:Ercode; [|discriminate H].
        rewrite Hsize in H.
        destruct (Z.of_nat (List.length payload) - 4 =? 0) eqn:Esz; [|discriminate H].
        apply Z.eqb_eq in Ercode, Esz.
        assert (E4 : List.length payload = 4%nat) by lia.
        rewrite <- (firstn_all payload), E4.
        pose proof (le_bytes_le_value (firstn 4 payload)) as E.
        rewrite length_firstn, E4, Ercode in E. cbn [Nat.min] in E. symmetry. exact E.
    + intros ->. rewrite Hlong by (rewrite length_le_bytes; lia). cbn [rbind].
      rewrite Hsize, length_le_bytes. reflexivity.
  - intros Hs. now rewrite (Hshort Hs).
  - intros Hl Hcode. rewrite (Hlong Hl). cbn [rbind].
    now replace (le_value (firstn 4 payload) =? 1) with false
      by (symmetry; apply Z.eqb_neq; exact Hcode).
  - intros Hl Hcode. rewrite Hlong by lia. cbn [rbind].
    rewrite Hcode, Hsize. cbn [Z.eqb Pos.eqb].
    now replace (Z.of_nat (List.length payload) - 4 =? 0) with false
      by (symmetry; apply Z.eqb_neq; lia).
Qed.

(** ** [read_request]: rejections *)

Lemma read_request_run_any (command_id : Z) (payload : bytes) (self : RadiaCode) :
  u32 command_id ->
  seq_ok self ->
  let frame := frame_of [x26; x08] (_seq self) (le_bytes 4 command_id) in
  answer self frame = Ok (header_of [x26; x08] (_seq self) ++ payload) ->
  read_request command_id self =
  (('((retcode, flen), r) <- unpack_II {| _data := header_of [x26; x08] (_seq self) ++ payload;
                                          _pos := 4 |} ;;
    if retcode =? 1
    then
      let r :=
        if (size r =? flen + 1) && (int_of_byte (last (_data r) x00) =? 0)
        then {| _data := removelast (_data r); _pos := _pos r |}
        else r in
      if size r =? flen then Ok r else Raise LengthMismatchError
    else Raise DeviceRejectedError)%result,
   hand_over frame (advance self)).
Proof.
  intros Hid Hseq frame Hans.
  unfold read_request, bind, assert, lift, ret.
  rewrite pack_I_ok by exact Hid.
  rewrite execute_run;
    [| reflexivity | exact Hseq
     | unfold header_of, or_empty; rewrite !length_app, length_le_bytes; cbn [List.length]; lia ].
  cbn [or_empty]. fold frame. rewrite Hans. cbn [rbind]. unfold unpack_s.
  rewrite unpack_bytes_new by reflexivity. cbn [rbind].
  rewrite bytes_eqb_refl.
  destruct (unpack_II _) as [[[retcode flen] r]|e]; cbn [rbind]; [|reflexivity].
  destruct (retcode =? 1); [|reflexivity].
  cbv zeta.
  destruct (size _ =? flen); reflexivity.
Qed.

(** X3. A register read whose answer echoes the header but holds fewer
    than the 8 bytes of return code and length raises the underflow error;
    a return code other than 1 raises the retcode assertion, whatever
    length and payload follow. The frame was sent in both cases. *)
Theorem read_request_rejections (command_id : Z) (payload : bytes) (self : RadiaCode) :
  u32 command_id ->
  seq_ok self ->
  let frame := frame_of [x26; x08] (_seq self) (le_bytes 4 command_id) in
  answer self frame = Ok (header_of [x26; x08] (_seq self) ++ payload) ->
  let outcome := read_request command_id self in
  frames_of self (snd outcome) [frame]
  /\ ((List.length payload < 8)%nat -> fst outcome = Raise UnderflowError)
  /\ ((8 <= List.length payload)%nat -> le_value (firstn 4 payload) <> 1 ->
      fst outcome = Raise DeviceRejectedError).
Proof.
  intros Hid Hseq frame Hans outcome.
  set (hdr := header_of [x26; x08] (_seq self)) in *.
  assert (Hhdr : List.length hdr = 4%nat) by reflexivity.
  unfold outcome. rewrite (read_request_run_any command_id payload self Hid Hseq Hans).
  cbn [fst snd]. fold hdr. split; [reflexivity|]. split.
  - intros Hs. unfold unpack_II. rewrite unpack_bytes_short; [reflexivity|].
    rewrite (size_at 4 hdr payload Hhdr). lia.
  - intros Hl Hcode. unfold unpack_II. rewrite unpack_bytes_enough.
    + rewrite (data_at 4 hdr payload Hhdr). cbn [rbind].
      rewrite firstn_firstn. cbn [Nat.min].
      now replace (le_value (firstn 4 payload) =? 1) with false
        by (symmetry; apply Z.eqb_neq; exact Hcode).
    + rewrite (size_at 4 hdr payload Hhdr). lia.
Qed.

(** ** The setters *)

(** A register write of a 4-byte value hands over its one frame. *)
Lemma register_write_frame (id v : Z) (self : RadiaCode) :
  u32 id -> u32 v -> seq_ok self ->
  frames_of self (snd (write_request id (Some (le_bytes 4 v)) self))
    [write_frame id v (_seq self)].
Proof.
  intros Hid Hv Hseq.
  rewrite write_request_frame;
    [reflexivity | exact Hid | exact Hseq | rewrite length_le_bytes; cbn; lia].
Qed.

Lemma testbit_fold_lor (ctrls : list Z) :
  forall (acc i : Z),
    Z.testbit (fold_left Z.lor ctrls acc) i
    = Z.testbit acc i || existsb (fun c => Z.testbit c i) ctrls.
Proof.
  induction ctrls as [|c ctrls IH]; intros acc i; cbn [fold_left existsb].
  - now rewrite orb_false_r.
  - now rewrite IH, Z.lor_spec, orb_assoc.
Qed.

Section Setters.
Context {imports : Imports}.

(** X4. [set_display_off_time] accepts 5, 10, 15 and 30 seconds and writes
    the codes 0, 1, 2 and 3 for them to the display-off-time register, in
    one frame; for any other value it raises its assertion and leaves the
    session as it was, with nothing sent. *)
Theorem set_display_off_time_codes (seconds : Z) (self : RadiaCode) :
  seq_ok self ->
  u32 VSFR_DISP_OFF_TIME ->
  (In seconds [5; 10; 15; 30] ->
   exists code,
     In (seconds, code) [(5, 0); (10, 1); (15, 2); (30, 3)]
     /\ set_display_off_time seconds self
        = write_request VSFR_DISP_OFF_TIME (Some (le_bytes 4 code)) self
     /\ frames_of self (snd (set_display_off_time seconds self))
          [write_frame VSFR_DISP_OFF_TIME code (_seq self)])
  /\ (~ In seconds [5; 10; 15; 30] ->
      set_display_off_time seconds self = (Raise (AssertionError A_seconds), self)).
Proof.
  intros Hseq Hreg. split.
  - intros Hin.
    assert (Hcases : seconds = 5 \/ seconds = 10 \/ seconds = 15 \/ seconds = 30)
      by (cbn in Hin; intuition lia).
    assert (Hrun : forall code, u32 code ->
              set_display_off_time seconds self
              = write_request VSFR_DISP_OFF_TIME (Some (le_bytes 4 code)) self ->
              set_display_off_time seconds self
              = write_request VSFR_DISP_OFF_TIME (Some (le_bytes 4 code)) self
              /\ frames_of self (snd (set_display_off_time seconds self))
                   [write_frame VSFR_DISP_OFF_TIME code (_seq self)]).
    { intros code Hcode E. split; [exact E|]. rewrite E.
      now apply register_write_frame. }
    destruct Hcases as [-> | [-> | [-> | ->]]];
      [exists 0 | exists 1 | exists 2 | exists 3];
      (split; [cbn; tauto | apply Hrun; [unfold u32; lia | reflexivity]]).
  - intros Hnot. unfold set_display_off_time, bind, assert, lift.
    replace (existsb (Z.eqb seconds) [5; 10; 15; 30]) with false; [reflexivity|].
    symmetry. apply not_true_is_false. intros H.
    apply existsb_exists in H. destruct H as (x & Hx & E).
    apply Z.eqb_eq in E. subst x. exact (Hnot Hx).
Qed.

(** X5. [set_display_brightness] writes a brightness from 0 to 9 as it is
    to the brightness register, in one frame; outside 0..9 it raises its
    assertion and leaves the session as it was, with nothing sent. *)
Theorem set_display_brightness_bounds (brightness : Z) (self : RadiaCode) :
  seq_ok self ->
  u32 VSFR_DISP_BRT ->
  (0 <= brightness <= 9 ->
   set_display_brightness brightness self
   = write_request VSFR_DISP_BRT (Some (le_bytes 4 brightness)) self
   /\ frames_of self (snd (set_display_brightness brightness self))
        [write_frame VSFR_DISP_BRT brightness (_seq self)])
  /\ (~ 0 <= brightness <= 9 ->
      set_display_brightness brightness self = (Raise (AssertionError A_brightness), self)).
Proof.
  intros Hseq Hreg. split.
  - intros Hb.
    assert (E : set_display_brightness brightness self
                = write_request VSFR_DISP_BRT (Some (le_bytes 4 brightness)) self).
    { unfold set_display_brightness, bind, assert, lift.
      replace (0 <=? brightness) with true by (symmetry; apply Z.leb_le; lia).
      replace (brightness <=? 9) with true by (symmetry; apply Z.leb_le; lia).
      cbn [andb]. now rewrite pack_I_ok by lia. }
    split; [exact E|]. rewrite E. apply register_write_frame; try assumption.
    unfold u32. lia.
  - intros Hb. unfold set_display_brightness, bind, assert, lift.
    replace ((0 <=? brightness) && (brightness <=? 9)) with false; [reflexivity|].
    symmetry. apply andb_false_iff.
    destruct (Z_le_gt_dec 0 brightness) as [H0 | H0].
    + right. apply Z.leb_gt. lia.
    + left. apply Z.leb_gt. lia.
Qed.

(** X6. [set_device_on(True)] raises its assertion with nothing sent;
    [set_device_on(False)] is the register write of 0 to DEVICE_ON. *)
Theorem set_device_on_only_off (self : RadiaCode) :
  seq_ok self ->
  u32 VSFR_DEVICE_ON ->
  set_device_on true self = (Raise (AssertionError A_device_off), self)
  /\ set_device_on false self = write_request VSFR_DEVICE_ON (Some (le_bytes 4 0)) self
  /\ frames_of self (snd (set_device_on false self))
       [write_frame VSFR_DEVICE_ON 0 (_seq self)].
Proof.
  intros Hseq Hreg. split; [reflexivity|].
  assert (E : set_device_on false self
              = write_request VSFR_DEVICE_ON (Some (le_bytes 4 0)) self) by reflexivity.
  split; [exact E|]. rewrite E. apply register_write_frame; try assumption.
  unfold u32. lia.
Qed.

(** X7. [set_language] writes 1 to the language register for ['en'] and 0
    for ['ru']; for any other string it raises its assertion and leaves the
    session as it was, with nothing sent. *)
Theorem set_language_values (lang : string) (self : RadiaCode) :
  seq_ok self ->
  u32 VSFR_DEVICE_LANG ->
  (lang = "en"%string ->
   frames_of self (snd (set_language lang self)) [write_frame VSFR_DEVICE_LANG 1 (_seq self)])
  /\ (lang = "ru"%string ->
      frames_of self (snd (set_language lang self)) [write_frame VSFR_DEVICE_LANG 0 (_seq self)])
  /\ (lang <> "ru"%string -> lang <> "en"%string ->
      set_language lang self = (Raise (AssertionError A_lang), self)).
Proof.
  intros Hseq Hreg. split; [|split].
  - intros ->.
    change (set_language "en" self)
      with (write_request VSFR_DEVICE_LANG (Some (le_bytes 4 1)) self).
    apply register_write_frame; try assumption. unfold u32. lia.
  - intros ->.
    change (set_language "ru" self)
      with (write_request VSFR_DEVICE_LANG (Some (le_bytes 4 0)) self).
    apply register_write_frame; try assumption. unfold u32. lia.
  - intros Hru Hen. unfold set_language, bind, assert, lift.
    apply String.eqb_neq in Hru, Hen. now rewrite Hru, Hen.
Qed.

Lemma vibro_flags_spec (ctrls : list Z) :
  forall flags,
    vibro_flags ctrls flags
    = if existsb (fun c => c =? CTRL_CLICKS) ctrls
      then Raise (AssertionError A_clicks)
      else Ok (fold_left Z.lor ctrls flags).
Proof.
  induction ctrls as [|c ctrls IH]; intros flags; [reflexivity|].
  cbn [vibro_flags existsb fold_left].
  destruct (c =? CTRL_CLICKS); [reflexivity|]. cbn [orb]. apply IH.
Qed.

(** X8. The flags word of [set_sound_ctrl] and [set_vibro_ctrl] has a bit
    set exactly when one of the controls has it, so order and repetition of
    the controls do not matter. [set_sound_ctrl] writes it to SOUND_CTRL;
    [set_vibro_ctrl] raises its assertion with nothing sent when CLICKS is
    among the controls and otherwise writes it to VIBRO_CTRL. In both
    methods a flags word outside the ['I'] format is a [struct.error] with
    nothing sent (in [set_vibro_ctrl] when CLICKS is not among the
    controls: its assertion comes first). *)
Theorem control_flags (ctrls : list Z) (self : RadiaCode) :
  seq_ok self ->
  u32 VSFR_SOUND_CTRL ->
  u32 VSFR_VIBRO_CTRL ->
  (forall i, Z.testbit (or_flags ctrls) i = existsb (fun c => Z.testbit c i) ctrls)
  /\ (u32 (or_flags ctrls) ->
      frames_of self (snd (set_sound_ctrl ctrls self))
        [write_frame VSFR_SOUND_CTRL (or_flags ctrls) (_seq self)])
  /\ (In CTRL_CLICKS ctrls ->
      set_vibro_ctrl ctrls self = (Raise (AssertionError A_clicks), self))
  /\ (~ In CTRL_CLICKS ctrls -> u32 (or_flags ctrls) ->
      frames_of self (snd (set_vibro_ctrl ctrls self))
        [write_frame VSFR_VIBRO_CTRL (or_flags ctrls) (_seq self)])
  /\ (~ u32 (or_flags ctrls) ->
      set_sound_ctrl ctrls self = (Raise StructError, self))
  /\ (~ In CTRL_CLICKS ctrls -> ~ u32 (or_flags ctrls) ->
      set_vibro_ctrl ctrls self = (Raise StructError, self)).
Proof.
  intros Hseq Hsound Hvibro.
  assert (Hloop : ~ In CTRL_CLICKS ctrls -> vibro_flags ctrls 0 = Ok (or_flags ctrls)).
  { intros Hnot. rewrite vibro_flags_spec.
    replace (existsb (fun c => c =? CTRL_CLICKS) ctrls) with false; [reflexivity|].
    symmetry. apply not_true_is_false. intros H.
    apply existsb_exists in H. destruct H as (x & Hx & Ex).
    apply Z.eqb_eq in Ex. subst x. exact (Hnot Hx). }
  split; [|split; [|split; [|split; [|split]]]].
  - intros i. unfold or_flags. rewrite testbit_fold_lor. now rewrite Z.testbit_0_l.
  - intros Hflags.
    assert (E : set_sound_ctrl ctrls self
                = write_request VSFR_SOUND_CTRL (Some (le_bytes 4 (or_flags ctrls))) self).
    { unfold set_sound_ctrl, bind, lift. fold (or_flags ctrls).
      now rewrite pack_I_ok by exact Hflags. }
    rewrite E. now apply register_write_frame.
  - intros Hin. unfold set_vibro_ctrl, bind, lift. rewrite vibro_flags_spec.
    replace (existsb (fun c => c =? CTRL_CLICKS) ctrls) with true; [reflexivity|].
    symmetry. apply existsb_exists. exists CTRL_CLICKS. split; [exact Hin|].
    apply Z.eqb_refl.
  - intros Hnot Hflags.
    assert (E : set_vibro_ctrl ctrls self
                = write_request VSFR_VIBRO_CTRL (Some (le_bytes 4 (or_flags ctrls))) self).
    { unfold set_vibro_ctrl, bind, lift. rewrite vibro_flags_spec.
      replace (existsb (fun c => c =? CTRL_CLICKS) ctrls) with false.
      - fold (or_flags ctrls). now rewrite pack_I_ok by exact Hflags.
      - symmetry. apply not_true_is_false. intros H.
        apply existsb_exists in H. destruct H as (x & Hx & Ex).
        apply Z.eqb_eq in Ex. subst x. exact (Hnot Hx). }
    rewrite E. now apply register_write_frame.
  - intros Hbad. unfold set_sound_ctrl, bind, lift. fold (or_flags ctrls).
    now rewrite pack_I_error by exact Hbad.
  - intros Hnot Hbad. unfold set_vibro_ctrl, bind, lift.
    rewrite (Hloop Hnot). cbn [rbind].
    now rewrite pack_I_error by exact Hbad.
Qed.

End Setters.

(** ** [set_local_time] *)

Lemma rmap_pack_B (l : list Z) :
  Forall (fun z => 0 <= z < 256) l ->
  rmap pack_B l = Ok (map (fun z => [byte_of_int z]) l).
Proof.
  induction 1 as [|z l Hz _ IH]; [reflexivity|].
  cbn [rmap map] in *. rewrite pack_B_ok by exact Hz. cbn [rbind].
  now rewrite IH.
Qed.

Lemma concat_singletons {A B} (f : A -> B) (l : list A) :
  List.concat (map (fun a => [f a]) l) = map f l.
Proof.
  induction l as [|a l IH]; [reflexivity|]. cbn [map List.concat app]. now rewrite IH.
Qed.

Section LocalTime.
Context {imports : Imports}.

(** X9. [set_local_time] sends day, month, year - 2000, 0, second, minute,
    hour, 0 as 8 bytes with opcode 04 0a when the year is within 2000..2255;
    for a date of any other year [struct.pack] raises before anything is
    sent and the session is as it was. *)
Theorem set_local_time_year_window (dt : datetime) (self : RadiaCode) :
  seq_ok self ->
  valid_datetime dt ->
  (2000 <= year dt <= 2255 ->
   frames_of self (snd (set_local_time dt self))
     [frame_of [x04; x0a] (_seq self) (time_payload dt)])
  /\ (~ 2000 <= year dt <= 2255 ->
      set_local_time dt self = (Raise StructError, self)).
Proof.
  intros Hseq (Hy & Hmo & Hd & Hh & Hmi & Hs & _). split.
  - intros Hwin. unfold set_local_time, bind, lift.
    rewrite rmap_pack_B by (repeat constructor; lia).
    cbn [rbind]. rewrite concat_singletons. fold (time_payload dt).
    rewrite execute_run; [| reflexivity | exact Hseq | cbn; lia ].
    cbn [or_empty]. split_cases; reflexivity.
  - intros Hout. unfold set_local_time, bind, lift. cbn [rmap].
    rewrite !pack_B_ok by lia. cbn [rbind].
    unfold pack_B. rewrite pack_uint_error by (cbn; lia). reflexivity.
Qed.

End LocalTime.

(** ** [hw_serial_number] *)

Lemma length_hex_digits (n : nat) :
  forall (v : Z) (tail : string),
    String.length (hex_digits n v tail) = (n + String.length tail)%nat.
Proof.
  induction n as [|n IH]; intros v tail; [reflexivity|].
  cbn [hex_digits]. rewrite IH. cbn [String.length]. lia.
Qed.

Section SerialNumber.
Context {imports : Imports}.

(** X10. When the answer to [hw_serial_number] declares [4 * k] bytes and
    carries [k] words, the method returns the words in their order, each as
    8 upper-case hexadecimal digits, joined by [-]; a declared length that
    is no multiple of 4 raises the serial-length assertion. *)
Theorem hw_serial_number_text (self : RadiaCode) :
  seq_ok self ->
  let frame := frame_of [x0b; x00] (_seq self) [] in
  let hdr := header_of [x0b; x00] (_seq self) in
  (forall groups,
      Forall u32 groups ->
      Z.of_nat (4 * List.length groups) < 2 ^ 32 ->
      answer self frame
      = Ok (hdr ++ le_bytes 4 (Z.of_nat (4 * List.length groups)) ++ words groups) ->
      fst (hw_serial_number self) = Ok (join "-" (map hex8 groups))
      /\ Forall (fun g => String.length g = 8%nat) (map hex8 groups))
  /\ (forall serial_len rest,
        u32 serial_len -> serial_len mod 4 <> 0 ->
        answer self frame = Ok (hdr ++ le_bytes 4 serial_len ++ rest) ->
        fst (hw_serial_number self) = Raise (AssertionError A_serial_len)).
Proof.
  intros Hseq frame hdr.
  assert (Hhdr : List.length hdr = 4%nat) by reflexivity.
  assert (Hrun : forall payload,
            answer self frame = Ok (hdr ++ payload) ->
            fst (hw_serial_number self)
            = fst ((('(serial_len, r) <- lift (unpack_I {| _data := hdr ++ payload; _pos := 4 |}) ;;
                    assert (serial_len mod 4 =? 0) A_serial_len ;;
                    '(serial_groups, r) <-
                      lift (unpack_I_times (Z.to_nat (serial_len / 4)) r) ;;
                    assert (size r =? 0) A_exhausted ;;
                    ret (join "-" (map hex8 serial_groups)))
                     (hand_over frame (advance self))))).
  { intros payload Hans. unfold hw_serial_number. unfold bind at 1.
    rewrite execute_run; [| reflexivity | exact Hseq | cbn; lia ].
    cbn [or_empty]. fold frame. rewrite Hans. cbn [rbind]. unfold unpack_s.
    rewrite unpack_bytes_new by reflexivity. cbn [rbind].
    fold hdr. now rewrite bytes_eqb_refl. }
  split.
  - intros groups Hall Hfit Hans. split.
    + rewrite (Hrun _ Hans). unfold bind, lift, assert, ret, unpack_I.
      rewrite (unpack_bytes_at 4 4 hdr) by (exact Hhdr || apply length_le_bytes).
      cbn [rbind]. rewrite le_value_le_bytes by (cbn; lia).
      replace (Z.of_nat (4 * List.length groups) mod 4 =? 0) with true.
      2:{ symmetry. apply Z.eqb_eq. rewrite Nat2Z.inj_mul, Z.mul_comm.
          apply Z.mod_mul. lia. }
      replace (Z.to_nat (Z.of_nat (4 * List.length groups) / 4)) with (List.length groups).
      2:{ rewrite Nat2Z.inj_mul, Z.mul_comm, Z.div_mul by lia. now rewrite Nat2Z.id. }
      cbn [Nat.add].
      pose proof (unpack_I_times_words groups 8
                    (hdr ++ le_bytes 4 (Z.of_nat (4 * List.length groups))) []) as Hw.
      rewrite <- !app_assoc, app_nil_r in Hw. rewrite Hw;
        [| rewrite length_app, length_le_bytes; reflexivity | exact Hall].
      unfold size. cbn [_data _pos fst snd rbind].
      rewrite !length_app, length_le_bytes, length_words, Hhdr.
      replace (Z.of_nat (4 + (4 + 4 * List.length groups))
               - Z.of_nat (8 + 4 * List.length groups) =? 0) with true
        by (symmetry; apply Z.eqb_eq; lia).
      reflexivity.
    + apply Forall_map, Forall_forall. intros g _. unfold hex8.
      now rewrite length_hex_digits.
  - intros serial_len rest Hlen Hmod Hans.
    rewrite (Hrun _ Hans). unfold bind, lift, assert, ret, unpack_I.
    rewrite (unpack_bytes_at 4 4 hdr) by (exact Hhdr || apply length_le_bytes).
    cbn [rbind]. rewrite le_value_le_bytes by exact Hlen.
    now replace (serial_len mod 4 =? 0) with false
      by (symmetry; apply Z.eqb_neq; exact Hmod).
Qed.

End SerialNumber.

(** ** [fw_version] *)

Lemma unpack_bytes_split (n k : nat) (d pre x post : bytes) :
  d = pre ++ x ++ post -> List.length pre = k -> List.length x = n ->
  unpack_bytes n {| _data := d; _pos := k |} = Ok (x, {| _data := d; _pos := (k + n)%nat |}).
Proof. intros ->. apply unpack_bytes_at. Qed.

Lemma unpack_HH_split (k : nat) (d pre post : bytes) (a b : Z) :
  d = pre ++ (le_bytes 2 a ++ le_bytes 2 b) ++ post -> List.length pre = k ->
  0 <= a < 2 ^ 16 -> 0 <= b < 2 ^ 16 ->
  unpack_HH {| _data := d; _pos := k |} = Ok ((a, b), {| _data := d; _pos := (k + 4)%nat |}).
Proof.
  intros Hd Hk Ha Hb. unfold unpack_HH.
  rewrite (unpack_bytes_split 4 k d pre (le_bytes 2 a ++ le_bytes 2 b) post Hd Hk)
    by (rewrite length_app, !length_le_bytes; reflexivity).
  cbn [rbind]. rewrite firstn_exact, skipn_exact by apply length_le_bytes.
  now rewrite !le_value_le_bytes by (cbn; lia).
Qed.

Lemma unpack_string_split (k : nat) (d pre post text : bytes) :
  d = pre ++ (byte_of_int (Z.of_nat (List.length text)) :: text) ++ post ->
  List.length pre = k ->
  (List.length text < 256)%nat ->
  unpack_string {| _data := d; _pos := k |}
  = Ok (rstrip is_nul (str_of_bytes text),
        {| _data := d; _pos := (k + 1 + List.length text)%nat |}).
Proof.
  intros Hd Hk Hlen. unfold unpack_string, unpack_B.
  rewrite (unpack_bytes_split 1 k d pre [byte_of_int (Z.of_nat (List.length text))]
             (text ++ post)) by (assumption || reflexivity).
  cbn [rbind le_value]. rewrite int_of_byte_of_int by lia.
  rewrite Z.mul_0_r, Z.add_0_r, Nat2Z.id.
  rewrite (unpack_bytes_split (List.length text) (k + 1) d
             (pre ++ [byte_of_int (Z.of_nat (List.length text))]) text post);
    [reflexivity | rewrite Hd, <- app_assoc; reflexivity
     | rewrite length_app, Hk; reflexivity | reflexivity].
Qed.

Section FirmwareVersion.
Context {imports : Imports}.

(** X11. [fw_version] reads minor before major for both the boot and the
    target version and returns them as (major, minor), each with its
    length-prefixed date; any byte after the target date raises the
    exhaustion assertion. *)
Theorem fw_version_report (self : RadiaCode)
    (boot_minor boot_major target_minor target_major : Z) (boot_date target_date extra : bytes) :
  seq_ok self ->
  0 <= boot_minor < 2 ^ 16 -> 0 <= boot_major < 2 ^ 16 ->
  0 <= target_minor < 2 ^ 16 -> 0 <= target_major < 2 ^ 16 ->
  (List.length boot_date < 256)%nat -> (List.length target_date < 256)%nat ->
  answer self (frame_of [x0a; x00] (_seq self) [])
  = Ok (header_of [x0a; x00] (_seq self)
        ++ (le_bytes 2 boot_minor ++ le_bytes 2 boot_major)
        ++ (byte_of_int (Z.of_nat (List.length boot_date)) :: boot_date)
        ++ (le_bytes 2 target_minor ++ le_bytes 2 target_major)
        ++ (byte_of_int (Z.of_nat (List.length target_date)) :: target_date)
        ++ extra) ->
  (extra = [] ->
   fst (fw_version self)
   = Ok ((boot_major, boot_minor, rstrip is_nul (str_of_bytes boot_date)),
         (target_major, target_minor,
          strip is_nul (rstrip is_nul (str_of_bytes target_date)))))
  /\ (extra <> [] -> fst (fw_version self) = Raise (AssertionError A_exhausted)).
Proof.
  intros Hseq Hbm HbM Htm HtM Hbd Htd Hans.
  set (hdr := header_of [x0a; x00] (_seq self)) in *.
  set (x1 := le_bytes 2 boot_minor ++ le_bytes 2 boot_major) in *.
  set (x2 := byte_of_int (Z.of_nat (List.length boot_date)) :: boot_date) in *.
  set (x3 := le_bytes 2 target_minor ++ le_bytes 2 target_major) in *.
  set (x4 := byte_of_int (Z.of_nat (List.length target_date)) :: target_date) in *.
  set (d := hdr ++ x1 ++ x2 ++ x3 ++ x4 ++ extra) in *.
  assert (L0 : List.length hdr = 4%nat) by reflexivity.
  assert (L1 : List.length x1 = 4%nat)
    by (unfold x1; rewrite length_app, !length_le_bytes; reflexivity).
  assert (L2 : List.length x2 = S (List.length boot_date)) by reflexivity.
  assert (L3 : List.length x3 = 4%nat)
    by (unfold x3; rewrite length_app, !length_le_bytes; reflexivity).
  assert (L4 : List.length x4 = S (List.length target_date)) by reflexivity.
  assert (Hrun : fst (fw_version self)
                 = (('((boot_minor, boot_major), r) <- unpack_HH {| _data := d; _pos := 4 |} ;;
                     '(boot_date, r) <- unpack_string r ;;
                     '((target_minor, target_major), r) <- unpack_HH r ;;
                     '(target_date, r) <- unpack_string r ;;
                     if size r =? 0
                     then Ok ((boot_major, boot_minor, boot_date),
                              (target_major, target_minor, strip is_nul target_date))
                     else Raise (AssertionError A_exhausted))%result)).
  { unfold fw_version. unfold bind at 1.
    rewrite execute_run; [| reflexivity | exact Hseq | cbn; lia ].
    cbn [or_empty]. rewrite Hans. cbn [rbind]. unfold unpack_s.
    fold hdr. fold d. unfold d at 1.
    rewrite unpack_bytes_new by reflexivity. cbn [rbind].
    rewrite bytes_eqb_refl. fold d.
    unfold bind, lift, assert, ret.
    destruct (unpack_HH _) as [[[a b] r1]|e]; cbn [rbind fst]; [|reflexivity].
    destruct (unpack_string r1) as [[s1 r2]|e]; cbn [rbind fst]; [|reflexivity].
    destruct (unpack_HH r2) as [[[a' b'] r3]|e]; cbn [rbind fst]; [|reflexivity].
    destruct (unpack_string r3) as [[s2 r4]|e]; cbn [rbind fst]; [|reflexivity].
    destruct (size r4 =? 0); reflexivity. }
  rewrite Hrun.
  rewrite (unpack_HH_split 4 d hdr (x2 ++ x3 ++ x4 ++ extra) boot_minor boot_major)
    by (assumption || reflexivity).
  cbn [rbind].
  rewrite (unpack_string_split (4 + 4) d (hdr ++ x1) (x3 ++ x4 ++ extra) boot_date);
    [| unfold d; fold x2; now rewrite <- !app_assoc
     | rewrite length_app, L0, L1; reflexivity | exact Hbd ].
  cbn [rbind].
  rewrite (unpack_HH_split (4 + 4 + 1 + List.length boot_date) d (hdr ++ x1 ++ x2)
             (x4 ++ extra) target_minor target_major);
    [| unfold d; fold x3; now rewrite <- !app_assoc
     | rewrite !length_app, L0, L1, L2; lia | exact Htm | exact HtM ].
  cbn [rbind].
  rewrite (unpack_string_split (4 + 4 + 1 + List.length boot_date + 4) d
             (hdr ++ x1 ++ x2 ++ x3) extra target_date);
    [| unfold d; fold x4; now rewrite <- !app_assoc
     | rewrite !length_app, L0, L1, L2, L3; lia | exact Htd ].
  cbn [rbind].
  assert (Hsize : size {| _data := d;
                          _pos := (4 + 4 + 1 + List.length boot_date + 4 + 1
                                   + List.length target_date)%nat |}
                  = Z.of_nat (List.length extra)).
  { unfold size, d. cbn [_data _pos]. rewrite !length_app, L0, L1, L2, L3, L4. lia. }
  rewrite Hsize. split.
  - intros ->. reflexivity.
  - intros Hne. destruct extra as [|b extra']; [congruence|]. reflexivity.
Qed.

End FirmwareVersion.

(** ** The trace of a successful initialization *)

Lemma pack_uint_inv (n : nat) (z : Z) (bs : bytes) :
  pack_uint n z = Ok bs -> 0 <= z < 256 ^ Z.of_nat n /\ bs = le_bytes n z.
Proof.
  unfold pack_uint. destruct (0 <=? z) eqn:E1; [|discriminate].
  destruct (z <? 256 ^ Z.of_nat n) eqn:E2; [|discriminate].
  cbn [andb]. intros H. injection H as <-.
  apply Z.leb_le in E1. apply Z.ltb_lt in E2. split; [lia | reflexivity].
Qed.

Lemma pack_I_inv (z : Z) (bs : bytes) : pack_I z = Ok bs -> u32 z /\ bs = le_bytes 4 z.
Proof. apply pack_uint_inv. Qed.

Lemma rmap_pack_B_inv (l : list Z) :
  forall d, rmap pack_B l = Ok d ->
    Forall (fun z => 0 <= z < 256) l /\ List.concat d = map byte_of_int l.
Proof.
  induction l as [|z l IH]; intros d H.
  - injection H as <-. split; [constructor | reflexivity].
  - cbn [rmap] in H. destruct (pack_B z) as [b|e] eqn:Eb; [|discriminate H].
    cbn [rbind] in H. fold (rmap pack_B l) in H.
    destruct (rmap pack_B l) as [d'|e] eqn:Ed; [|discriminate H].
    cbn [rbind] in H. injection H as <-.
    apply pack_uint_inv in Eb. destruct Eb as [Hz ->].
    destruct (IH d' eq_refl) as [Hall Hc].
    split; [constructor; [exact Hz | exact Hall]|].
    cbn [List.concat le_bytes app map]. rewrite Hc.
    rewrite Z.mod_small by exact Hz. reflexivity.
Qed.

Section Trace.
Context {imports : Imports}.

Lemma set_local_time_ok (dt : datetime) (self self' : RadiaCode) (u : unit) :
  seq_ok self ->
  set_local_time dt self = (Ok u, self') ->
  self' = hand_over (frame_of [x04; x0a] (_seq self) (time_payload dt)) (advance self).
Proof.
  intros Hseq H. unfold set_local_time in H.
  apply bind_ok in H. destruct H as (d & s & Hd & H).
  apply lift_ok in Hd. destruct Hd as [Hd ->].
  apply rmap_pack_B_inv in Hd. destruct Hd as [_ Hd].
  apply bind_ok in H. destruct H as (r & s & Hr & H).
  apply execute_ok in Hr; [| reflexivity | exact Hseq].
  injection H as _ <-. cbn [or_empty] in Hr. now rewrite Hd in Hr.
Qed.

Lemma write_request_ok (command_id : Z) (value : option bytes)
    (self self' : RadiaCode) (u : unit) :
  seq_ok self ->
  write_request command_id value self = (Ok u, self') ->
  u32 command_id
  /\ self' = hand_over (frame_of [x25; x08] (_seq self)
                          (le_bytes 4 command_id ++ or_empty value)) (advance self).
Proof.
  intros Hseq H. unfold write_request in H.
  apply bind_ok in H. destruct H as (a & s & Ha & H).
  apply lift_ok in Ha. destruct Ha as [Ha ->].
  apply pack_I_inv in Ha. destruct Ha as [Hid ->].
  apply bind_ok in H. destruct H as (r & s & Hr & H).
  apply execute_ok in Hr; [| reflexivity | exact Hseq]. cbn [or_empty] in Hr.
  apply bind_ok in H. destruct H as ([retcode r'] & s1 & H1 & H).
  apply lift_ok in H1. destruct H1 as [_ ->].
  apply bind_ok in H. destruct H as (u1 & s2 & H2 & H).
  apply assert_ok in H2. destruct H2 as [_ ->].
  apply assert_ok in H. destruct H as [_ ->].
  split; [exact Hid | exact Hr].
Qed.

Lemma fw_version_ok (self self' : RadiaCode) (v : (Z * Z * string) * (Z * Z * string)) :
  seq_ok self ->
  fw_version self = (Ok v, self') ->
  self' = hand_over (frame_of [x0a; x00] (_seq self) []) (advance self).
Proof.
  intros Hseq H. unfold fw_version in H.
  apply bind_ok in H. destruct H as (r & s & Hr & H).
  apply execute_ok in Hr; [| reflexivity | exact Hseq]. cbn [or_empty] in Hr.
  apply bind_ok in H. destruct H as ([[a b] r1] & s1 & H1 & H).
  apply lift_ok in H1. destruct H1 as [_ ->].
  apply bind_ok in H. destruct H as ([d1 r2] & s2 & H2 & H).
  apply lift_ok in H2. destruct H2 as [_ ->].
  apply bind_ok in H. destruct H as ([[a' b'] r3] & s3 & H3 & H).
  apply lift_ok in H3. destruct H3 as [_ ->].
  apply bind_ok in H. destruct H as ([d2 r4] & s4 & H4 & H).
  apply lift_ok in H4. destruct H4 as [_ ->].
  apply bind_ok in H. destruct H as (u & s5 & H5 & H).
  apply assert_ok in H5. destruct H5 as [_ ->].
  injection H as _ <-. exact Hr.
Qed.

Lemma read_request_ok (command_id : Z) (self self' : RadiaCode) (r : BytesBuffer) :
  seq_ok self ->
  read_request command_id self = (Ok r, self') ->
  u32 command_id
  /\ self' = hand_over (frame_of [x26; x08] (_seq self) (le_bytes 4 command_id))
               (advance self).
Proof.
  intros Hseq H. unfold read_request in H.
  apply bind_ok in H. destruct H as (a & s & Ha & H).
  apply lift_ok in Ha. destruct Ha as [Ha ->].
  apply pack_I_inv in Ha. destruct Ha as [Hid ->].
  apply bind_ok in H. destruct H as (r0 & s & Hr & H).
  apply execute_ok in Hr; [| reflexivity | exact Hseq]. cbn [or_empty] in Hr.
  apply bind_ok in H. destruct H as ([[retcode flen] r1] & s1 & H1 & H).
  apply lift_ok in H1. destruct H1 as [_ ->].
  apply bind_ok in H. destruct H as (u1 & s2 & H2 & H).
  apply assert_ok in H2. destruct H2 as [_ ->].
  cbv zeta in H.
  apply bind_ok in H. destruct H as (u2 & s3 & H3 & H).
  apply assert_ok in H3. destruct H3 as [_ ->].
  injection H as _ <-. split; [exact Hid | exact Hr].
Qed.

Lemma scan_configuration_ok (lines : list string) (self self' : RadiaCode) (u : unit) :
  scan_configuration lines self = (Ok u, self') ->
  self' = self \/ exists v, self' = set_spectrum_format_version v self.
Proof.
  induction lines as [|line lines IH]; cbn [scan_configuration]; intros H.
  - injection H as _ <-. now left.
  - destruct (startswith line "SpecFormatVersion"); [|exact (IH H)].
    apply bind_ok in H. destruct H as (v & s & Hv & H).
    apply lift_ok in Hv. destruct Hv as [_ ->].
    injection H as _ <-. right. now exists v.
Qed.

(** X12. Whenever [__init__] returns a session, exactly five frames went
    to the transport, in this order and with the sequence bytes 0x80 to
    0x84: the initialization command, the local time, the write of 0 to
    DEVICE_TIME, the firmware version request and the read of CONFIGURATION.
    The session has the counter at 5, the clock value sent as its base time
    and a spectrum format version. *)
Theorem init_trace (host : Host) (bluetooth_mac serial_number : option string)
    (ignore : bool) (session : RadiaCode) :
  __init__ host bluetooth_mac serial_number ignore = Ok session ->
  exists c v,
    match bluetooth_mac with
    | Some mac => Bluetooth host mac
    | None => Usb host serial_number
    end = Ok c
    /\ device (_connection session) = device c
    /\ sent (_connection session)
       = sent c ++ [ frame_of [x07; x00] 0 [x01; xff; x12; xff];
                     frame_of [x04; x0a] 1 (time_payload (clock host));
                     write_frame VSFR_DEVICE_TIME 0 2;
                     frame_of [x0a; x00] 3 [];
                     frame_of [x26; x08] 4 (le_bytes 4 VS_CONFIGURATION) ]
    /\ _seq session = 5
    /\ _base_time session = Some (clock host)
    /\ _spectrum_format_version session = Some v.
Proof.
  unfold __init__. intros H.
  destruct (match bluetooth_mac with Some mac => _ | None => _ end) as [c|e];
    cbn [rbind] in H; [|discriminate H].
  set (self0 := {| _connection := c; _seq := 0; _base_time := None;
                   _spectrum_format_version := None |}) in H.
  destruct (initialize _ _ self0) as [[[]|e] self'] eqn:E; [|discriminate H].
  injection H as ->.
  unfold initialize in E.
  apply bind_ok in E. destruct E as (r1 & s1 & H1 & E).
  apply execute_ok in H1; [| reflexivity | unfold seq_ok; cbn; lia].
  apply bind_ok in E. destruct E as (u2 & s2 & H2 & E).
  unfold modify in H2. injection H2 as _ <-.
  apply bind_ok in E. destruct E as (u3 & s3 & H3 & E).
  apply set_local_time_ok in H3; [| subst s1; apply seq_ok_step].
  apply bind_ok in E. destruct E as (u4 & s4 & H4 & E).
  unfold device_time in H4.
  apply bind_ok in H4. destruct H4 as (d & s & Hd & H4).
  apply lift_ok in Hd. destruct Hd as [Hd ->]. injection Hd as <-.
  apply write_request_ok in H4; [| subst s3; apply seq_ok_step].
  destruct H4 as [_ H4].
  apply bind_ok in E. destruct E as ([boot [[vmaj vmin] date]] & s5 & H5 & E).
  apply fw_version_ok in H5; [| subst s4; apply seq_ok_step].
  apply bind_ok in E. destruct E as (u6 & s6 & H6 & E).
  assert (Es6 : s6 = s5).
  { destruct (firmware_rejected ignore vmaj vmin); [discriminate H6|].
    now injection H6 as _ <-. }
  subst s6. clear H6.
  unfold read_spectrum_format_version in E.
  apply bind_ok in E. destruct E as (u7 & s7 & H7 & E).
  unfold modify in H7. injection H7 as _ <-.
  apply bind_ok in E. destruct E as (text & s8 & H8 & E).
  unfold configuration in H8.
  apply bind_ok in H8. destruct H8 as (r & s & Hr & H8).
  apply lift_ok in H8. destruct H8 as [_ ->].
  apply read_request_ok in Hr; [| subst s5; apply seq_ok_step].
  destruct Hr as [_ Hr].
  apply scan_configuration_ok in E.
  subst s1 s3 s4 s5.
  exists c.
  destruct E as [-> | [v ->]]; [exists 0 | exists v]; subst s;
    (split; [reflexivity|]);
    unfold self0, hand_over, advance, write_frame;
    cbn [set_connection set_seq set_base_time set_spectrum_format_version
         _connection _seq _base_time _spectrum_format_version sent device or_empty];
    (split; [reflexivity|]);
    (split; [rewrite <- !app_assoc; reflexivity|]);
    repeat split.
Qed.

End Trace.

(** ** Scripts of calls *)

Section ScriptsOfCalls.
Context {imports : Imports}.

Lemma counted_calls (ops : list operation) : counted (calls ops).
Proof.
  induction ops as [|op ops IH]; cbn [calls].
  - apply counted_ret.
  - apply counted_bind; [apply counted_call | intros _; exact IH].
Qed.

(** X14. After [__init__] and any script of method calls, run until the
    first exception, the counter is within 0..31 and, unless the script
    ended on a [struct.error], equals the number of frames sent since the
    connection was opened, modulo 32. *)
Theorem counter_tracks_frames (host : Host) (bluetooth_mac serial_number : option string)
    (ignore : bool) (session : RadiaCode) (ops : list operation) :
  __init__ host bluetooth_mac serial_number ignore = Ok session ->
  let outcome := calls ops session in
  exists c frames,
    match bluetooth_mac with
    | Some mac => Bluetooth host mac
    | None => Usb host serial_number
    end = Ok c
    /\ sent (_connection (snd outcome)) = sent c ++ frames
    /\ seq_ok (snd outcome)
    /\ (fst outcome <> Raise StructError ->
        _seq (snd outcome) = Z.of_nat (List.length frames) mod 32).
Proof.
  intros Hinit outcome.
  destruct (init_counter _ _ _ _ _ Hinit) as (c & frames0 & Hc & Hsent & Hseq).
  assert (Hok : seq_ok session).
  { unfold seq_ok. rewrite Hseq. apply Z.mod_pos_bound. lia. }
  destruct (counted_calls ops session Hok) as (frames & Hf & Hcount).
  exists c, (frames0 ++ frames). split; [exact Hc|]. split; [|split].
  - unfold outcome. unfold frames_of in Hf. now rewrite Hf, Hsent, app_assoc.
  - apply counted_seq_ok; [apply counted_calls | exact Hok].
  - intros Hno. unfold outcome in *.
    destruct Hcount as [E | [E _]]; [|contradiction].
    rewrite E, Hseq, length_app, Nat2Z.inj_add, Z.add_mod_idemp_l by lia.
    reflexivity.
Qed.

End ScriptsOfCalls.

(** ** [set_energy_calib] and [spectrum_reset] *)

Lemma Ok_inj {A} (a b : A) : Ok a = Ok b -> a = b.
Proof. intros H. now injection H. Qed.

Lemma pack_f_length (x : float) (bs : bytes) :
  pack_f x = Ok bs -> List.length bs = 4%nat.
Proof.
  unfold pack_f. intros H.
  destruct x as [s|s| |s m e].
  1-3: apply Ok_inj in H; rewrite <- H; apply length_le_bytes.
  destruct (binary_round 24 128 s m e) as [s'|s'| |s' m' e'].
  - apply Ok_inj in H; rewrite <- H; apply length_le_bytes.
  - discriminate H.
  - discriminate H.
  - destruct (2 ^ 23 <=? Z.pos m');
      apply Ok_inj in H; rewrite <- H; apply length_le_bytes.
Qed.

Lemma rmap_pack_f_length (coef : list float) :
  forall pcs, rmap pack_f coef = Ok pcs ->
    List.length (List.concat pcs) = (4 * List.length coef)%nat.
Proof.
  induction coef as [|x coef IH]; intros pcs H.
  - injection H as <-. reflexivity.
  - cbn [rmap] in H. destruct (pack_f x) as [b|e] eqn:Eb; [|discriminate H].
    cbn [rbind] in H. fold (rmap pack_f coef) in H.
    destruct (rmap pack_f coef) as [pcs'|e] eqn:Ep; [|discriminate H].
    cbn [rbind] in H. injection H as <-.
    cbn [List.concat List.length]. rewrite length_app, (pack_f_length x b Eb), (IH pcs' eq_refl).
    lia.
Qed.

Section Calibration.
Context {imports : Imports}.

(** X15. [set_energy_calib] raises its assertion with nothing sent unless
    it is given exactly 3 coefficients. With 3 coefficients that pack as
    binary32 it sends the register id, the length 12 and the 12 bytes under
    opcode 27 08, and succeeds on return code 1 whatever bytes follow it:
    it does not check that the answer is exhausted. *)
Theorem set_energy_calib_checks (coef : list float) (pcs : list bytes) (extra : bytes)
    (self : RadiaCode) :
  seq_ok self ->
  u32 VS_ENERGY_CALIB ->
  (List.length coef <> 3%nat ->
   set_energy_calib coef self = (Raise (AssertionError A_coef_len), self))
  /\ (List.length coef = 3%nat ->
      rmap pack_f coef = Ok pcs ->
      let frame := frame_of [x27; x08] (_seq self)
                     (le_bytes 4 VS_ENERGY_CALIB ++ le_bytes 4 12 ++ List.concat pcs) in
      answer self frame = Ok (header_of [x27; x08] (_seq self) ++ le_bytes 4 1 ++ extra) ->
      set_energy_calib coef self = (Ok tt, hand_over frame (advance self))).
Proof.
  intros Hseq Hreg. split.
  - intros Hlen. unfold set_energy_calib, bind, assert, lift.
    apply Nat.eqb_neq in Hlen. now rewrite Hlen.
  - intros Hlen Hpack frame Hans.
    pose proof (rmap_pack_f_length coef pcs Hpack) as Hpc. rewrite Hlen in Hpc.
    unfold set_energy_calib, bind, assert, lift.
    rewrite Hlen, Hpack. cbn [Nat.eqb rbind].
    rewrite Hpc. change (Z.of_nat (4 * 3)) with 12.
    cbn [rmap]. rewrite !pack_I_ok by (assumption || (cbn; lia)).
    cbn [rbind List.concat]. rewrite app_nil_r, <- app_assoc.
    rewrite execute_run;
      [| reflexivity | exact Hseq
       | unfold header_of, or_empty; rewrite !length_app, !length_le_bytes, Hpc;
         cbn [List.length]; lia ].
    cbn [or_empty]. fold frame. rewrite Hans. cbn [rbind]. unfold unpack_s.
    rewrite unpack_bytes_new by reflexivity. cbn [rbind].
    rewrite bytes_eqb_refl. unfold unpack_I.
    rewrite (unpack_bytes_at 4 4 (header_of [x27; x08] (_seq self)))
      by (reflexivity || apply length_le_bytes).
    cbn [rbind]. rewrite le_value_le_bytes by (cbn; lia). reflexivity.
Qed.

(** X16. [spectrum_reset] sends the SPECTRUM id and a zero length under
    opcode 27 08; on return code 1 it succeeds when nothing follows and
    raises the exhaustion assertion when anything does. *)
Theorem spectrum_reset_outcomes (extra : bytes) (self : RadiaCode) :
  seq_ok self ->
  u32 VS_SPECTRUM ->
  let frame := frame_of [x27; x08] (_seq self) (le_bytes 4 VS_SPECTRUM ++ le_bytes 4 0) in
  answer self frame = Ok (header_of [x27; x08] (_seq self) ++ le_bytes 4 1 ++ extra) ->
  frames_of self (snd (spectrum_reset self)) [frame]
  /\ (extra = [] -> fst (spectrum_reset self) = Ok tt)
  /\ (extra <> [] -> fst (spectrum_reset self) = Raise (AssertionError A_exhausted)).
Proof.
  intros Hseq Hreg frame Hans.
  assert (Hrun : spectrum_reset self
                 = (if size {| _data := header_of [x27; x08] (_seq self) ++ le_bytes 4 1 ++ extra;
                               _pos := 8 |} =? 0
                    then Ok tt else Raise (AssertionError A_exhausted),
                    hand_over frame (advance self))).
  { unfold spectrum_reset, bind, assert, lift. cbn [rmap].
    rewrite !pack_I_ok by (assumption || (cbn; lia)).
    cbn [rbind List.concat]. rewrite app_nil_r.
    rewrite execute_run;
      [| reflexivity | exact Hseq
       | unfold header_of, or_empty; rewrite !length_app, !length_le_bytes;
         cbn [List.length]; lia ].
    cbn [or_empty]. fold frame. rewrite Hans. cbn [rbind]. unfold unpack_s.
    rewrite unpack_bytes_new by reflexivity. cbn [rbind].
    rewrite bytes_eqb_refl. unfold unpack_I.
    rewrite (unpack_bytes_at 4 4 (header_of [x27; x08] (_seq self)))
      by (reflexivity || apply length_le_bytes).
    cbn [rbind]. rewrite le_value_le_bytes by (cbn; lia).
    cbn [Z.eqb Pos.eqb Nat.add]. destruct (size _ =? 0); reflexivity. }
  rewrite Hrun. cbn [fst snd]. split; [reflexivity|].
  assert (Hsize : size {| _data := header_of [x27; x08] (_seq self) ++ le_bytes 4 1 ++ extra;
                          _pos := 8 |} = Z.of_nat (List.length extra)).
  { unfold size. cbn [_data _pos]. rewrite !length_app, length_le_bytes.
    unfold header_of. cbn [List.length app]. lia. }
  rewrite Hsize. split.
  - intros ->. reflexivity.
  - intros Hne. destruct extra; [congruence | reflexivity].
Qed.

End Calibration.

(** ** A rejected firmware *)

Section Rejection.
Context {imports : Imports}.

(** X13. When the first four steps of [__init__] succeed on a fresh
    session and the version reported is rejected, the exception is raised
    after exactly four frames: local time and device time were already
    written, and the configuration is not requested. *)
Theorem firmware_rejection_trace (now : datetime) (ignore : bool) (self : RadiaCode)
    (s1 s2 s3 s4 : RadiaCode) (r : BytesBuffer) (u : unit)
    (boot : Z * Z * string) (vmaj vmin : Z) (date : string) :
  _seq self = 0 ->
  execute [x07; x00] (Some [x01; xff; x12; xff]) self = (Ok r, s1) ->
  set_local_time now (set_base_time now s1) = (Ok u, s2) ->
  device_time 0 s2 = (Ok u, s3) ->
  fw_version s3 = (Ok (boot, (vmaj, vmin, date)), s4) ->
  firmware_rejected ignore vmaj vmin = true ->
  initialize now ignore self = (Raise (IncompatibleFirmware vmaj vmin), s4)
  /\ frames_of self s4 [ frame_of [x07; x00] 0 [x01; xff; x12; xff];
                         frame_of [x04; x0a] 1 (time_payload now);
                         write_frame VSFR_DEVICE_TIME 0 2;
                         frame_of [x0a; x00] 3 [] ]
  /\ _base_time s4 = Some now.
Proof.
  intros Hseq0 H1 H2 H3 H4 Hrej.
  split; [exact (initialize_rejects now ignore self s1 s2 s3 s4 r u boot vmaj vmin date
                   H1 H2 H3 H4 Hrej)|].
  assert (Hseq : seq_ok self) by (unfold seq_ok; lia).
  apply execute_ok in H1; [| reflexivity | exact Hseq].
  apply set_local_time_ok in H2; [| subst s1; apply seq_ok_step].
  unfold device_time in H3.
  apply bind_ok in H3. destruct H3 as (d & s & Hd & H3).
  apply lift_ok in Hd. destruct Hd as [Hd ->]. injection Hd as <-.
  apply write_request_ok in H3; [| subst s2; apply seq_ok_step].
  destruct H3 as [_ H3].
  apply fw_version_ok in H4; [| subst s3; apply seq_ok_step].
  subst s4 s3 s2 s1.
  unfold frames_of, hand_over, advance, write_frame.
  cbn [set_connection set_seq set_base_time _connection _seq _base_time sent device or_empty].
  rewrite Hseq0. split; [rewrite <- !app_assoc; reflexivity | reflexivity].
Qed.

End Rejection.

(** * The further properties at work on sample sessions *)

Lemma execute_failure_modes_witness :
  fst (execute [x05; x00] None (ready (constant_device [x05]) 0)) = Raise UnderflowError.
Proof.
  pose proof (execute_failure_modes [x05; x00] None (ready (constant_device [x05]) 0)
                eq_refl) as H.
  cbv zeta in H.
  destruct H as (_ & _ & H); [apply ready_seq_ok; lia | cbn; lia |].
  apply (H [x05]); [reflexivity | cbn; lia].
Defined.

Lemma write_request_outcomes_witness :
  fst (write_request 1283 (Some (le_bytes 4 0)) (ready (scripted_device [le_bytes 4 1]) 9))
  = Ok tt.
Proof.
  pose proof (write_request_outcomes 1283 (le_bytes 4 0) (le_bytes 4 1)
                (ready (scripted_device [le_bytes 4 1]) 9)) as H.
  cbv zeta in H.
  destruct H as (_ & H & _);
    [unfold u32; lia | apply ready_seq_ok; lia | cbn; lia | reflexivity |].
  apply H. reflexivity.
Defined.

Lemma read_request_rejections_witness :
  fst (read_request 8 (ready (scripted_device [le_bytes 4 0 ++ le_bytes 4 0]) 0))
  = Raise DeviceRejectedError.
Proof.
  pose proof (read_request_rejections 8 (le_bytes 4 0 ++ le_bytes 4 0)
                (ready (scripted_device [le_bytes 4 0 ++ le_bytes 4 0]) 0)) as H.
  cbv zeta in H.
  destruct H as (_ & _ & H); [unfold u32; lia | apply ready_seq_ok; lia | reflexivity |].
  apply H; [cbn; lia | cbn; lia].
Defined.

Lemma set_display_off_time_codes_witness :
  exists code,
    In (15, code) [(5, 0); (10, 1); (15, 2); (30, 3)]
    /\ set_display_off_time (imports := sample_imports) 15 (ready (scripted_device []) 0)
       = write_request 1299 (Some (le_bytes 4 code)) (ready (scripted_device []) 0)
    /\ frames_of (ready (scripted_device []) 0)
         (snd (set_display_off_time (imports := sample_imports) 15
                 (ready (scripted_device []) 0)))
         [write_frame 1299 code 0].
Proof.
  apply (set_display_off_time_codes (imports := sample_imports) 15
           (ready (scripted_device []) 0)).
  - apply ready_seq_ok. lia.
  - unfold u32. cbn. lia.
  - cbn. tauto.
Defined.

Lemma set_display_brightness_bounds_witness :
  set_display_brightness (imports := sample_imports) 10 (ready (scripted_device []) 0)
  = (Raise (AssertionError A_brightness), ready (scripted_device []) 0).
Proof.
  apply (set_display_brightness_bounds (imports := sample_imports) 10
           (ready (scripted_device []) 0)).
  - apply ready_seq_ok. lia.
  - unfold u32. cbn. lia.
  - lia.
Defined.

Lemma set_device_on_only_off_witness :
  set_device_on (imports := sample_imports) true (ready (scripted_device []) 0)
  = (Raise (AssertionError A_device_off), ready (scripted_device []) 0).
Proof.
  apply (set_device_on_only_off (imports := sample_imports) (ready (scripted_device []) 0)).
  - apply ready_seq_ok. lia.
  - unfold u32. cbn. lia.
Defined.

Lemma set_language_values_witness :
  frames_of (ready (scripted_device []) 6)
    (snd (set_language (imports := sample_imports) "en" (ready (scripted_device []) 6)))
    [write_frame 1282 1 6].
Proof.
  apply (set_language_values (imports := sample_imports) "en" (ready (scripted_device []) 6)).
  - apply ready_seq_ok. lia.
  - unfold u32. cbn. lia.
  - reflexivity.
Defined.

Lemma control_flags_witness :
  frames_of (ready (scripted_device []) 0)
    (snd (set_vibro_ctrl (imports := sample_imports) [1; 4] (ready (scripted_device []) 0)))
    [write_frame 1328 5 0]
  /\ set_vibro_ctrl (imports := sample_imports) [1; 2] (ready (scripted_device []) 0)
     = (Raise (AssertionError A_clicks), ready (scripted_device []) 0)
  /\ set_vibro_ctrl (imports := sample_imports) [1; 4294967296] (ready (scripted_device []) 0)
     = (Raise StructError, ready (scripted_device []) 0).
Proof.
  split; [|split].
  - apply (control_flags (imports := sample_imports) [1; 4] (ready (scripted_device []) 0)).
    + apply ready_seq_ok. lia.
    + unfold u32. cbn. lia.
    + unfold u32. cbn. lia.
    + cbn. intros [H | [H | []]]; discriminate H.
    + unfold u32. cbn. lia.
  - apply (control_flags (imports := sample_imports) [1; 2] (ready (scripted_device []) 0)).
    + apply ready_seq_ok. lia.
    + unfold u32. cbn. lia.
    + unfold u32. cbn. lia.
    + cbn. tauto.
  - apply (control_flags (imports := sample_imports) [1; 4294967296]
             (ready (scripted_device []) 0)).
    + apply ready_seq_ok. lia.
    + unfold u32. cbn. lia.
    + unfold u32. cbn. lia.
    + cbn. intros [H | [H | []]]; discriminate H.
    + unfold u32. cbn. lia.
Defined.

Lemma set_local_time_year_window_witness :
  set_local_time
    {| year := 1999; month := 12; day := 31; hour := 23; minute := 59; second := 59;
       microsecond := 0 |}
    (ready (scripted_device []) 0)
  = (Raise StructError, ready (scripted_device []) 0).
Proof.
  apply (set_local_time_year_window).
  - apply ready_seq_ok. lia.
  - unfold valid_datetime. cbn. lia.
  - cbn. lia.
Defined.

Lemma hw_serial_number_text_witness :
  fst (hw_serial_number
         (ready (scripted_device [le_bytes 4 8 ++ words [3735928559; 16]]) 0))
  = Ok "DEADBEEF-00000010"%string.
Proof.
  pose proof (hw_serial_number_text
                (ready (scripted_device [le_bytes 4 8 ++ words [3735928559; 16]]) 0)) as H.
  cbv zeta in H. destruct H as [H _]; [apply ready_seq_ok; lia|].
  destruct (H [3735928559; 16]) as [E _].
  - repeat constructor; unfold u32; lia.
  - cbn. lia.
  - reflexivity.
  - exact E.
Defined.

Lemma fw_version_report_witness :
  fst (fw_version
         (ready (scripted_device
                   [le_bytes 2 1 ++ le_bytes 2 4 ++ [x00]
                    ++ le_bytes 2 8 ++ le_bytes 2 4 ++ [x00]]) 3))
  = Ok ((4, 1, EmptyString), (4, 8, EmptyString)).
Proof.
  pose proof (fw_version_report
                (ready (scripted_device
                          [le_bytes 2 1 ++ le_bytes 2 4 ++ [x00]
                           ++ le_bytes 2 8 ++ le_bytes 2 4 ++ [x00]]) 3)
                1 4 8 4 [] [] []) as H.
  destruct H as [H _]; try lia; try (cbn; lia).
  - apply ready_seq_ok. lia.
  - reflexivity.
  - exact (H eq_refl).
Defined.

Lemma sample_init_succeeds :
  exists session,
    __init__ (imports := sample_imports) (sample_host (scripted_device sample_init_script))
      None None false = Ok session.
Proof. eexists. vm_compute. reflexivity. Defined.

Lemma init_trace_witness :
  exists session,
    __init__ (imports := sample_imports) (sample_host (scripted_device sample_init_script))
      None None false = Ok session
    /\ _seq session = 5
    /\ _base_time session = Some (clock (sample_host (scripted_device sample_init_script))).
Proof.
  destruct sample_init_succeeds as [session H].
  exists session. split; [exact H|].
  destruct (init_trace _ _ _ _ _ H) as (c & v & _ & _ & _ & Hseq & Htime & _).
  split; [exact Hseq | exact Htime].
Defined.

Lemma counter_tracks_frames_witness :
  exists session,
    __init__ (imports := sample_imports) (sample_host (scripted_device sample_init_script))
      None None false = Ok session
    /\ seq_ok (snd (calls (imports := sample_imports) [Call_status; Call_dose_reset] session)).
Proof.
  destruct sample_init_succeeds as [session H].
  exists session. split; [exact H|].
  destruct (counter_tracks_frames _ _ _ _ _ [Call_status; Call_dose_reset] H)
    as (c & frames & _ & _ & Hok & _).
  exact Hok.
Defined.

Lemma firmware_rejection_trace_witness :
  fst (initialize (imports := sample_imports)
         (clock (sample_host (scripted_device firmware_4_7_script))) true
         {| _connection := connect (scripted_device firmware_4_7_script); _seq := 0;
            _base_time := None; _spectrum_format_version := None |})
  = Raise (IncompatibleFirmware 4 7).
Proof.
  refine (f_equal fst
            (proj1 (firmware_rejection_trace (imports := sample_imports)
                      (clock (sample_host (scripted_device firmware_4_7_script))) true
                      {| _connection := connect (scripted_device firmware_4_7_script);
                         _seq := 0; _base_time := None;
                         _spectrum_format_version := None |}
                      _ _ _ _ _ tt _ 4 7 _ eq_refl _ _ _ _ eq_refl))).
  - lazy. reflexivity.
  - lazy. reflexivity.
  - lazy. reflexivity.
  - lazy. reflexivity.
Defined.

Lemma set_energy_calib_checks_witness :
  fst (set_energy_calib (imports := sample_imports)
         [S754_zero false; S754_finite false 4503599627370496 (-52); S754_zero false]
         (ready (scripted_device [le_bytes 4 1 ++ [x07]]) 0))
  = Ok tt.
Proof.
  pose proof (set_energy_calib_checks (imports := sample_imports)
                [S754_zero false; S754_finite false 4503599627370496 (-52); S754_zero false]
                [le_bytes 4 0; le_bytes 4 1065353216; le_bytes 4 0] [x07]
                (ready (scripted_device [le_bytes 4 1 ++ [x07]]) 0)) as H.
  destruct H as [_ H]; [apply ready_seq_ok; lia | unfold u32; cbn; lia |].
  cbv zeta in H. rewrite H; reflexivity.
Defined.

Lemma spectrum_reset_outcomes_witness :
  fst (spectrum_reset (imports := sample_imports)
         (ready (scripted_device [le_bytes 4 1 ++ [x07]]) 0))
  = Raise (AssertionError A_exhausted).
Proof.
  pose proof (spectrum_reset_outcomes (imports := sample_imports) [x07]
                (ready (scripted_device [le_bytes 4 1 ++ [x07]]) 0)) as H.
  cbv zeta in H.
  destruct H as (_ & _ & H); [apply ready_seq_ok; lia | unfold u32; cbn; lia | reflexivity |].
  apply H. discriminate.
Defined.
